(** * colormath: conversions between colour spaces

    A shallow embedding of [colormath/color_conversions.py] and the
    properties of its conversion functions.

    The module is Python 2 code (it uses the [print] statement and has no
    [from __future__ import division]), so [/] between two [int]s is floor
    division and [/] with a [float] operand is true division.

    Python [float]s are idealised as real numbers: every arithmetic
    operation is exact, rounding and overflow are not modelled.  Python
    [int]s are unbounded integers.

    Two consequences for the statements.  [math.pow] raises
    [OverflowError] on a result beyond the largest [float], which an
    exact power never is: the properties of [Lab_to_LCH], of
    [Luv_to_LCH] and of the round trips through them are therefore
    stated for the calls that return.  And a [float] quotient can round
    to 0.0 where the exact quotient is positive: a bound that rounding
    can reach is stated as a closed bound. *)

From Stdlib Require Import Reals Lra Lia ZArith String Ascii List.
From stdpp Require Import base option gmap strings.

Open Scope R_scope.

(** ** Exceptions and results *)

(** The exceptions the conversion functions can raise. *)
Inductive exn : Type :=
| ZeroDivisionError    (* division by zero, int or float *)
| ValueError           (* math domain error *)
| KeyError             (* a missing key of a constants table *)
| UnboundLocalError.   (* a local variable read before assignment *)

(** A call either returns a value or raises. *)
Inductive result (A : Type) : Type :=
| Ok (a : A)
| Raise (e : exn).
Arguments Ok {A} a.
Arguments Raise {A} e.

Definition bind {A B : Type} (r : result A) (k : A -> result B) : result B :=
  match r with
  | Ok a => k a
  | Raise e => Raise e
  end.

Notation "'let*' x ':=' r 'in' k" := (bind r (fun x => k))
  (at level 10, x name, r at level 100, k at level 200,
   format "'[v' 'let*'  x  ':='  r  'in' '/' k ']'").

Definition returns {A : Type} (r : result A) : Prop := exists a, r = Ok a.

(** ** Python numbers *)

(** A number is an [int] or a [float]. *)
Inductive num : Type :=
| Int (z : Z)
| Float (r : R).

(** The value of a number, as [float(n)] gives it. *)
Definition to_float (n : num) : R :=
  match n with
  | Int z => IZR z
  | Float r => r
  end.

(** [a - b]: an [int] when both are, a [float] otherwise. *)
Definition num_sub (a b : num) : num :=
  match a, b with
  | Int x, Int y => Int (x - y)
  | _, _ => Float (to_float a - to_float b)
  end.

(** [a + b] and [a * b], likewise. *)
Definition num_add (a b : num) : num :=
  match a, b with
  | Int x, Int y => Int (x + y)
  | _, _ => Float (to_float a + to_float b)
  end.

Definition num_mul (a b : num) : num :=
  match a, b with
  | Int x, Int y => Int (x * y)
  | _, _ => Float (to_float a * to_float b)
  end.

(** [a / b] in Python 2: floor division on two [int]s, true division
    otherwise; a zero divisor raises in both cases. *)
Definition num_div (a b : num) : result num :=
  match a, b with
  | Int x, Int y =>
      if Z.eqb y 0 then Raise ZeroDivisionError else Ok (Int (x / y)%Z)
  | _, _ =>
      if Req_dec_T (to_float b) 0 then Raise ZeroDivisionError
      else Ok (Float (to_float a / to_float b))
  end.

(** [a / b] on two [float]s. *)
Definition fdiv (a b : R) : result R :=
  if Req_dec_T b 0 then Raise ZeroDivisionError else Ok (a / b).

(** [a < b], [a > b] and [a == b] compare numbers by value. *)
Definition num_lt (a b : num) : bool :=
  if Rlt_dec (to_float a) (to_float b) then true else false.

Definition num_gt (a b : num) : bool :=
  if Rgt_dec (to_float a) (to_float b) then true else false.

Definition num_eq (a b : num) : bool :=
  if Req_dec_T (to_float a) (to_float b) then true else false.

Definition gtb (a b : R) : bool := if Rgt_dec a b then true else false.

(** ** The [math] module *)

(** [y] holds an integral value. *)
Definition is_integral (y : R) : bool :=
  if Req_dec_T (IZR (Int_part y)) y then true else false.

(** [math.pow(x, y)]: a negative base with a fractional exponent and a
    zero base with a negative exponent are domain errors.  The result is
    the exact power: the [OverflowError] that [math.pow] raises when the
    result is beyond the largest [float] belongs to the format of the
    floats and has no counterpart here. *)
Definition math_pow (x y : R) : result R :=
  if Rlt_dec 0 x then Ok (Rpower x y)
  else if Req_dec_T x 0 then
    if Rlt_dec 0 y then Ok 0
    else if Req_dec_T y 0 then Ok 1
    else Raise ValueError
  else
    if is_integral y then Ok (powerRZ x (Int_part y))
    else Raise ValueError.

(** [math.sqrt(x)]. *)
Definition math_sqrt (x : R) : result R :=
  if Rlt_dec x 0 then Raise ValueError else Ok (sqrt x).

(** [math.atan2(y, x)], the angle of the point (x, y) in (-pi, pi].  The
    reals have one zero, so the sign of a [float] zero plays no part. *)
Definition math_atan2 (y x : R) : R :=
  if Rlt_dec 0 x then atan (y / x)
  else if Rlt_dec x 0 then
    if Rle_dec 0 y then atan (y / x) + PI else atan (y / x) - PI
  else
    if Rlt_dec 0 y then PI / 2
    else if Rlt_dec y 0 then - (PI / 2)
    else 0.

(** [math.fabs], [math.floor] and [math.radians]; [math.cos], [math.sin]
    and [math.pi] are [cos], [sin] and [PI]. *)
Definition math_fabs (x : R) : R := Rabs x.
Definition math_floor (x : R) : Z := Int_part x.
Definition math_radians (x : R) : R := x * PI / 180.

(** [str.lower()] on a byte string: A-Z become a-z. *)
Definition lower_ascii (c : ascii) : ascii :=
  let n := nat_of_ascii c in
  if ((65 <=? n) && (n <=? 90))%nat then ascii_of_nat (n + 32) else c.

Fixpoint lower (s : string) : string :=
  match s with
  | EmptyString => EmptyString
  | String c s' => String (lower_ascii c) (lower s')
  end.

(** [d[k]] on a dictionary with string keys. *)
Definition getitem {V : Type} (d : gmap string V) (k : string) : result V :=
  match d !! k with
  | Some v => Ok v
  | None => Raise KeyError
  end.

(** ** NumPy: a row vector times a 3x3 matrix *)

Definition vector : Type := R * R * R.
Definition matrix : Type := vector * vector * vector.

(** [numpy.dot(v, m)] for a vector [v] of three entries and a matrix [m]
    of three rows: entry [j] of the result is the sum of [v[i] * m[i][j]]. *)
Definition numpy_dot (v : vector) (m : matrix) : vector :=
  let '(v0, v1, v2) := v in
  let '((m00, m01, m02), (m10, m11, m12), (m20, m21, m22)) := m in
  (v0 * m00 + v1 * m10 + v2 * m20,
   v0 * m01 + v1 * m11 + v2 * m21,
   v0 * m02 + v1 * m12 + v2 * m22).

(** ** Colour objects *)

(** Every colour object carries an illuminant and an observer; the
    conversion functions read and write them on objects of any class. *)
Class ColorObject (A : Type) : Type := {
  illuminant : A -> string;
  observer : A -> string;
  set_illuminant : string -> A -> A;
  set_observer : string -> A -> A
}.

(** The attributes of the colorimetric spaces (XYZ, Lab, LCH, Luv, xyY)
    hold [float]s. *)
Record XYZColor : Type := {
  xyz_x : R; xyz_y : R; xyz_z : R;
  xyz_illuminant : string; xyz_observer : string
}.

(** A [LabColor] is the one object the module assigns foreign attributes
    on ([Lab_to_XYZ] writes [xyz_x], [xyz_y] and [xyz_z] on its argument):
    [lab_dict] holds the attributes of the instance that are none of
    [lab_l], [lab_a], [lab_b], [illuminant] and [observer]. *)
Record LabColor : Type := {
  lab_l : R; lab_a : R; lab_b : R;
  lab_illuminant : string; lab_observer : string;
  lab_dict : gmap string R
}.

Record LCHColor : Type := {
  lch_l : R; lch_c : R; lch_h : R;
  lch_illuminant : string; lch_observer : string
}.

Record LuvColor : Type := {
  luv_l : R; luv_u : R; luv_v : R;
  luv_illuminant : string; luv_observer : string
}.

Record xyYColor : Type := {
  xyy_x : R; xyy_y : R; xyy_Y : R;
  xyy_illuminant : string; xyy_observer : string
}.

(** The channels of an [RGBColor] and of a [CMYColor] hold [int]s or
    [float]s: [XYZ_to_RGB] stores [int]s, and [RGB_to_CMY] computes with
    whatever it finds. *)
Record RGBColor : Type := {
  rgb_r : num; rgb_g : num; rgb_b : num;
  rgb_illuminant : string; rgb_observer : string
}.

Record CMYColor : Type := {
  cmy_c : num; cmy_m : num; cmy_y : num;
  cmy_illuminant : string; cmy_observer : string
}.

(** [cmyk_k] is [None] while the attribute holds no number. *)
Record CMYKColor : Type := {
  cmyk_c : num; cmyk_m : num; cmyk_y : num; cmyk_k : option num;
  cmyk_illuminant : string; cmyk_observer : string
}.

(** *** Attribute assignment, one function per attribute *)

Definition set_xyz_x (v : R) (c : XYZColor) : XYZColor :=
  {| xyz_x := v; xyz_y := xyz_y c; xyz_z := xyz_z c;
     xyz_illuminant := xyz_illuminant c; xyz_observer := xyz_observer c |}.
Definition set_xyz_y (v : R) (c : XYZColor) : XYZColor :=
  {| xyz_x := xyz_x c; xyz_y := v; xyz_z := xyz_z c;
     xyz_illuminant := xyz_illuminant c; xyz_observer := xyz_observer c |}.
Definition set_xyz_z (v : R) (c : XYZColor) : XYZColor :=
  {| xyz_x := xyz_x c; xyz_y := xyz_y c; xyz_z := v;
     xyz_illuminant := xyz_illuminant c; xyz_observer := xyz_observer c |}.

Definition set_lab_l (v : R) (c : LabColor) : LabColor :=
  {| lab_l := v; lab_a := lab_a c; lab_b := lab_b c;
     lab_illuminant := lab_illuminant c; lab_observer := lab_observer c;
     lab_dict := lab_dict c |}.
Definition set_lab_a (v : R) (c : LabColor) : LabColor :=
  {| lab_l := lab_l c; lab_a := v; lab_b := lab_b c;
     lab_illuminant := lab_illuminant c; lab_observer := lab_observer c;
     lab_dict := lab_dict c |}.
Definition set_lab_b (v : R) (c : LabColor) : LabColor :=
  {| lab_l := lab_l c; lab_a := lab_a c; lab_b := v;
     lab_illuminant := lab_illuminant c; lab_observer := lab_observer c;
     lab_dict := lab_dict c |}.
Definition set_lab_dict (d : gmap string R) (c : LabColor) : LabColor :=
  {| lab_l := lab_l c; lab_a := lab_a c; lab_b := lab_b c;
     lab_illuminant := lab_illuminant c; lab_observer := lab_observer c;
     lab_dict := d |}.

(** [cobj.name = v] on a [LabColor], for a numeric [v]: the attribute of
    that name when the class has one, an entry of the instance dictionary
    otherwise. *)
Definition Lab_setattr (name : string) (v : R) (c : LabColor) : LabColor :=
  if decide (name = "lab_l") then set_lab_l v c
  else if decide (name = "lab_a") then set_lab_a v c
  else if decide (name = "lab_b") then set_lab_b v c
  else set_lab_dict (<[name := v]> (lab_dict c)) c.

Definition set_lch_l (v : R) (c : LCHColor) : LCHColor :=
  {| lch_l := v; lch_c := lch_c c; lch_h := lch_h c;
     lch_illuminant := lch_illuminant c; lch_observer := lch_observer c |}.
Definition set_lch_c (v : R) (c : LCHColor) : LCHColor :=
  {| lch_l := lch_l c; lch_c := v; lch_h := lch_h c;
     lch_illuminant := lch_illuminant c; lch_observer := lch_observer c |}.
Definition set_lch_h (v : R) (c : LCHColor) : LCHColor :=
  {| lch_l := lch_l c; lch_c := lch_c c; lch_h := v;
     lch_illuminant := lch_illuminant c; lch_observer := lch_observer c |}.

Definition set_luv_l (v : R) (c : LuvColor) : LuvColor :=
  {| luv_l := v; luv_u := luv_u c; luv_v := luv_v c;
     luv_illuminant := luv_illuminant c; luv_observer := luv_observer c |}.
Definition set_luv_u (v : R) (c : LuvColor) : LuvColor :=
  {| luv_l := luv_l c; luv_u := v; luv_v := luv_v c;
     luv_illuminant := luv_illuminant c; luv_observer := luv_observer c |}.
Definition set_luv_v (v : R) (c : LuvColor) : LuvColor :=
  {| luv_l := luv_l c; luv_u := luv_u c; luv_v := v;
     luv_illuminant := luv_illuminant c; luv_observer := luv_observer c |}.

Definition set_xyy_x (v : R) (c : xyYColor) : xyYColor :=
  {| xyy_x := v; xyy_y := xyy_y c; xyy_Y := xyy_Y c;
     xyy_illuminant := xyy_illuminant c; xyy_observer := xyy_observer c |}.
Definition set_xyy_y (v : R) (c : xyYColor) : xyYColor :=
  {| xyy_x := xyy_x c; xyy_y := v; xyy_Y := xyy_Y c;
     xyy_illuminant := xyy_illuminant c; xyy_observer := xyy_observer c |}.
Definition set_xyy_Y (v : R) (c : xyYColor) : xyYColor :=
  {| xyy_x := xyy_x c; xyy_y := xyy_y c; xyy_Y := v;
     xyy_illuminant := xyy_illuminant c; xyy_observer := xyy_observer c |}.

Definition set_rgb_r (v : num) (c : RGBColor) : RGBColor :=
  {| rgb_r := v; rgb_g := rgb_g c; rgb_b := rgb_b c;
     rgb_illuminant := rgb_illuminant c; rgb_observer := rgb_observer c |}.
Definition set_rgb_g (v : num) (c : RGBColor) : RGBColor :=
  {| rgb_r := rgb_r c; rgb_g := v; rgb_b := rgb_b c;
     rgb_illuminant := rgb_illuminant c; rgb_observer := rgb_observer c |}.
Definition set_rgb_b (v : num) (c : RGBColor) : RGBColor :=
  {| rgb_r := rgb_r c; rgb_g := rgb_g c; rgb_b := v;
     rgb_illuminant := rgb_illuminant c; rgb_observer := rgb_observer c |}.

Definition set_cmy_c (v : num) (c : CMYColor) : CMYColor :=
  {| cmy_c := v; cmy_m := cmy_m c; cmy_y := cmy_y c;
     cmy_illuminant := cmy_illuminant c; cmy_observer := cmy_observer c |}.
Definition set_cmy_m (v : num) (c : CMYColor) : CMYColor :=
  {| cmy_c := cmy_c c; cmy_m := v; cmy_y := cmy_y c;
     cmy_illuminant := cmy_illuminant c; cmy_observer := cmy_observer c |}.
Definition set_cmy_y (v : num) (c : CMYColor) : CMYColor :=
  {| cmy_c := cmy_c c; cmy_m := cmy_m c; cmy_y := v;
     cmy_illuminant := cmy_illuminant c; cmy_observer := cmy_observer c |}.

Definition set_cmyk_c (v : num) (c : CMYKColor) : CMYKColor :=
  {| cmyk_c := v; cmyk_m := cmyk_m c; cmyk_y := cmyk_y c; cmyk_k := cmyk_k c;
     cmyk_illuminant := cmyk_illuminant c; cmyk_observer := cmyk_observer c |}.
Definition set_cmyk_m (v : num) (c : CMYKColor) : CMYKColor :=
  {| cmyk_c := cmyk_c c; cmyk_m := v; cmyk_y := cmyk_y c; cmyk_k := cmyk_k c;
     cmyk_illuminant := cmyk_illuminant c; cmyk_observer := cmyk_observer c |}.
Definition set_cmyk_y (v : num) (c : CMYKColor) : CMYKColor :=
  {| cmyk_c := cmyk_c c; cmyk_m := cmyk_m c; cmyk_y := v; cmyk_k := cmyk_k c;
     cmyk_illuminant := cmyk_illuminant c; cmyk_observer := cmyk_observer c |}.

(** *** The illuminant and observer of each class *)

#[export] Instance XYZ_ColorObject : ColorObject XYZColor := {|
  illuminant := xyz_illuminant;
  observer := xyz_observer;
  set_illuminant s c :=
    {| xyz_x := xyz_x c; xyz_y := xyz_y c; xyz_z := xyz_z c;
       xyz_illuminant := s; xyz_observer := xyz_observer c |};
  set_observer s c :=
    {| xyz_x := xyz_x c; xyz_y := xyz_y c; xyz_z := xyz_z c;
       xyz_illuminant := xyz_illuminant c; xyz_observer := s |}
|}.

#[export] Instance Lab_ColorObject : ColorObject LabColor := {|
  illuminant := lab_illuminant;
  observer := lab_observer;
  set_illuminant s c :=
    {| lab_l := lab_l c; lab_a := lab_a c; lab_b := lab_b c;
       lab_illuminant := s; lab_observer := lab_observer c;
       lab_dict := lab_dict c |};
  set_observer s c :=
    {| lab_l := lab_l c; lab_a := lab_a c; lab_b := lab_b c;
       lab_illuminant := lab_illuminant c; lab_observer := s;
       lab_dict := lab_dict c |}
|}.

#[export] Instance LCH_ColorObject : ColorObject LCHColor := {|
  illuminant := lch_illuminant;
  observer := lch_observer;
  set_illuminant s c :=
    {| lch_l := lch_l c; lch_c := lch_c c; lch_h := lch_h c;
       lch_illuminant := s; lch_observer := lch_observer c |};
  set_observer s c :=
    {| lch_l := lch_l c; lch_c := lch_c c; lch_h := lch_h c;
       lch_illuminant := lch_illuminant c; lch_observer := s |}
|}.

#[export] Instance Luv_ColorObject : ColorObject LuvColor := {|
  illuminant := luv_illuminant;
  observer := luv_observer;
  set_illuminant s c :=
    {| luv_l := luv_l c; luv_u := luv_u c; luv_v := luv_v c;
       luv_illuminant := s; luv_observer := luv_observer c |};
  set_observer s c :=
    {| luv_l := luv_l c; luv_u := luv_u c; luv_v := luv_v c;
       luv_illuminant := luv_illuminant c; luv_observer := s |}
|}.

#[export] Instance xyY_ColorObject : ColorObject xyYColor := {|
  illuminant := xyy_illuminant;
  observer := xyy_observer;
  set_illuminant s c :=
    {| xyy_x := xyy_x c; xyy_y := xyy_y c; xyy_Y := xyy_Y c;
       xyy_illuminant := s; xyy_observer := xyy_observer c |};
  set_observer s c :=
    {| xyy_x := xyy_x c; xyy_y := xyy_y c; xyy_Y := xyy_Y c;
       xyy_illuminant := xyy_illuminant c; xyy_observer := s |}
|}.

#[export] Instance RGB_ColorObject : ColorObject RGBColor := {|
  illuminant := rgb_illuminant;
  observer := rgb_observer;
  set_illuminant s c :=
    {| rgb_r := rgb_r c; rgb_g := rgb_g c; rgb_b := rgb_b c;
       rgb_illuminant := s; rgb_observer := rgb_observer c |};
  set_observer s c :=
    {| rgb_r := rgb_r c; rgb_g := rgb_g c; rgb_b := rgb_b c;
       rgb_illuminant := rgb_illuminant c; rgb_observer := s |}
|}.

#[export] Instance CMY_ColorObject : ColorObject CMYColor := {|
  illuminant := cmy_illuminant;
  observer := cmy_observer;
  set_illuminant s c :=
    {| cmy_c := cmy_c c; cmy_m := cmy_m c; cmy_y := cmy_y c;
       cmy_illuminant := s; cmy_observer := cmy_observer c |};
  set_observer s c :=
    {| cmy_c := cmy_c c; cmy_m := cmy_m c; cmy_y := cmy_y c;
       cmy_illuminant := cmy_illuminant c; cmy_observer := s |}
|}.

#[export] Instance CMYK_ColorObject : ColorObject CMYKColor := {|
  illuminant := cmyk_illuminant;
  observer := cmyk_observer;
  set_illuminant s c :=
    {| cmyk_c := cmyk_c c; cmyk_m := cmyk_m c; cmyk_y := cmyk_y c;
       cmyk_k := cmyk_k c;
       cmyk_illuminant := s; cmyk_observer := cmyk_observer c |};
  set_observer s c :=
    {| cmyk_c := cmyk_c c; cmyk_m := cmyk_m c; cmyk_y := cmyk_y c;
       cmyk_k := cmyk_k c;
       cmyk_illuminant := cmyk_illuminant c; cmyk_observer := s |}
|}.

(** ** The modules [colorobjs] and [constants]

    Both are imported by [color_conversions.py] and are not part of the
    sources at hand.  The conversions are stated over any implementation
    of them. *)

(** The reference white of an illuminant: the dictionary with the keys
    ["X"], ["Y"] and ["Z"] that [get_illuminant_xyz()] returns. *)
Record white_point : Type := { wp_X : R; wp_Y : R; wp_Z : R }.

(** [colorobjs]: the object each constructor returns when called without
    arguments, and the reference white that [get_illuminant_xyz()] finds
    for the illuminant and the observer of the object it is called on. *)
Class Colorobjs : Type := {
  new_XYZColor : XYZColor;
  new_LabColor : LabColor;
  new_LCHColor : LCHColor;
  new_LuvColor : LuvColor;
  new_xyYColor : xyYColor;
  new_RGBColor : RGBColor;
  new_CMYColor : CMYColor;
  new_CMYKColor : CMYKColor;
  illuminant_xyz : string -> string -> result white_point
}.

(** An entry of [constants.RGB_SPECS]. *)
Record rgb_spec : Type := {
  native_illum : string;
  gamma : R;
  conversions : gmap string matrix
}.

(** [constants]: the tables of RGB working spaces and of chromatic
    adaptation matrices. *)
Class Constants : Type := {
  RGB_SPECS : gmap string rgb_spec;
  ADAPTATION_MATRICES : gmap string (gmap string (gmap string matrix))
}.

(** ** The conversions

    One definition per function of the module, in the order of the
    source.  [Spectral_to_XYZ], which reads a third table and an array
    of samples, follows in a section of its own. *)

Section Conversions.

Context {colorobjs : Colorobjs} {constants : Constants}.

Definition get_illuminant_xyz {A : Type} `{ColorObject A} (cobj : A)
  : result white_point :=
  illuminant_xyz (illuminant cobj) (observer cobj).

Definition _transfer_common {A B : Type} `{ColorObject A} `{ColorObject B}
  (old_cobj : A) (new_cobj : B) : B :=
  let new_cobj := set_illuminant (illuminant old_cobj) new_cobj in
  let new_cobj := set_observer (observer old_cobj) new_cobj in
  new_cobj.

Definition apply_XYZ_transformation (cobj : XYZColor)
  (orig_illum targ_illum adaptation : string) : result vector :=
  let orig_illum := lower orig_illum in
  let targ_illum := lower targ_illum in
  let adaptation := lower adaptation in
  let* from_orig := getitem ADAPTATION_MATRICES orig_illum in
  let* to_targ := getitem from_orig targ_illum in
  let* transform_matrix := getitem to_targ adaptation in
  let XYZ_matrix := (xyz_x cobj, xyz_y cobj, xyz_z cobj) in
  let result_matrix := numpy_dot XYZ_matrix transform_matrix in
  Ok result_matrix.

Definition apply_RGB_matrix (var1 var2 var3 : R) (rgb_type convtype : string)
  : result vector :=
  let rgb_type := lower rgb_type in
  let convtype := lower convtype in
  let* spec := getitem RGB_SPECS rgb_type in
  let* rgb_matrix := getitem (conversions spec) convtype in
  let var_matrix := (var1, var2, var3) in
  let result_matrix := numpy_dot var_matrix rgb_matrix in
  Ok result_matrix.

(** The hue is the angle of [math.atan2] in degrees: a positive angle
    as it is, any other angle taken from 360.  The quotient by [PI] is
    exact here; on floats the quotient of the smallest positive angle
    rounds to 0.0. *)
Definition Lab_to_LCH (cobj : LabColor) : result LCHColor :=
  let lchcolor := _transfer_common cobj new_LCHColor in
  let lchcolor := set_lch_l (lab_l cobj) lchcolor in
  let* a2 := math_pow (lab_a cobj) 2 in
  let* b2 := math_pow (lab_b cobj) 2 in
  let* c := math_sqrt (a2 + b2) in
  let lchcolor := set_lch_c c lchcolor in
  let lchcolor := set_lch_h (math_atan2 (lab_b cobj) (lab_a cobj)) lchcolor in
  let lchcolor :=
    if gtb (lch_h lchcolor) 0 then
      set_lch_h (lch_h lchcolor / PI * 180) lchcolor
    else
      set_lch_h (360 - math_fabs (lch_h lchcolor) / PI * 180) lchcolor in
  Ok lchcolor.

(** The function returns the new [XYZColor]; the first component of the
    result is the argument [cobj] as the call leaves it.  This is the one
    conversion with statements that assign attributes of its argument;
    the others only read theirs. *)
Definition Lab_to_XYZ (cobj : LabColor) : result (LabColor * XYZColor) :=
  let* illum := get_illuminant_xyz cobj in
  let xyzcolor := _transfer_common cobj new_XYZColor in
  let xyzcolor := set_xyz_y ((lab_l cobj + 16.0) / 116.0) xyzcolor in
  let xyzcolor := set_xyz_x (lab_a cobj / 500.0 + xyz_y xyzcolor) xyzcolor in
  let xyzcolor := set_xyz_z (xyz_y xyzcolor - lab_b cobj / 200.0) xyzcolor in
  let* y3 := math_pow (xyz_y xyzcolor) 3 in
  let* xyzcolor :=
    if gtb y3 0.008856 then
      let* p := math_pow (xyz_y xyzcolor) 3 in Ok (set_xyz_y p xyzcolor)
    else
      Ok (set_xyz_y ((xyz_y xyzcolor - 16.0 / 116.0) / 7.787) xyzcolor) in
  let* x3 := math_pow (xyz_x xyzcolor) 3 in
  let* xyzcolor :=
    if gtb x3 0.008856 then
      let* p := math_pow (xyz_x xyzcolor) 3 in Ok (set_xyz_x p xyzcolor)
    else
      Ok (set_xyz_x ((xyz_x xyzcolor - 16.0 / 116.0) / 7.787) xyzcolor) in
  let* z3 := math_pow (xyz_z xyzcolor) 3 in
  let* xyzcolor :=
    if gtb z3 0.008856 then
      let* p := math_pow (xyz_z xyzcolor) 3 in Ok (set_xyz_z p xyzcolor)
    else
      Ok (set_xyz_z ((xyz_z xyzcolor - 16.0 / 116.0) / 7.787) xyzcolor) in
  let cobj := Lab_setattr "xyz_x" (wp_X illum * xyz_x xyzcolor / 100) cobj in
  let cobj := Lab_setattr "xyz_y" (wp_Y illum * xyz_y xyzcolor / 100) cobj in
  let cobj := Lab_setattr "xyz_z" (wp_Z illum * xyz_z xyzcolor / 100) cobj in
  Ok (cobj, xyzcolor).

(** No statement assigns [lchcolor.lch_l].  The hue is computed as in
    [Lab_to_LCH], with the same exact quotient. *)
Definition Luv_to_LCH (cobj : LuvColor) : result LCHColor :=
  let lchcolor := _transfer_common cobj new_LCHColor in
  let* u2 := math_pow (luv_u cobj) 2 in
  let* v2 := math_pow (luv_v cobj) 2 in
  let* c := math_sqrt (u2 + v2) in
  let lchcolor := set_lch_c c lchcolor in
  let lchcolor := set_lch_h (math_atan2 (luv_v cobj) (luv_u cobj)) lchcolor in
  let lchcolor :=
    if gtb (lch_h lchcolor) 0 then
      set_lch_h (lch_h lchcolor / PI * 180) lchcolor
    else
      set_lch_h (360 - math_fabs (lch_h lchcolor) / PI * 180) lchcolor in
  Ok lchcolor.

Definition Luv_to_XYZ (cobj : LuvColor) : result XYZColor :=
  let xyzcolor := _transfer_common cobj new_XYZColor in
  let* illum := get_illuminant_xyz xyzcolor in
  let* ref_U :=
    fdiv (4.0 * wp_X illum)
         (wp_X illum + 15.0 * wp_Y illum + 3.0 * wp_Z illum) in
  let* ref_V :=
    fdiv (9.0 * wp_Y illum)
         (wp_X illum + 15.0 * wp_Y illum + 3.0 * wp_Z illum) in
  let* qu := fdiv (luv_u cobj) (13.0 * luv_l cobj) in
  let var_U := qu + ref_U in
  let* qv := fdiv (luv_u cobj) (13.0 * luv_l cobj) in
  let var_V := qv + ref_V in
  let var_Y := (luv_l cobj + 16) / 116.0 in
  let* y3 := math_pow var_Y 3 in
  let* var_Y :=
    if gtb y3 0.008856 then math_pow var_Y 3
    else Ok ((var_Y - 16.0 / 116.0) / 7.787) in
  let xyzcolor := set_xyz_y (var_Y * 100.0) xyzcolor in
  let* x :=
    fdiv (- (9.0 * xyz_y xyzcolor * var_U))
         ((var_U - 4.0) * var_V - var_U * var_V) in
  let xyzcolor := set_xyz_x x xyzcolor in
  let* z :=
    fdiv (9.0 * xyz_y xyzcolor - 15.0 * var_V * xyz_y xyzcolor
          - var_V * xyz_x xyzcolor)
         (3.0 * var_V) in
  let xyzcolor := set_xyz_z z xyzcolor in
  Ok xyzcolor.

Definition LCH_to_Lab (cobj : LCHColor) : result LabColor :=
  let labcolor := _transfer_common cobj new_LabColor in
  let labcolor := set_lab_l (lch_l cobj) labcolor in
  let labcolor :=
    set_lab_a (cos (math_radians (lch_h cobj)) * lch_c cobj) labcolor in
  let labcolor :=
    set_lab_b (sin (math_radians (lch_h cobj)) * lch_c cobj) labcolor in
  Ok labcolor.

Definition LCH_to_Luv (cobj : LCHColor) : result LuvColor :=
  let luvcolor := _transfer_common cobj new_LuvColor in
  let luvcolor := set_luv_l (lch_l cobj) luvcolor in
  let luvcolor :=
    set_luv_u (cos (math_radians (lch_h cobj)) * lch_c cobj) luvcolor in
  let luvcolor :=
    set_luv_v (sin (math_radians (lch_h cobj)) * lch_c cobj) luvcolor in
  Ok luvcolor.

Definition XYZ_to_xyY (cobj : XYZColor) : result xyYColor :=
  let xyycolor := _transfer_common cobj new_xyYColor in
  let* x := fdiv (xyz_x cobj) (xyz_x cobj + xyz_y cobj + xyz_z cobj) in
  let xyycolor := set_xyy_x x xyycolor in
  let* y := fdiv (xyz_y cobj) (xyz_x cobj + xyz_y cobj + xyz_z cobj) in
  let xyycolor := set_xyy_y y xyycolor in
  let xyycolor := set_xyy_Y (xyz_y cobj) xyycolor in
  Ok xyycolor.

Definition XYZ_to_Luv (cobj : XYZColor) : result LuvColor :=
  let luvcolor := _transfer_common cobj new_LuvColor in
  let temp_x := xyz_x cobj * 100.0 in
  let temp_y := xyz_y cobj * 100.0 in
  let temp_z := xyz_z cobj * 100.0 in
  let* u := fdiv (4.0 * temp_x) (temp_x + 15.0 * temp_y + 3.0 * temp_z) in
  let luvcolor := set_luv_u u luvcolor in
  let* v := fdiv (9.0 * temp_y) (temp_x + 15.0 * temp_y + 3.0 * temp_z) in
  let luvcolor := set_luv_v v luvcolor in
  let* illum := get_illuminant_xyz luvcolor in
  let* temp_y := fdiv temp_y (wp_Y illum) in
  let* temp_y :=
    if gtb temp_y 0.008856 then math_pow temp_y (1.0 / 3.0)
    else Ok (7.787 * temp_y + 16.0 / 116.0) in
  let* ref_U :=
    fdiv (4.0 * wp_X illum)
         (wp_X illum + 15.0 * wp_Y illum + 3.0 * wp_Z illum) in
  let* ref_V :=
    fdiv (9.0 * wp_Y illum)
         (wp_X illum + 15.0 * wp_Y illum + 3.0 * wp_Z illum) in
  let luvcolor := set_luv_l (116.0 * temp_y - 16.0) luvcolor in
  let luvcolor :=
    set_luv_u (13.0 * luv_l luvcolor * (luv_u luvcolor - ref_U)) luvcolor in
  let luvcolor :=
    set_luv_v (13.0 * luv_l luvcolor * (luv_v luvcolor - ref_V)) luvcolor in
  Ok luvcolor.

Definition XYZ_to_Lab (cobj : XYZColor) : result LabColor :=
  let* illum := get_illuminant_xyz cobj in
  let labcolor := _transfer_common cobj new_LabColor in
  let* temp_x := fdiv (xyz_x cobj * 100.0) (wp_X illum) in
  let* temp_y := fdiv (xyz_y cobj * 100.0) (wp_Y illum) in
  let* temp_z := fdiv (xyz_z cobj * 100.0) (wp_Z illum) in
  let* temp_x :=
    if gtb temp_x 0.008856 then math_pow temp_x (1.0 / 3.0)
    else Ok (7.787 * temp_x + 16.0 / 116.0) in
  let* temp_y :=
    if gtb temp_y 0.008856 then math_pow temp_y (1.0 / 3.0)
    else Ok (7.787 * temp_y + 16.0 / 116.0) in
  let* temp_z :=
    if gtb temp_z 0.008856 then math_pow temp_z (1.0 / 3.0)
    else Ok (7.787 * temp_z + 16.0 / 116.0) in
  let labcolor := set_lab_l (116.0 * temp_y - 16.0) labcolor in
  let labcolor := set_lab_a (500.0 * (temp_x - temp_y)) labcolor in
  let labcolor := set_lab_b (200.0 * (temp_y - temp_z)) labcolor in
  Ok labcolor.

(** [XYZ_to_RGB] up to the end of the companding (lines 269-325): the
    colour object as it stands, with its encoded channels, when the
    clamp at 0 begins.  [debug] only selects whether a line is
    printed. *)
Definition XYZ_to_RGB_companded (cobj : XYZColor) (target_rgb : string)
  (debug : bool) : result RGBColor :=
  let target_rgb := lower target_rgb in
  let rgbcolor := _transfer_common cobj new_RGBColor in
  let* spec := getitem RGB_SPECS target_rgb in
  let target_illum := native_illum spec in
  let* illum := get_illuminant_xyz cobj in
  (* the locals temp_X, temp_Y and temp_Z exist only once the branch
     below has run *)
  let* temp :=
    if decide (illuminant cobj <> target_illum) then
      let* adapted :=
        apply_XYZ_transformation cobj (illuminant cobj) target_illum
                                 "bradford" in
      Ok (Some adapted)
    else Ok None in
  let* temp_XYZ :=
    match temp with
    | Some adapted => Ok adapted
    | None => Raise UnboundLocalError
    end in
  let '(temp_X, temp_Y, temp_Z) := temp_XYZ in
  let* rgb := apply_RGB_matrix temp_X temp_Y temp_Z target_rgb "XYZ_to_RGB" in
  let '(r, g, b) := rgb in
  let rgbcolor := set_rgb_r (Float r) rgbcolor in
  let rgbcolor := set_rgb_g (Float g) rgbcolor in
  let rgbcolor := set_rgb_b (Float b) rgbcolor in
  if decide (target_rgb = "srgb") then
    let* rgbcolor :=
      if num_gt (rgb_r rgbcolor) (Float 0.0031308) then
        let* p := math_pow (to_float (rgb_r rgbcolor)) (1.0 / 2.4) in
        Ok (set_rgb_r (Float (1.055 * p - 0.055)) rgbcolor)
      else
        Ok (set_rgb_r (num_mul (rgb_r rgbcolor) (Float 12.92)) rgbcolor) in
    let* rgbcolor :=
      if num_gt (rgb_g rgbcolor) (Float 0.0031308) then
        let* p := math_pow (to_float (rgb_g rgbcolor)) (1.0 / 2.4) in
        Ok (set_rgb_g (Float (1.055 * p - 0.055)) rgbcolor)
      else
        Ok (set_rgb_g (num_mul (rgb_g rgbcolor) (Float 12.92)) rgbcolor) in
    let* rgbcolor :=
      if num_gt (rgb_b rgbcolor) (Float 0.0031308) then
        let* p := math_pow (to_float (rgb_b rgbcolor)) (1.0 / 2.4) in
        Ok (set_rgb_b (Float (1.055 * p - 0.055)) rgbcolor)
      else
        Ok (set_rgb_b (num_mul (rgb_b rgbcolor) (Float 12.92)) rgbcolor) in
    Ok rgbcolor
  else
    let* spec := getitem RGB_SPECS target_rgb in
    let gamma := gamma spec in
    let rgbcolor :=
      if num_lt (rgb_r rgbcolor) (Int 0) then set_rgb_r (Int 0) rgbcolor
      else rgbcolor in
    let rgbcolor :=
      if num_lt (rgb_g rgbcolor) (Int 0) then set_rgb_g (Int 0) rgbcolor
      else rgbcolor in
    let rgbcolor :=
      if num_lt (rgb_b rgbcolor) (Int 0) then set_rgb_b (Int 0) rgbcolor
      else rgbcolor in
    let* e := fdiv 1 gamma in
    let* p := math_pow (to_float (rgb_r rgbcolor)) e in
    let rgbcolor := set_rgb_r (Float p) rgbcolor in
    let* e := fdiv 1 gamma in
    let* p := math_pow (to_float (rgb_g rgbcolor)) e in
    let rgbcolor := set_rgb_g (Float p) rgbcolor in
    let* e := fdiv 1 gamma in
    let* p := math_pow (to_float (rgb_b rgbcolor)) e in
    let rgbcolor := set_rgb_b (Float p) rgbcolor in
    Ok rgbcolor.

(** The whole of [XYZ_to_RGB]: the part above, then the clamp at 0, the
    scaling to 0-255 and the cap at 255 (lines 327-348). *)
Definition XYZ_to_RGB (cobj : XYZColor) (target_rgb : string) (debug : bool)
  : result RGBColor :=
  let* rgbcolor := XYZ_to_RGB_companded cobj target_rgb debug in
  let rgbcolor :=
    if num_lt (rgb_r rgbcolor) (Int 0) then set_rgb_r (Int 0) rgbcolor
    else rgbcolor in
  let rgbcolor :=
    if num_lt (rgb_g rgbcolor) (Int 0) then set_rgb_g (Int 0) rgbcolor
    else rgbcolor in
  let rgbcolor :=
    if num_lt (rgb_b rgbcolor) (Int 0) then set_rgb_b (Int 0) rgbcolor
    else rgbcolor in
  let rgbcolor :=
    set_rgb_r
      (Int (math_floor
              (to_float (num_add (Float 0.5)
                                 (num_mul (rgb_r rgbcolor) (Int 255))))))
      rgbcolor in
  let rgbcolor :=
    set_rgb_g
      (Int (math_floor
              (to_float (num_add (Float 0.5)
                                 (num_mul (rgb_g rgbcolor) (Int 255))))))
      rgbcolor in
  let rgbcolor :=
    set_rgb_b
      (Int (math_floor
              (to_float (num_add (Float 0.5)
                                 (num_mul (rgb_b rgbcolor) (Int 255))))))
      rgbcolor in
  let rgbcolor :=
    if num_gt (rgb_r rgbcolor) (Int 255) then set_rgb_r (Int 255) rgbcolor
    else rgbcolor in
  let rgbcolor :=
    if num_gt (rgb_g rgbcolor) (Int 255) then set_rgb_g (Int 255) rgbcolor
    else rgbcolor in
  let rgbcolor :=
    if num_gt (rgb_b rgbcolor) (Int 255) then set_rgb_b (Int 255) rgbcolor
    else rgbcolor in
  Ok rgbcolor.

Definition xyY_to_XYZ (cobj : xyYColor) : result XYZColor :=
  let xyzcolor := _transfer_common cobj new_XYZColor in
  let* x := fdiv (xyy_x cobj * xyy_Y cobj) (xyy_y cobj) in
  let xyzcolor := set_xyz_x x xyzcolor in
  let xyzcolor := set_xyz_y (xyy_Y cobj) xyzcolor in
  let* z :=
    fdiv ((1.0 - xyy_x cobj - xyy_y cobj) * xyz_y xyzcolor) (xyy_y cobj) in
  let xyzcolor := set_xyz_z z xyzcolor in
  Ok xyzcolor.

(** [cdict] is not used. *)
Definition RGB_to_CMY {D : Type} (cobj : RGBColor) (cdict : D)
  : result CMYColor :=
  let cmycolor := _transfer_common cobj new_CMYColor in
  let* q := num_div (rgb_r cobj) (Int 255) in
  let cmycolor := set_cmy_c (num_sub (Int 1) q) cmycolor in
  let* q := num_div (rgb_g cobj) (Int 255) in
  let cmycolor := set_cmy_m (num_sub (Int 1) q) cmycolor in
  let* q := num_div (rgb_b cobj) (Int 255) in
  let cmycolor := set_cmy_y (num_sub (Int 1) q) cmycolor in
  Ok cmycolor.

(** [cdict] is not used. *)
Definition RGB_to_XYZ {D : Type} (cobj : RGBColor) (cdict : D)
  : result XYZColor :=
  let xyzcolor := _transfer_common cobj new_XYZColor in
  let xyzcolor := set_xyz_x 0.5 xyzcolor in
  let xyzcolor := set_xyz_y 0.5 xyzcolor in
  let xyzcolor := set_xyz_z 0.5 xyzcolor in
  Ok xyzcolor.

(** [cdict] is not used.  No statement assigns [cmykcolor.cmyk_k]. *)
Definition CMY_to_CMYK {D : Type} (cobj : CMYColor) (cdict : D)
  : result CMYKColor :=
  let cmykcolor := _transfer_common cobj new_CMYKColor in
  let var_k := Float 1.0 in
  let var_k := if num_lt (cmy_c cobj) var_k then cmy_c cobj else var_k in
  let var_k := if num_lt (cmy_m cobj) var_k then cmy_m cobj else var_k in
  let var_k := if num_lt (cmy_y cobj) var_k then cmy_y cobj else var_k in
  if num_eq var_k (Int 1) then
    let cmykcolor := set_cmyk_c (Float 0.0) cmykcolor in
    let cmykcolor := set_cmyk_m (Float 0.0) cmykcolor in
    let cmykcolor := set_cmyk_y (Float 0.0) cmykcolor in
    Ok cmykcolor
  else
    let* c :=
      num_div (num_sub (cmy_c cobj) var_k) (num_sub (Float 1.0) var_k) in
    let cmykcolor := set_cmyk_c c cmykcolor in
    let* m :=
      num_div (num_sub (cmy_m cobj) var_k) (num_sub (Float 1.0) var_k) in
    let cmykcolor := set_cmyk_m m cmykcolor in
    let* y :=
      num_div (num_sub (cmy_y cobj) var_k) (num_sub (Float 1.0) var_k) in
    let cmykcolor := set_cmyk_y y cmykcolor in
    Ok cmykcolor.

End Conversions.

(** ** Compositions and auxiliary notions for the properties *)

Section RoundTrips.

Context {colorobjs : Colorobjs}.

(** [Lab_to_XYZ(XYZ_to_Lab(cobj))] and [Luv_to_XYZ(XYZ_to_Luv(cobj))]. *)
Definition Lab_round_trip (cobj : XYZColor) : result XYZColor :=
  let* labcolor := XYZ_to_Lab cobj in
  let* after := Lab_to_XYZ labcolor in
  Ok (snd after).

Definition Luv_round_trip (cobj : XYZColor) : result XYZColor :=
  let* luvcolor := XYZ_to_Luv cobj in
  Luv_to_XYZ luvcolor.

End RoundTrips.

(** [a] equals [b] within the relative error [tol]. *)
Definition within_rel (tol a b : R) : Prop := Rabs (a - b) <= tol * Rabs b.

(** The per-channel step of [XYZ_to_Lab] and the one of [Lab_to_XYZ],
    each written three times in the source. *)
Definition cie_forward (t : R) : result R :=
  if gtb t 0.008856 then math_pow t (1.0 / 3.0)
  else Ok (7.787 * t + 16.0 / 116.0).

Definition cie_inverse (v : R) : R :=
  if gtb (v * v * v) 0.008856 then v * v * v
  else (v - 16.0 / 116.0) / 7.787.

(** The per-channel steps of [XYZ_to_RGB] for sRGB, each written three
    times in the source: the companding of a linear value, and the
    clamp at 0, the scaling to 0-255 and the cap at 255 that follow. *)
Definition srgb_companding (v : R) : result R :=
  if gtb v 0.0031308 then
    let* p := math_pow v (1.0 / 2.4) in Ok (1.055 * p - 0.055)
  else Ok (v * 12.92).

Definition scale_channel (v : num) : num :=
  let v := if num_lt v (Int 0) then Int 0 else v in
  let v :=
    Int (math_floor (to_float (num_add (Float 0.5) (num_mul v (Int 255))))) in
  if num_gt v (Int 255) then Int 255 else v.

(** The part of [XYZ_to_RGB] that follows the companding: the three
    clamps at 0, the three scalings and the three caps at 255. *)
Definition finish_rgb (rgbcolor : RGBColor) : RGBColor :=
  let rgbcolor :=
    if num_lt (rgb_r rgbcolor) (Int 0) then set_rgb_r (Int 0) rgbcolor
    else rgbcolor in
  let rgbcolor :=
    if num_lt (rgb_g rgbcolor) (Int 0) then set_rgb_g (Int 0) rgbcolor
    else rgbcolor in
  let rgbcolor :=
    if num_lt (rgb_b rgbcolor) (Int 0) then set_rgb_b (Int 0) rgbcolor
    else rgbcolor in
  let rgbcolor :=
    set_rgb_r
      (Int (math_floor
              (to_float (num_add (Float 0.5)
                                 (num_mul (rgb_r rgbcolor) (Int 255))))))
      rgbcolor in
  let rgbcolor :=
    set_rgb_g
      (Int (math_floor
              (to_float (num_add (Float 0.5)
                                 (num_mul (rgb_g rgbcolor) (Int 255))))))
      rgbcolor in
  let rgbcolor :=
    set_rgb_b
      (Int (math_floor
              (to_float (num_add (Float 0.5)
                                 (num_mul (rgb_b rgbcolor) (Int 255))))))
      rgbcolor in
  let rgbcolor :=
    if num_gt (rgb_r rgbcolor) (Int 255) then set_rgb_r (Int 255) rgbcolor
    else rgbcolor in
  let rgbcolor :=
    if num_gt (rgb_g rgbcolor) (Int 255) then set_rgb_g (Int 255) rgbcolor
    else rgbcolor in
  let rgbcolor :=
    if num_gt (rgb_b rgbcolor) (Int 255) then set_rgb_b (Int 255) rgbcolor
    else rgbcolor in
  rgbcolor.

(** The hue in degrees that [Lab_to_LCH] makes of the angle [h]. *)
Definition hue_degrees (h : R) : R :=
  if gtb h 0 then h / PI * 180 else 360 - math_fabs h / PI * 180.

(** ** A concrete environment for the worked cases *)

(** Modelled from the spec: the reference white of D65, which the spec
    gives as (95.047, 100, 108.883); the table of reference whites is
    part of [colorobjs], which is not among the sources. *)
Definition D65_white : white_point :=
  {| wp_X := 95.047; wp_Y := 100; wp_Z := 108.883 |}.

Definition D50_white : white_point :=
  {| wp_X := 96.422; wp_Y := 100; wp_Z := 82.521 |}.

(** Modelled from the spec: a [colorobjs] whose constructors return
    objects with every number 0, no [cmyk_k], empty names and an empty
    instance dictionary, and whose table of reference whites knows
    ["d65"] and ["d50"] (under any spelling of the case, for any
    observer). *)
Definition example_colorobjs : Colorobjs := {|
  new_XYZColor := {| xyz_x := 0; xyz_y := 0; xyz_z := 0;
                     xyz_illuminant := ""; xyz_observer := "" |};
  new_LabColor := {| lab_l := 0; lab_a := 0; lab_b := 0;
                     lab_illuminant := ""; lab_observer := "";
                     lab_dict := ∅ |};
  new_LCHColor := {| lch_l := 0; lch_c := 0; lch_h := 0;
                     lch_illuminant := ""; lch_observer := "" |};
  new_LuvColor := {| luv_l := 0; luv_u := 0; luv_v := 0;
                     luv_illuminant := ""; luv_observer := "" |};
  new_xyYColor := {| xyy_x := 0; xyy_y := 0; xyy_Y := 0;
                     xyy_illuminant := ""; xyy_observer := "" |};
  new_RGBColor := {| rgb_r := Int 0; rgb_g := Int 0; rgb_b := Int 0;
                     rgb_illuminant := ""; rgb_observer := "" |};
  new_CMYColor := {| cmy_c := Int 0; cmy_m := Int 0; cmy_y := Int 0;
                     cmy_illuminant := ""; cmy_observer := "" |};
  new_CMYKColor := {| cmyk_c := Int 0; cmyk_m := Int 0; cmyk_y := Int 0;
                      cmyk_k := None;
                      cmyk_illuminant := ""; cmyk_observer := "" |};
  illuminant_xyz ill obs :=
    if decide (lower ill = "d65") then Ok D65_white
    else if decide (lower ill = "d50") then Ok D50_white
    else Raise KeyError
|}.

Definition identity_matrix : matrix := ((1, 0, 0), (0, 1, 0), (0, 0, 1)).

(** Modelled from the spec: a [constants] with the one working space
    ["srgb"], native to ["d65"], and the one adaptation from ["d50"] to
    ["d65"]; both matrices are the identity, the table entry the spec
    names for an adaptation that changes nothing. *)
Definition example_constants : Constants := {|
  RGB_SPECS :=
    {[ "srgb"%string :=
         {| native_illum := "d65"; gamma := 2.2;
            conversions := {[ "xyz_to_rgb"%string := identity_matrix ]} |} ]};
  ADAPTATION_MATRICES :=
    {[ "d50"%string :=
         {[ "d65"%string := {[ "bradford"%string := identity_matrix ]} ]} ]}
|}.

(** The colours of the worked cases. *)
Definition xyz_color (x y z : R) (ill : string) : XYZColor :=
  {| xyz_x := x; xyz_y := y; xyz_z := z;
     xyz_illuminant := ill; xyz_observer := "2" |}.

Definition lab_color (l a b : R) : LabColor :=
  {| lab_l := l; lab_a := a; lab_b := b;
     lab_illuminant := "d65"; lab_observer := "2"; lab_dict := ∅ |}.

Definition xyy_color (x y Y : R) : xyYColor :=
  {| xyy_x := x; xyy_y := y; xyy_Y := Y;
     xyy_illuminant := "d65"; xyy_observer := "2" |}.

Definition rgb_color (r g b : num) : RGBColor :=
  {| rgb_r := r; rgb_g := g; rgb_b := b;
     rgb_illuminant := "d65"; rgb_observer := "2" |}.

Definition cmy_color (c m y : num) : CMYColor :=
  {| cmy_c := c; cmy_m := m; cmy_y := y;
     cmy_illuminant := "d65"; cmy_observer := "2" |}.

(** ** Spectral colours *)

(** A [SpectralColor]: [spec_samples] is the array that
    [color_to_numpy_array()] returns, the readings in the order of the
    wavelengths; [spec_observer] is the observer as [str()] prints it. *)
Record SpectralColor : Type := {
  spec_samples : list R;
  spec_illuminant : string; spec_observer : string
}.

#[export] Instance Spectral_ColorObject : ColorObject SpectralColor := {|
  illuminant := spec_illuminant;
  observer := spec_observer;
  set_illuminant s c :=
    {| spec_samples := spec_samples c;
       spec_illuminant := s; spec_observer := spec_observer c |};
  set_observer s c :=
    {| spec_samples := spec_samples c;
       spec_illuminant := spec_illuminant c; spec_observer := s |}
|}.

(** [constants.SPECTRAL_DISTS]: by observer, then by illuminant, the
    weighting arrays under the keys ["X"], ["Y"] and ["Z"].  The table
    belongs to the module [constants] like the two above. *)
Class SpectralConstants : Type := {
  SPECTRAL_DISTS : gmap string (gmap string (gmap string (list R)))
}.

(** [numpy.dot(a, b)] on two one-dimensional arrays: the sum of the
    products of their entries, 0 for two empty arrays, and a
    [ValueError] when the lengths differ. *)
Fixpoint numpy_dot_1d (a b : list R) : result R :=
  match a, b with
  | [], [] => Ok 0
  | x :: a', y :: b' => let* rest := numpy_dot_1d a' b' in Ok (x * y + rest)
  | _, _ => Raise ValueError
  end.

Section Spectral.

Context {colorobjs : Colorobjs} {spectral : SpectralConstants}.

(** [cdict] is not used. *)
Definition Spectral_to_XYZ {D : Type} (cobj : SpectralColor) (cdict : D)
  : result XYZColor :=
  let xyzcolor := _transfer_common cobj new_XYZColor in
  let* by_observer := getitem SPECTRAL_DISTS (observer cobj) in
  let* illuminants := getitem by_observer (lower (illuminant cobj)) in
  let sample := spec_samples cobj in
  let* weights := getitem illuminants "X" in
  let* dot := numpy_dot_1d sample weights in
  let xyzcolor := set_xyz_x (dot / 100.0) xyzcolor in
  let* weights := getitem illuminants "Y" in
  let* dot := numpy_dot_1d sample weights in
  let xyzcolor := set_xyz_y (dot / 100.0) xyzcolor in
  let* weights := getitem illuminants "Z" in
  let* dot := numpy_dot_1d sample weights in
  let xyzcolor := set_xyz_z (dot / 100.0) xyzcolor in
  Ok xyzcolor.

End Spectral.

(** ** Postconditions *)

(** [r] raises, or returns a value that satisfies [P]. *)
Definition ensures {A : Type} (r : result A) (P : A -> Prop) : Prop :=
  match r with
  | Ok a => P a
  | Raise _ => True
  end.

(** [out] carries the illuminant and the observer of [cobj]. *)
Definition same_provenance {A B : Type} `{ColorObject A} `{ColorObject B}
  (cobj : A) (out : B) : Prop :=
  illuminant out = illuminant cobj /\ observer out = observer cobj.

(** A channel of an [RGBColor] is an [int] from 0 to 255. *)
Definition is_byte (v : num) : Prop :=
  exists n : Z, v = Int n /\ (0 <= n <= 255)%Z.

(** The encoding [XYZ_to_RGB] applies to a linear channel for a working
    space other than sRGB: negative values become 0, then the power
    [1 / gamma] is taken. *)
Definition gamma_companding (gamma v : R) : result R :=
  let v := if Rlt_dec v 0 then 0 else v in
  let* e := fdiv 1 gamma in
  math_pow v e.

(** Modelled from the spec: a [constants] with one working space that is
    not sRGB, ["wide"], native to ["d65"] with gamma 2.2, and the
    adaptation from ["d50"] to ["d65"]; both matrices are the identity. *)
Definition gamma_constants : Constants := {|
  RGB_SPECS :=
    {[ "wide"%string :=
         {| native_illum := "d65"; gamma := 2.2;
            conversions := {[ "xyz_to_rgb"%string := identity_matrix ]} |} ]};
  ADAPTATION_MATRICES :=
    {[ "d50"%string :=
         {[ "d65"%string := {[ "bradford"%string := identity_matrix ]} ]} ]}
|}.

(** The colour [cobj] with other readings. *)
Definition set_spec_samples (samples : list R) (cobj : SpectralColor)
  : SpectralColor :=
  {| spec_samples := samples;
     spec_illuminant := spec_illuminant cobj;
     spec_observer := spec_observer cobj |}.

(** The sum of the products of the entries of two arrays, up to the end
    of the shorter one. *)
Fixpoint dot_sum (a b : list R) : R :=
  match a, b with
  | x :: a', y :: b' => x * y + dot_sum a' b'
  | _, _ => 0
  end.

(** Modelled from the spec: a table of spectral distributions with one
    observer, ["2"], and one illuminant, ["d65"], over three
    wavelengths. *)
Definition example_spectral : SpectralConstants := {|
  SPECTRAL_DISTS :=
    {[ "2"%string :=
         {[ "d65"%string :=
              {[ "X"%string := [10; 20; 30];
                 "Y"%string := [20; 50; 10];
                 "Z"%string := [60; 10; 0] ]} ]} ]}
|}.

Definition spectral_color (samples : list R) : SpectralColor :=
  {| spec_samples := samples;
     spec_illuminant := "D65"; spec_observer := "2" |}.

(** ** Basic facts about the numeric layer *)

Lemma gtb_true (a b : R) : a > b -> gtb a b = true.
Proof. intros H. unfold gtb. destruct (Rgt_dec a b); [reflexivity | contradiction]. Qed.

Lemma gtb_false (a b : R) : a <= b -> gtb a b = false.
Proof. intros H. unfold gtb. destruct (Rgt_dec a b); [lra | reflexivity]. Qed.

Lemma fdiv_ok (a b : R) : b <> 0 -> fdiv a b = Ok (a / b).
Proof. intros H. unfold fdiv. destruct (Req_dec_T b 0); [contradiction | reflexivity]. Qed.

Lemma fdiv_zero (a b : R) : b = 0 -> fdiv a b = Raise ZeroDivisionError.
Proof. intros H. unfold fdiv. destruct (Req_dec_T b 0); [reflexivity | contradiction]. Qed.

Lemma Int_part_IZR (z : Z) : Int_part (IZR z) = z.
Proof.
  unfold Int_part.
  assert (H : up (IZR z) = (z + 1)%Z).
  { symmetry. apply tech_up; rewrite plus_IZR; lra. }
  rewrite H. lia.
Qed.

Lemma is_integral_IZR (z : Z) : is_integral (IZR z) = true.
Proof.
  unfold is_integral. rewrite Int_part_IZR.
  destruct (Req_dec_T (IZR z) (IZR z)); [reflexivity | contradiction].
Qed.

(** [math.pow(x, n)] for a positive whole exponent is the n-fold
    product, whatever the sign of [x]. *)
Lemma math_pow_nat (x : R) (n : nat) :
  (0 < n)%nat -> math_pow x (IZR (Z.of_nat n)) = Ok (x ^ n).
Proof.
  intros Hn. unfold math_pow.
  assert (Hpos : 0 < IZR (Z.of_nat n)) by (apply IZR_lt; lia).
  destruct (Rlt_dec 0 x) as [Hx | Hx].
  - rewrite <- INR_IZR_INZ. rewrite Rpower_pow by assumption. reflexivity.
  - destruct (Req_dec_T x 0) as [Hz | Hz].
    + destruct (Rlt_dec 0 (IZR (Z.of_nat n))); [| contradiction].
      subst x. rewrite pow_i by assumption. reflexivity.
    + rewrite is_integral_IZR, Int_part_IZR.
      rewrite <- pow_powerRZ. reflexivity.
Qed.

Lemma math_pow_2 (x : R) : math_pow x 2 = Ok (x * x).
Proof.
  change 2 with (IZR (Z.of_nat 2)). rewrite math_pow_nat by lia.
  f_equal. ring.
Qed.

Lemma math_pow_3 (x : R) : math_pow x 3 = Ok (x * x * x).
Proof.
  change 3 with (IZR (Z.of_nat 3)). rewrite math_pow_nat by lia.
  f_equal. ring.
Qed.

Lemma math_pow_pos (x y : R) : 0 < x -> math_pow x y = Ok (Rpower x y).
Proof.
  intros H. unfold math_pow. destruct (Rlt_dec 0 x); [reflexivity | contradiction].
Qed.

(** The cube of the cube root. *)
Lemma Rpower_third_cube (t : R) :
  0 < t -> Rpower t (1.0 / 3.0) * Rpower t (1.0 / 3.0) * Rpower t (1.0 / 3.0) = t.
Proof.
  intros Ht.
  rewrite <- !Rpower_plus.
  replace (1.0 / 3.0 + 1.0 / 3.0 + 1.0 / 3.0) with 1 by lra.
  apply Rpower_1. assumption.
Qed.

(** ** XYZ and Lab *)

(** The inverse step undoes the forward step, on either branch. *)
Lemma cie_forward_inverse (t : R) :
  exists f, cie_forward t = Ok f /\ cie_inverse f = t.
Proof.
  unfold cie_forward.
  destruct (Rgt_dec t 0.008856) as [Hgt | Hle].
  - rewrite gtb_true by assumption.
    assert (Ht : 0 < t) by lra.
    rewrite math_pow_pos by assumption.
    eexists; split; [reflexivity |].
    unfold cie_inverse. rewrite Rpower_third_cube by assumption.
    rewrite gtb_true by assumption. reflexivity.
  - rewrite gtb_false by lra.
    eexists; split; [reflexivity |].
    unfold cie_inverse.
    set (f := 7.787 * t + 16.0 / 116.0).
    assert (Hf : f <= 0.206892706483) by (unfold f; lra).
    assert (Hcube : f * f * f <= 0.008856).
    { destruct (Rle_dec f 0) as [Hneg | Hpos].
      - assert (0 <= f * f) by nra. nra.
      - assert (0 < f) by lra.
        assert (f * f <= 0.206892706483 * 0.206892706483) by nra.
        assert (f * f * f <= 0.206892706483 * 0.206892706483 * 0.206892706483) by nra.
        lra. }
    rewrite gtb_false by assumption.
    unfold f. lra.
Qed.

Section LabProperties.
Context {colorobjs : Colorobjs}.

Lemma Lab_to_XYZ_spec (cobj : LabColor) (wp : white_point) :
  get_illuminant_xyz cobj = Ok wp ->
  let fy := (lab_l cobj + 16.0) / 116.0 in
  let fx := lab_a cobj / 500.0 + fy in
  let fz := fy - lab_b cobj / 200.0 in
  exists cobj' out,
    Lab_to_XYZ cobj = Ok (cobj', out)
    /\ xyz_x out = cie_inverse fx
    /\ xyz_y out = cie_inverse fy
    /\ xyz_z out = cie_inverse fz
    /\ illuminant out = illuminant cobj
    /\ observer out = observer cobj
    /\ cobj' = Lab_setattr "xyz_z" (wp_Z wp * cie_inverse fz / 100)
                 (Lab_setattr "xyz_y" (wp_Y wp * cie_inverse fy / 100)
                    (Lab_setattr "xyz_x" (wp_X wp * cie_inverse fx / 100) cobj)).
Proof.
  intros Hwp fy fx fz.
  unfold Lab_to_XYZ. rewrite Hwp. cbn [bind].
  cbn.
  rewrite !math_pow_3. cbn [bind].
  do 3 (match goal with
        | |- context [gtb ?a 0.008856] => destruct (gtb a 0.008856) eqn:?
        end; cbn; rewrite ?math_pow_3; cbn [bind]).
  all: do 2 eexists; split; [reflexivity |].
  all: subst fy fx fz; unfold cie_inverse; cbn.
  all: repeat match goal with H : gtb _ _ = _ |- _ => rewrite H; clear H end.
  all: repeat split; reflexivity.
Qed.

Lemma XYZ_to_Lab_spec (cobj : XYZColor) (wp : white_point) :
  get_illuminant_xyz cobj = Ok wp ->
  wp_X wp <> 0 -> wp_Y wp <> 0 -> wp_Z wp <> 0 ->
  exists fx fy fz out,
    cie_forward (xyz_x cobj * 100.0 / wp_X wp) = Ok fx
    /\ cie_forward (xyz_y cobj * 100.0 / wp_Y wp) = Ok fy
    /\ cie_forward (xyz_z cobj * 100.0 / wp_Z wp) = Ok fz
    /\ XYZ_to_Lab cobj = Ok out
    /\ lab_l out = 116.0 * fy - 16.0
    /\ lab_a out = 500.0 * (fx - fy)
    /\ lab_b out = 200.0 * (fy - fz)
    /\ illuminant out = illuminant cobj
    /\ observer out = observer cobj
    /\ lab_dict out = lab_dict new_LabColor.
Proof.
  intros Hwp HX HY HZ.
  destruct (cie_forward_inverse (xyz_x cobj * 100.0 / wp_X wp)) as [fx [Hfx _]].
  destruct (cie_forward_inverse (xyz_y cobj * 100.0 / wp_Y wp)) as [fy [Hfy _]].
  destruct (cie_forward_inverse (xyz_z cobj * 100.0 / wp_Z wp)) as [fz [Hfz _]].
  exists fx, fy, fz.
  unfold XYZ_to_Lab. rewrite Hwp. cbn [bind].
  rewrite !fdiv_ok by assumption. cbn [bind].
  fold (cie_forward (xyz_x cobj * 100.0 / wp_X wp)).
  fold (cie_forward (xyz_y cobj * 100.0 / wp_Y wp)).
  fold (cie_forward (xyz_z cobj * 100.0 / wp_Z wp)).
  rewrite Hfx, Hfy, Hfz. cbn [bind].
  eexists. repeat split; reflexivity.
Qed.

Lemma Lab_round_trip_spec (cobj : XYZColor) (wp : white_point) :
  get_illuminant_xyz cobj = Ok wp ->
  wp_X wp <> 0 -> wp_Y wp <> 0 -> wp_Z wp <> 0 ->
  exists out,
    Lab_round_trip cobj = Ok out
    /\ xyz_x out = xyz_x cobj * 100.0 / wp_X wp
    /\ xyz_y out = xyz_y cobj * 100.0 / wp_Y wp
    /\ xyz_z out = xyz_z cobj * 100.0 / wp_Z wp.
Proof.
  intros Hwp HX HY HZ.
  destruct (XYZ_to_Lab_spec cobj wp Hwp HX HY HZ)
    as (fx & fy & fz & lab & Hfx & Hfy & Hfz & Hlab & Hl & Ha & Hb & Hi & Ho & _).
  assert (Hwp' : get_illuminant_xyz lab = Ok wp).
  { unfold get_illuminant_xyz in *. rewrite Hi, Ho. exact Hwp. }
  destruct (Lab_to_XYZ_spec lab wp Hwp')
    as (lab' & out & Hout & Hx & Hy & Hz & _).
  exists out. unfold Lab_round_trip. rewrite Hlab. cbn [bind].
  rewrite Hout. cbn [bind snd].
  rewrite Hx, Hy, Hz, Hl, Ha, Hb.
  destruct (cie_forward_inverse (xyz_x cobj * 100.0 / wp_X wp)) as [fx' [Hfx' Hix]].
  destruct (cie_forward_inverse (xyz_y cobj * 100.0 / wp_Y wp)) as [fy' [Hfy' Hiy]].
  destruct (cie_forward_inverse (xyz_z cobj * 100.0 / wp_Z wp)) as [fz' [Hfz' Hiz]].
  rewrite Hfx in Hfx'. rewrite Hfy in Hfy'. rewrite Hfz in Hfz'.
  inversion Hfx'; inversion Hfy'; inversion Hfz'; subst fx' fy' fz'.
  replace ((116.0 * fy - 16.0 + 16.0) / 116.0) with fy by lra.
  replace (500.0 * (fx - fy) / 500.0 + fy) with fx by lra.
  replace (fy - 200.0 * (fy - fz) / 200.0) with fz by lra.
  split; [reflexivity |]. auto.
Qed.

(** C1, as the code has it: the round trip through Lab returns the XYZ
    values normalised by the reference white, [100 * x / Xn] and so on,
    not the XYZ values it started from; a channel is within the
    tolerance of 1e-6 only when it is 0 or when the reference white has
    100 in that place.  ([Lab_to_XYZ] stores the values scaled back by
    the reference white on its argument, and returns the unscaled
    ones.) *)
Theorem Lab_round_trip_unscaled (cobj : XYZColor) (wp : white_point) :
  get_illuminant_xyz cobj = Ok wp ->
  wp_X wp <> 0 -> wp_Y wp <> 0 -> wp_Z wp <> 0 ->
  exists out,
    Lab_round_trip cobj = Ok out
    /\ xyz_x out = xyz_x cobj * 100.0 / wp_X wp
    /\ xyz_y out = xyz_y cobj * 100.0 / wp_Y wp
    /\ xyz_z out = xyz_z cobj * 100.0 / wp_Z wp
    /\ (xyz_x cobj <> 0 -> Rabs (100 / wp_X wp - 1) > 0.000001 ->
        ~ within_rel 0.000001 (xyz_x out) (xyz_x cobj)).
Proof.
  intros Hwp HX HY HZ.
  destruct (Lab_round_trip_spec cobj wp Hwp HX HY HZ)
    as (out & Hout & Hx & Hy & Hz).
  exists out. repeat (split; [assumption |]).
  intros Hx0 Hdev Hin. unfold within_rel in Hin. rewrite Hx in Hin.
  replace (xyz_x cobj * 100.0 / wp_X wp - xyz_x cobj)
    with (xyz_x cobj * (100 / wp_X wp - 1)) in Hin
    by (replace 100.0 with 100 by lra; field; assumption).
  rewrite Rabs_mult in Hin.
  assert (0 < Rabs (xyz_x cobj)) by (apply Rabs_pos_lt; assumption).
  nra.
Qed.

(** A foreign attribute lands in the instance dictionary. *)
Lemma Lab_setattr_foreign (name : string) (v : R) (c : LabColor) :
  name <> "lab_l"%string -> name <> "lab_a"%string -> name <> "lab_b"%string ->
  Lab_setattr name v c = set_lab_dict (<[name := v]> (lab_dict c)) c.
Proof.
  intros Hl Ha Hb. unfold Lab_setattr.
  repeat (destruct (decide _); [contradiction |]). reflexivity.
Qed.

(** C2, as the code has it: [Lab_to_XYZ] assigns [xyz_x], [xyz_y] and
    [xyz_z] on its argument, so the argument of a call that returns
    holds these three attributes afterwards, and differs from what it
    was whenever it did not hold [xyz_x] before. *)
Theorem Lab_to_XYZ_writes_on_argument (cobj : LabColor) (wp : white_point) :
  get_illuminant_xyz cobj = Ok wp ->
  exists cobj' out,
    Lab_to_XYZ cobj = Ok (cobj', out)
    /\ lab_dict cobj' !! "xyz_x"%string = Some (wp_X wp * xyz_x out / 100)
    /\ lab_dict cobj' !! "xyz_y"%string = Some (wp_Y wp * xyz_y out / 100)
    /\ lab_dict cobj' !! "xyz_z"%string = Some (wp_Z wp * xyz_z out / 100)
    /\ (lab_dict cobj !! "xyz_x"%string = None -> cobj' <> cobj).
Proof.
  intros Hwp.
  destruct (Lab_to_XYZ_spec cobj wp Hwp)
    as (cobj' & out & Hcall & Hx & Hy & Hz & _ & _ & Hafter).
  exists cobj', out. split; [assumption |].
  rewrite !Lab_setattr_foreign in Hafter by discriminate.
  assert (Hdict : lab_dict cobj'
                  = <["xyz_z"%string := wp_Z wp * xyz_z out / 100]>
                      (<["xyz_y"%string := wp_Y wp * xyz_y out / 100]>
                         (<["xyz_x"%string := wp_X wp * xyz_x out / 100]>
                            (lab_dict cobj)))).
  { rewrite Hafter, Hx, Hy, Hz. reflexivity. }
  rewrite Hdict.
  split; [| split; [| split]].
  - rewrite lookup_insert_ne by discriminate.
    rewrite lookup_insert_ne by discriminate.
    apply lookup_insert_eq.
  - rewrite lookup_insert_ne by discriminate.
    apply lookup_insert_eq.
  - apply lookup_insert_eq.
  - intros Hnone Heq. rewrite Heq in Hdict.
    rewrite Hdict in Hnone.
    rewrite lookup_insert_ne in Hnone by discriminate.
    rewrite lookup_insert_ne in Hnone by discriminate.
    rewrite lookup_insert_eq in Hnone. discriminate.
Qed.

End LabProperties.

Lemma Lab_round_trip_unscaled_witness :
  exists out,
    @Lab_round_trip example_colorobjs (xyz_color 0.5 0.5 0.5 "d65") = Ok out
    /\ xyz_x out = 0.5 * 100.0 / 95.047
    /\ xyz_y out = 0.5 * 100.0 / 100
    /\ xyz_z out = 0.5 * 100.0 / 108.883
    /\ ~ within_rel 0.000001 (xyz_x out) 0.5.
Proof.
  assert (HX : wp_X D65_white <> 0) by (cbn; lra).
  assert (HY : wp_Y D65_white <> 0) by (cbn; lra).
  assert (HZ : wp_Z D65_white <> 0) by (cbn; lra).
  destruct (@Lab_round_trip_unscaled example_colorobjs
              (xyz_color 0.5 0.5 0.5 "d65") D65_white eq_refl HX HY HZ)
    as (out & Hout & Hx & Hy & Hz & Hfar).
  exists out. repeat (split; [assumption |]).
  apply Hfar.
  - cbn. lra.
  - cbn. unfold Rabs. destruct (Rcase_abs _); lra.
Defined.

Lemma Lab_to_XYZ_writes_on_argument_witness :
  exists cobj' out,
    @Lab_to_XYZ example_colorobjs (lab_color 50 0 0) = Ok (cobj', out)
    /\ lab_dict cobj' !! "xyz_x"%string = Some (95.047 * xyz_x out / 100)
    /\ cobj' <> lab_color 50 0 0.
Proof.
  destruct (@Lab_to_XYZ_writes_on_argument example_colorobjs
              (lab_color 50 0 0) D65_white eq_refl)
    as (cobj' & out & Hcall & Hx & _ & _ & Hneq).
  exists cobj', out. repeat (split; [assumption |]).
  apply Hneq. reflexivity.
Defined.

(** ** XYZ and xyY *)

Section xyYProperties.

Context {colorobjs : Colorobjs}.

(** C10: [XYZ_to_xyY] divides by [X + Y + Z] with no guard.  On black
    the division raises [ZeroDivisionError] and no chromaticity is
    returned; the call returns exactly on the inputs whose sum is not 0,
    and then with [x = X / (X + Y + Z)], [y = Y / (X + Y + Z)] and
    [Y] unchanged. *)
Theorem XYZ_to_xyY_unguarded_division :
  (forall ill obs,
     XYZ_to_xyY {| xyz_x := 0; xyz_y := 0; xyz_z := 0;
                   xyz_illuminant := ill; xyz_observer := obs |}
     = Raise ZeroDivisionError)
  /\ (forall cobj,
        xyz_x cobj + xyz_y cobj + xyz_z cobj = 0 ->
        XYZ_to_xyY cobj = Raise ZeroDivisionError)
  /\ (forall cobj,
        xyz_x cobj + xyz_y cobj + xyz_z cobj <> 0 ->
        exists out,
          XYZ_to_xyY cobj = Ok out
          /\ xyy_x out = xyz_x cobj / (xyz_x cobj + xyz_y cobj + xyz_z cobj)
          /\ xyy_y out = xyz_y cobj / (xyz_x cobj + xyz_y cobj + xyz_z cobj)
          /\ xyy_Y out = xyz_y cobj).
Proof.
  split; [| split].
  - intros ill obs. unfold XYZ_to_xyY. cbn.
    rewrite fdiv_zero by lra. reflexivity.
  - intros cobj Hsum. unfold XYZ_to_xyY.
    rewrite fdiv_zero by assumption. reflexivity.
  - intros cobj Hsum. unfold XYZ_to_xyY.
    rewrite !fdiv_ok by assumption. cbn [bind].
    eexists. repeat split; reflexivity.
Qed.

(** C8: with [y = 0], [xyY_to_XYZ] raises [ZeroDivisionError], the
    domain error of the division, and returns nothing; with [y <> 0] it
    returns [X = x * Y / y], [Y] and [Z = (1 - x - y) * Y / y]. *)
Theorem xyY_to_XYZ_domain (cobj : xyYColor) :
  (xyy_y cobj = 0 ->
   xyY_to_XYZ cobj = Raise ZeroDivisionError
   /\ ~ returns (xyY_to_XYZ cobj))
  /\ (xyy_y cobj <> 0 ->
      exists out,
        xyY_to_XYZ cobj = Ok out
        /\ xyz_x out = xyy_x cobj * xyy_Y cobj / xyy_y cobj
        /\ xyz_y out = xyy_Y cobj
        /\ xyz_z out = (1 - xyy_x cobj - xyy_y cobj) * xyy_Y cobj / xyy_y cobj).
Proof.
  split.
  - intros Hy. unfold xyY_to_XYZ.
    rewrite fdiv_zero by assumption. cbn [bind].
    split; [reflexivity |]. intros [out Hout]. discriminate.
  - intros Hy. unfold xyY_to_XYZ.
    repeat (rewrite fdiv_ok by assumption; cbn [bind]).
    eexists. split; [reflexivity |]. cbn.
    repeat split; try reflexivity.
    f_equal. f_equal. lra.
Qed.

End xyYProperties.

Lemma XYZ_to_xyY_unguarded_division_witness :
  @XYZ_to_xyY example_colorobjs (xyz_color 0 0 0 "d65")
  = Raise ZeroDivisionError
  /\ exists out,
       @XYZ_to_xyY example_colorobjs (xyz_color 0.2 0.3 0.5 "d65") = Ok out
       /\ xyy_x out = 0.2 / (0.2 + 0.3 + 0.5)
       /\ xyy_y out = 0.3 / (0.2 + 0.3 + 0.5)
       /\ xyy_Y out = 0.3.
Proof.
  destruct (@XYZ_to_xyY_unguarded_division example_colorobjs)
    as (_ & Hzero & Hsome).
  split.
  - apply (Hzero (xyz_color 0 0 0 "d65")). cbn. lra.
  - apply (Hsome (xyz_color 0.2 0.3 0.5 "d65")). cbn. lra.
Defined.

Lemma xyY_to_XYZ_domain_witness :
  @xyY_to_XYZ example_colorobjs (xyy_color 0.3 0 50)
  = Raise ZeroDivisionError
  /\ exists out,
       @xyY_to_XYZ example_colorobjs (xyy_color 0.25 0.5 50) = Ok out
       /\ xyz_x out = 0.25 * 50 / 0.5
       /\ xyz_y out = 50
       /\ xyz_z out = (1 - 0.25 - 0.5) * 50 / 0.5.
Proof.
  split.
  - apply (proj1 (@xyY_to_XYZ_domain example_colorobjs (xyy_color 0.3 0 50))).
    reflexivity.
  - apply (proj2 (@xyY_to_XYZ_domain example_colorobjs (xyy_color 0.25 0.5 50))).
    cbn. lra.
Defined.

Lemma num_lt_true (a b : num) : to_float a < to_float b -> num_lt a b = true.
Proof. intros H. unfold num_lt. destruct (Rlt_dec _ _); [reflexivity | contradiction]. Qed.

Lemma num_lt_false (a b : num) : to_float b <= to_float a -> num_lt a b = false.
Proof. intros H. unfold num_lt. destruct (Rlt_dec _ _); [lra | reflexivity]. Qed.

Lemma num_gt_true (a b : num) : to_float a > to_float b -> num_gt a b = true.
Proof. intros H. unfold num_gt. destruct (Rgt_dec _ _); [reflexivity | contradiction]. Qed.

Lemma num_gt_false (a b : num) : to_float a <= to_float b -> num_gt a b = false.
Proof. intros H. unfold num_gt. destruct (Rgt_dec _ _); [lra | reflexivity]. Qed.

Lemma num_eq_true (a b : num) : to_float a = to_float b -> num_eq a b = true.
Proof. intros H. unfold num_eq. destruct (Req_dec_T _ _); [reflexivity | contradiction]. Qed.

Lemma num_eq_false (a b : num) : to_float a <> to_float b -> num_eq a b = false.
Proof. intros H. unfold num_eq. destruct (Req_dec_T _ _); [contradiction | reflexivity]. Qed.

(** ** RGB, CMY and CMYK *)

Section CMYProperties.
Context {colorobjs : Colorobjs}.

(** No path of [CMY_to_CMYK] touches [cmyk_k]. *)
Lemma CMY_to_CMYK_keeps_k {D : Type} (cobj : CMYColor) (cdict : D) (out : CMYKColor) :
  CMY_to_CMYK cobj cdict = Ok out -> cmyk_k out = cmyk_k new_CMYKColor.
Proof.
  unfold CMY_to_CMYK.
  destruct (num_eq _ _).
  - intros H; inversion H; reflexivity.
  - destruct (num_div _ _); cbn [bind]; [| discriminate].
    destruct (num_div _ _); cbn [bind]; [| discriminate].
    destruct (num_div _ _); cbn [bind]; [| discriminate].
    intros H; inversion H; reflexivity.
Qed.

(** C3, as the code has it: [CMY_to_CMYK] maps (1,1,1) and (0,0,0) to
    C = M = Y = 0, and in both cases the K of the result is the one the
    constructor [CMYKColor()] left there: the minimum [var_k] is computed
    and never stored, so K cannot be 1 for the first and 0 for the
    second. *)
Theorem CMY_to_CMYK_black_and_white {D : Type} (cdict : D) :
  exists full none,
    CMY_to_CMYK (cmy_color (Float 1) (Float 1) (Float 1)) cdict = Ok full
    /\ CMY_to_CMYK (cmy_color (Float 0) (Float 0) (Float 0)) cdict = Ok none
    /\ to_float (cmyk_c full) = 0 /\ to_float (cmyk_m full) = 0
    /\ to_float (cmyk_y full) = 0
    /\ to_float (cmyk_c none) = 0 /\ to_float (cmyk_m none) = 0
    /\ to_float (cmyk_y none) = 0
    /\ cmyk_k full = cmyk_k new_CMYKColor
    /\ cmyk_k none = cmyk_k new_CMYKColor
    /\ (forall k1 k0,
          cmyk_k full = Some k1 -> cmyk_k none = Some k0 ->
          ~ (to_float k1 = 1 /\ to_float k0 = 0)).
Proof.
  assert (Hfull : exists full,
            CMY_to_CMYK (cmy_color (Float 1) (Float 1) (Float 1)) cdict = Ok full
            /\ to_float (cmyk_c full) = 0 /\ to_float (cmyk_m full) = 0
            /\ to_float (cmyk_y full) = 0).
  { unfold CMY_to_CMYK. cbn [cmy_color cmy_c cmy_m cmy_y].
    repeat (rewrite (num_lt_false (Float 1) (Float 1.0)) by (cbn [to_float]; lra);
            cbv iota).
    rewrite num_eq_true by (cbn [to_float]; lra).
    eexists. split; [reflexivity |]. repeat split; cbn [to_float cmyk_c cmyk_m cmyk_y set_cmyk_c set_cmyk_m set_cmyk_y]; lra. }
  assert (Hnone : exists none,
            CMY_to_CMYK (cmy_color (Float 0) (Float 0) (Float 0)) cdict = Ok none
            /\ to_float (cmyk_c none) = 0 /\ to_float (cmyk_m none) = 0
            /\ to_float (cmyk_y none) = 0).
  { unfold CMY_to_CMYK. cbn [cmy_color cmy_c cmy_m cmy_y].
    repeat (rewrite (num_lt_true (Float 0) (Float 1.0)) by (cbn [to_float]; lra);
            cbv iota).
    repeat (rewrite (num_lt_false (Float 0) (Float 0)) by (cbn [to_float]; lra);
            cbv iota).
    rewrite num_eq_false by (cbn [to_float]; lra).
    unfold num_div, num_sub. cbn [to_float].
    destruct (Req_dec_T (1.0 - 0) 0) as [Habs | _]; [lra |].
    cbn [bind]. eexists. split; [reflexivity |]. repeat split; cbn [to_float cmyk_c cmyk_m cmyk_y set_cmyk_c set_cmyk_m set_cmyk_y]; lra. }
  destruct Hfull as (full & Hf & Hfc & Hfm & Hfy).
  destruct Hnone as (none & Hn & Hnc & Hnm & Hny).
  exists full, none.
  pose proof (CMY_to_CMYK_keeps_k _ _ _ Hf) as Hkf.
  pose proof (CMY_to_CMYK_keeps_k _ _ _ Hn) as Hkn.
  repeat (split; [assumption |]).
  intros k1 k0 H1 H0 [Hone Hzero]. rewrite Hkf in H1. rewrite Hkn in H0.
  rewrite H1 in H0. injection H0 as ->. lra.
Qed.

(** On [int] channels the division is floor division. *)
Lemma RGB_to_CMY_int_channels {D : Type} (cobj : RGBColor) (cdict : D) (r g b : Z) :
  rgb_r cobj = Int r -> rgb_g cobj = Int g -> rgb_b cobj = Int b ->
  exists out,
    RGB_to_CMY cobj cdict = Ok out
    /\ cmy_c out = Int (1 - r / 255)
    /\ cmy_m out = Int (1 - g / 255)
    /\ cmy_y out = Int (1 - b / 255).
Proof.
  intros Hr Hg Hb. unfold RGB_to_CMY. rewrite Hr, Hg, Hb.
  cbn. eexists. repeat split; reflexivity.
Qed.

(** On [float] channels the result is [1 - R / 255]. *)
Lemma RGB_to_CMY_float_channels {D : Type} (cobj : RGBColor) (cdict : D) (r g b : R) :
  rgb_r cobj = Float r -> rgb_g cobj = Float g -> rgb_b cobj = Float b ->
  exists out,
    RGB_to_CMY cobj cdict = Ok out
    /\ cmy_c out = Float (1 - r / 255)
    /\ cmy_m out = Float (1 - g / 255)
    /\ cmy_y out = Float (1 - b / 255).
Proof.
  intros Hr Hg Hb. unfold RGB_to_CMY. rewrite Hr, Hg, Hb.
  unfold num_div. cbn [to_float].
  destruct (Req_dec_T 255 0) as [Habs | _]; [lra |].
  cbn. eexists. repeat split; reflexivity.
Qed.

(** C7, as the code has it: on [int] channels strictly between 0 and
    255, the values [XYZ_to_RGB] stores, [RGB_to_CMY] returns
    C = M = Y = 1, since [R / 255] is the floor division of Python 2 and
    gives 0; the result is not [1 - R / 255]. *)
Theorem RGB_to_CMY_floor_division {D : Type} (cobj : RGBColor) (cdict : D) (r g b : Z) :
  rgb_r cobj = Int r -> rgb_g cobj = Int g -> rgb_b cobj = Int b ->
  (0 < r < 255)%Z -> (0 < g < 255)%Z -> (0 < b < 255)%Z ->
  exists out,
    RGB_to_CMY cobj cdict = Ok out
    /\ cmy_c out = Int 1 /\ cmy_m out = Int 1 /\ cmy_y out = Int 1
    /\ to_float (cmy_c out) <> 1 - IZR r / 255
    /\ to_float (cmy_m out) <> 1 - IZR g / 255
    /\ to_float (cmy_y out) <> 1 - IZR b / 255.
Proof.
  intros Hr Hg Hb Rr Rg Rb.
  destruct (RGB_to_CMY_int_channels cobj cdict r g b Hr Hg Hb)
    as (out & Hout & Hc & Hm & Hy).
  rewrite (Z.div_small r 255) in Hc by lia.
  rewrite (Z.div_small g 255) in Hm by lia.
  rewrite (Z.div_small b 255) in Hy by lia.
  change (1 - 0)%Z with 1%Z in Hc, Hm, Hy.
  exists out. split; [assumption |].
  rewrite Hc, Hm, Hy. cbn [to_float].
  repeat (split; [reflexivity |]).
  assert (0 < IZR r) by (apply IZR_lt; lia).
  assert (0 < IZR g) by (apply IZR_lt; lia).
  assert (0 < IZR b) by (apply IZR_lt; lia).
  repeat split; intros Heq; lra.
Qed.
End CMYProperties.

Lemma RGB_to_CMY_floor_division_witness :
  exists out,
    @RGB_to_CMY example_colorobjs unit
      (rgb_color (Int 128) (Int 128) (Int 128)) tt = Ok out
    /\ cmy_c out = Int 1 /\ cmy_m out = Int 1 /\ cmy_y out = Int 1
    /\ to_float (cmy_c out) <> 1 - 128 / 255.
Proof.
  destruct (@RGB_to_CMY_floor_division example_colorobjs unit
              (rgb_color (Int 128) (Int 128) (Int 128)) tt 128 128 128
              eq_refl eq_refl eq_refl)
    as (out & Hout & Hc & Hm & Hy & Hne & _); [lia | lia | lia |].
  exists out. repeat (split; [assumption |]). exact Hne.
Defined.

(** ** Lab and LCH *)

(** [math.atan2] returns an angle in (-pi, pi]. *)
Lemma math_atan2_range (y x : R) : - PI < math_atan2 y x <= PI.
Proof.
  pose proof PI_RGT_0 as Hpi.
  pose proof (atan_bound (y / x)) as Hb.
  unfold math_atan2.
  destruct (Rlt_dec 0 x) as [Hx | Hx]; [lra |].
  destruct (Rlt_dec x 0) as [Hx' | Hx'].
  - destruct (Rle_dec 0 y) as [Hy | Hy].
    + assert (Hq : y / x <= 0).
      { unfold Rdiv. assert (/ x < 0) by (apply Rinv_lt_0_compat; assumption). nra. }
      assert (atan (y / x) <= 0).
      { destruct Hq as [Hlt | Heq].
        - left. rewrite <- atan_0. apply atan_increasing. assumption.
        - right. rewrite Heq. apply atan_0. }
      lra.
    + assert (Hq : 0 < y / x).
      { unfold Rdiv. assert (/ x < 0) by (apply Rinv_lt_0_compat; assumption). nra. }
      assert (0 < atan (y / x)).
      { rewrite <- atan_0. apply atan_increasing. assumption. }
      lra.
  - destruct (Rlt_dec 0 y); [lra |].
    destruct (Rlt_dec y 0); lra.
Qed.

Lemma math_atan2_origin : math_atan2 0 0 = 0.
Proof.
  unfold math_atan2.
  destruct (Rlt_dec 0 0); [lra |]. reflexivity.
Qed.

Lemma math_atan2_negative_axis (x : R) : x < 0 -> math_atan2 0 x = PI.
Proof.
  intros Hx. unfold math_atan2.
  destruct (Rlt_dec 0 x); [lra |].
  destruct (Rlt_dec x 0); [| lra].
  destruct (Rle_dec 0 0); [| lra].
  unfold Rdiv. rewrite Rmult_0_l, atan_0. lra.
Qed.

Lemma math_atan2_positive_axis (x : R) : 0 < x -> math_atan2 0 x = 0.
Proof.
  intros Hx. unfold math_atan2.
  destruct (Rlt_dec 0 x); [| lra].
  unfold Rdiv. rewrite Rmult_0_l. apply atan_0.
Qed.

Lemma hue_degrees_range (h : R) : - PI < h <= PI -> 0 < hue_degrees h <= 360.
Proof.
  intros [Hlo Hhi]. pose proof PI_RGT_0 as Hpi.
  unfold hue_degrees, gtb, math_fabs.
  destruct (Rgt_dec h 0) as [Hpos | Hneg].
  - assert (0 < h / PI <= 1).
    { split.
      - apply Rdiv_lt_0_compat; lra.
      - apply (Rmult_le_reg_r PI); [assumption |].
        unfold Rdiv. rewrite Rmult_assoc, Rinv_l by lra. lra. }
    lra.
  - rewrite Rabs_left1 by lra.
    assert (0 <= - h / PI < 1).
    { split.
      - apply Rmult_le_pos; [lra |]. left. apply Rinv_0_lt_compat. assumption.
      - apply (Rmult_lt_reg_r PI); [assumption |].
        unfold Rdiv. rewrite Rmult_assoc, Rinv_l by lra. lra. }
    lra.
Qed.

Section LCHProperties.
Context {colorobjs : Colorobjs}.

Lemma Lab_to_LCH_spec (cobj : LabColor) :
  exists out,
    Lab_to_LCH cobj = Ok out
    /\ lch_l out = lab_l cobj
    /\ lch_c out = sqrt (lab_a cobj * lab_a cobj + lab_b cobj * lab_b cobj)
    /\ lch_h out = hue_degrees (math_atan2 (lab_b cobj) (lab_a cobj))
    /\ illuminant out = illuminant cobj
    /\ observer out = observer cobj.
Proof.
  unfold Lab_to_LCH. rewrite !math_pow_2. cbn [bind].
  unfold math_sqrt.
  destruct (Rlt_dec _ 0) as [Hneg | _]; [nra |].
  cbn [bind].
  unfold hue_degrees.
  cbn [lch_h set_lch_h set_lch_c set_lch_l].
  destruct (gtb _ 0); eexists; repeat split; reflexivity.
Qed.

End LCHProperties.



(** ** XYZ and Luv *)

(** The cube root of a cube. *)
Lemma Rpower_third_of_cube (c : R) :
  0 < c -> Rpower (c * c * c) (1.0 / 3.0) = c.
Proof.
  intros Hc.
  replace (c * c * c) with (c ^ 3) by ring.
  rewrite <- Rpower_pow by assumption.
  rewrite Rpower_mult.
  replace (INR 3 * (1.0 / 3.0)) with 1 by (simpl; lra).
  apply Rpower_1. assumption.
Qed.

Lemma cie_forward_cube (c : R) :
  0.21 <= c -> cie_forward (c * c * c) = Ok c.
Proof.
  intros Hc. unfold cie_forward.
  assert (0.21 * 0.21 <= c * c) by nra.
  assert (0.21 * 0.21 * 0.21 <= c * c * c) by nra.
  rewrite gtb_true by lra.
  rewrite math_pow_pos by lra.
  rewrite Rpower_third_of_cube by lra. reflexivity.
Qed.

Section LuvProperties.
Context {colorobjs : Colorobjs}.

(** [Luv_to_XYZ] never reads [luv_v]: [var_V] is computed from [luv_u]. *)
Lemma Luv_to_XYZ_ignores_v (cobj : LuvColor) (v : R) :
  Luv_to_XYZ (set_luv_v v cobj) = Luv_to_XYZ cobj.
Proof. reflexivity. Qed.

Lemma XYZ_to_Luv_spec (cobj : XYZColor) (wp : white_point) (fy : R) :
  let tx := xyz_x cobj * 100.0 in
  let ty := xyz_y cobj * 100.0 in
  let tz := xyz_z cobj * 100.0 in
  let d := tx + 15.0 * ty + 3.0 * tz in
  let dn := wp_X wp + 15.0 * wp_Y wp + 3.0 * wp_Z wp in
  get_illuminant_xyz cobj = Ok wp ->
  d <> 0 -> wp_Y wp <> 0 -> dn <> 0 ->
  cie_forward (ty / wp_Y wp) = Ok fy ->
  exists out,
    XYZ_to_Luv cobj = Ok out
    /\ luv_l out = 116.0 * fy - 16.0
    /\ luv_u out
       = 13.0 * (116.0 * fy - 16.0) * (4.0 * tx / d - 4.0 * wp_X wp / dn)
    /\ luv_v out
       = 13.0 * (116.0 * fy - 16.0) * (9.0 * ty / d - 9.0 * wp_Y wp / dn)
    /\ illuminant out = illuminant cobj
    /\ observer out = observer cobj.
Proof.
  intros tx ty tz d dn Hwp Hd HY Hdn Hfy.
  unfold XYZ_to_Luv. fold tx ty tz. fold d.
  rewrite !fdiv_ok by assumption. cbn [bind].
  change (get_illuminant_xyz _) with (get_illuminant_xyz cobj).
  rewrite Hwp. cbn [bind].
  rewrite (fdiv_ok ty) by assumption. cbn [bind].
  fold (cie_forward (ty / wp_Y wp)). rewrite Hfy. cbn [bind].
  fold dn. rewrite !fdiv_ok by assumption. cbn [bind].
  eexists. repeat split; reflexivity.
Qed.

Lemma Luv_to_XYZ_spec (cobj : LuvColor) (wp : white_point) :
  let dn := wp_X wp + 15.0 * wp_Y wp + 3.0 * wp_Z wp in
  let ref_U := 4.0 * wp_X wp / dn in
  let ref_V := 9.0 * wp_Y wp / dn in
  let var_U := luv_u cobj / (13.0 * luv_l cobj) + ref_U in
  let var_V := luv_u cobj / (13.0 * luv_l cobj) + ref_V in
  let Y := cie_inverse ((luv_l cobj + 16) / 116.0) * 100.0 in
  let X := - (9.0 * Y * var_U) / ((var_U - 4.0) * var_V - var_U * var_V) in
  let Z := (9.0 * Y - 15.0 * var_V * Y - var_V * X) / (3.0 * var_V) in
  get_illuminant_xyz cobj = Ok wp ->
  dn <> 0 -> luv_l cobj <> 0 ->
  (var_U - 4.0) * var_V - var_U * var_V <> 0 -> var_V <> 0 ->
  exists out,
    Luv_to_XYZ cobj = Ok out
    /\ xyz_x out = X /\ xyz_y out = Y /\ xyz_z out = Z
    /\ illuminant out = illuminant cobj
    /\ observer out = observer cobj.
Proof.
  intros dn ref_U ref_V var_U var_V Y X Z Hwp Hdn HL HdenX HV.
  unfold Luv_to_XYZ.
  change (get_illuminant_xyz _) with (get_illuminant_xyz cobj).
  rewrite Hwp. cbn [bind]. fold dn.
  rewrite !(fdiv_ok _ dn) by assumption. cbn [bind].
  fold ref_U ref_V.
  rewrite !(fdiv_ok (luv_u cobj)) by lra. cbn [bind].
  fold var_U var_V.
  rewrite !math_pow_3. cbn [bind].
  assert (HY : (let* var_Y :=
                  if gtb ((luv_l cobj + 16) / 116.0 * ((luv_l cobj + 16) / 116.0)
                          * ((luv_l cobj + 16) / 116.0)) 0.008856
                  then Ok ((luv_l cobj + 16) / 116.0 * ((luv_l cobj + 16) / 116.0)
                           * ((luv_l cobj + 16) / 116.0))
                  else Ok (((luv_l cobj + 16) / 116.0 - 16.0 / 116.0) / 7.787) in
                Ok (var_Y * 100.0)) = Ok Y).
  { unfold Y, cie_inverse. destruct (gtb _ 0.008856); reflexivity. }
  unfold cie_inverse in Y.
  destruct (gtb _ 0.008856); cbn [bind xyz_y set_xyz_y]; fold Y;
    rewrite fdiv_ok by assumption; cbn [bind xyz_x xyz_y set_xyz_x]; fold X;
    rewrite fdiv_ok by lra; cbn [bind];
    eexists; repeat split; reflexivity.
Qed.
End LuvProperties.

(** C5, as the code has it: under D65 the round trip of the grey
    (0.125, 0.125, 0.125) through Luv returns about (12.309, 12.5, 11.356).
    [Luv_to_XYZ] returns values on the scale 0-100 where [XYZ_to_Luv]
    took 0-1, so Y comes back as 12.5; and it recovers v' from [luv_u]
    where it should use [luv_v], so X is not even 100 times the X it
    started from. *)
Theorem Luv_round_trip_grey :
  exists out,
    @Luv_round_trip example_colorobjs (xyz_color 0.125 0.125 0.125 "d65") = Ok out
    /\ xyz_x out = 6005300 / 487867
    /\ xyz_y out = 12.5
    /\ xyz_z out = 11080225 / 975734
    /\ ~ within_rel 0.000001 (xyz_y out) 0.125
    /\ ~ within_rel 0.000001 (xyz_x out) (100 * 0.125).
Proof.
  destruct (@XYZ_to_Luv_spec example_colorobjs (xyz_color 0.125 0.125 0.125 "d65")
              D65_white 0.5 eq_refl)
    as (luv & Hluv & Hl & Hu & Hv & Hi & Ho).
  1-3: cbn; lra.
  { cbn [xyz_color xyz_y D65_white wp_Y].
    replace (0.125 * 100.0 / 100) with (0.5 * 0.5 * 0.5) by lra.
    apply cie_forward_cube. lra. }
  cbn [xyz_color xyz_x xyz_y xyz_z D65_white wp_X wp_Y wp_Z] in Hl, Hu, Hv.
  assert (Hwp : @get_illuminant_xyz example_colorobjs _ _ luv = Ok D65_white).
  { unfold get_illuminant_xyz. rewrite Hi, Ho. reflexivity. }
  assert (HL : luv_l luv = 42) by lra.
  assert (HU : luv_u luv / (13.0 * luv_l luv) = 4 / 19 - 380188 / 1921696).
  { rewrite Hu, HL. lra. }
  assert (HY : cie_inverse ((luv_l luv + 16) / 116.0) = 0.125).
  { rewrite HL. unfold cie_inverse. rewrite gtb_true by lra. lra. }
  pose proof (@Luv_to_XYZ_spec example_colorobjs luv D65_white) as Hback.
  cbv zeta in Hback. rewrite HU, HY in Hback.
  cbn [D65_white wp_X wp_Y wp_Z] in Hback.
  destruct Hback as (out & Hout & Hx & Hy & Hz & _);
    [assumption | lra | lra | lra | lra |].
  exists out.
  split. { unfold Luv_round_trip. rewrite Hluv. exact Hout. }
  assert (Hx' : xyz_x out = 6005300 / 487867) by (rewrite Hx; lra).
  assert (Hy' : xyz_y out = 12.5) by (rewrite Hy; lra).
  assert (Hz' : xyz_z out = 11080225 / 975734) by (rewrite Hz; lra).
  repeat (split; [assumption |]).
  unfold within_rel. rewrite Hx', Hy'.
  split; intros Hclose.
  - rewrite !Rabs_pos_eq in Hclose by lra. lra.
  - rewrite Rabs_left in Hclose by lra.
    rewrite Rabs_pos_eq in Hclose by lra. lra.
Qed.

(** ** XYZ and RGB *)

Ltac rgb_fields :=
  cbn [rgb_r rgb_g rgb_b rgb_illuminant rgb_observer
       set_rgb_r set_rgb_g set_rgb_b].

Ltac finish_rgb_cases :=
  unfold finish_rgb, scale_channel; rgb_fields;
  repeat match goal with
    | |- context [if ?c then _ else _] =>
        lazymatch c with
        | context [if _ then _ else _] => fail
        | _ => destruct c eqn:?; rgb_fields
        end
    end;
  first [reflexivity | congruence].

Lemma finish_rgb_illuminant (c : RGBColor) :
  rgb_illuminant (finish_rgb c) = rgb_illuminant c.
Proof. finish_rgb_cases. Qed.

Lemma finish_rgb_observer (c : RGBColor) :
  rgb_observer (finish_rgb c) = rgb_observer c.
Proof. finish_rgb_cases. Qed.

Lemma finish_rgb_r (c : RGBColor) : rgb_r (finish_rgb c) = scale_channel (rgb_r c).
Proof. finish_rgb_cases. Qed.

Lemma finish_rgb_g (c : RGBColor) : rgb_g (finish_rgb c) = scale_channel (rgb_g c).
Proof. finish_rgb_cases. Qed.

Lemma finish_rgb_b (c : RGBColor) : rgb_b (finish_rgb c) = scale_channel (rgb_b c).
Proof. finish_rgb_cases. Qed.

Lemma srgb_companding_linear (v : R) :
  v <= 0.0031308 -> srgb_companding v = Ok (v * 12.92).
Proof. intros H. unfold srgb_companding. rewrite gtb_false by assumption. reflexivity. Qed.

Lemma srgb_companding_power (v : R) :
  v > 0.0031308 ->
  srgb_companding v = Ok (1.055 * Rpower v (1.0 / 2.4) - 0.055).
Proof.
  intros H. unfold srgb_companding. rewrite gtb_true by assumption.
  rewrite math_pow_pos by lra. reflexivity.
Qed.

Lemma srgb_companding_returns (v : R) : returns (srgb_companding v).
Proof.
  destruct (Rgt_dec v 0.0031308).
  - rewrite srgb_companding_power by assumption. eexists; reflexivity.
  - rewrite srgb_companding_linear by lra. eexists; reflexivity.
Qed.

Ltac compand_channel v Hv :=
  destruct (Rgt_dec v 0.0031308);
  [ rewrite (num_gt_true (Float v) (Float 0.0031308))
      by (cbn [to_float]; lra);
    cbn [to_float]; rewrite (math_pow_pos v) by lra;
    rewrite srgb_companding_power in Hv by lra
  | rewrite (num_gt_false (Float v) (Float 0.0031308))
      by (cbn [to_float]; lra);
    rewrite srgb_companding_linear in Hv by lra ];
  injection Hv as <-; cbn [bind]; rgb_fields.

(** At the threshold the two encodings of sRGB give different values:
    the power law is above the linear one by about 1.4e-7. *)
Lemma srgb_encodings_differ_at_threshold :
  1.055 * Rpower 0.0031308 (1.0 / 2.4) - 0.055 <> 0.0031308 * 12.92.
Proof.
  intros Heq.
  remember (Rpower 0.0031308 (1.0 / 2.4)) as p eqn:Hp.
  assert (Hc : p = (0.0031308 * 12.92 + 0.055) / 1.055) by lra.
  assert (H12 : Rpower p (INR 12) = 0.0031308 ^ 5).
  { rewrite Hp, Rpower_mult.
    replace (1.0 / 2.4 * INR 12) with (INR 5) by (simpl; lra).
    apply Rpower_pow. lra. }
  rewrite Rpower_pow in H12 by lra.
  rewrite Hc in H12.
  lra.
Qed.

Section RGBProperties.
Context {colorobjs : Colorobjs} {constants : Constants}.

(** C4, as the code has it: when the illuminant of the colour is the
    native illuminant of the target space, [XYZ_to_RGB] never returns:
    [temp_X], [temp_Y] and [temp_Z] are assigned only in the branch for
    differing illuminants, and reading them raises [UnboundLocalError]
    (unless the lookup of the reference white has raised before). *)
Theorem XYZ_to_RGB_native_illuminant_raises
  (cobj : XYZColor) (target_rgb : string) (debug : bool) (spec : rgb_spec) :
  getitem RGB_SPECS (lower target_rgb) = Ok spec ->
  illuminant cobj = native_illum spec ->
  ~ returns (XYZ_to_RGB cobj target_rgb debug)
  /\ (returns (get_illuminant_xyz cobj) ->
      XYZ_to_RGB cobj target_rgb debug = Raise UnboundLocalError).
Proof.
  intros Hspec Hill. unfold XYZ_to_RGB, XYZ_to_RGB_companded. rewrite Hspec. cbn [bind].
  destruct (get_illuminant_xyz cobj) as [wp | e]; cbn [bind].
  - destruct (decide (illuminant cobj <> native_illum spec)) as [Hne | _];
      [contradiction |].
    cbn [bind]. split; [| reflexivity].
    intros [out Hout]. discriminate.
  - split.
    + intros [out Hout]. discriminate.
    + intros [wp Hwp]. discriminate.
Qed.

(** For sRGB, on the path through the adaptation, the result is the
    companding of each linear channel followed by its scaling. *)
Lemma XYZ_to_RGB_srgb_staged
  (cobj : XYZColor) (target_rgb : string) (debug : bool) (spec : rgb_spec)
  (adapted : vector) (r g b : R) :
  lower target_rgb = "srgb"%string ->
  getitem RGB_SPECS "srgb" = Ok spec ->
  returns (get_illuminant_xyz cobj) ->
  illuminant cobj <> native_illum spec ->
  apply_XYZ_transformation cobj (illuminant cobj) (native_illum spec)
                           "bradford" = Ok adapted ->
  apply_RGB_matrix (fst (fst adapted)) (snd (fst adapted)) (snd adapted)
                   "srgb" "XYZ_to_RGB" = Ok (r, g, b) ->
  exists r' g' b' out,
    srgb_companding r = Ok r'
    /\ srgb_companding g = Ok g'
    /\ srgb_companding b = Ok b'
    /\ XYZ_to_RGB cobj target_rgb debug = Ok out
    /\ rgb_r out = scale_channel (Float r')
    /\ rgb_g out = scale_channel (Float g')
    /\ rgb_b out = scale_channel (Float b')
    /\ illuminant out = illuminant cobj
    /\ observer out = observer cobj.
Proof.
  intros Hlow Hspec [wp Hwp] Hne Hadapt Hmatrix.
  destruct (srgb_companding_returns r) as [r' Hr].
  destruct (srgb_companding_returns g) as [g' Hg].
  destruct (srgb_companding_returns b) as [b' Hb].
  exists r', g', b'.
  unfold XYZ_to_RGB, XYZ_to_RGB_companded.
  match goal with
  | |- context [bind _ ?k] =>
      change k with (fun c : RGBColor => Ok (finish_rgb c))
  end.
  rewrite Hlow, Hspec. cbn [bind].
  rewrite Hwp. cbn [bind].
  destruct (decide (illuminant cobj <> native_illum spec)) as [_ | Heq];
    [| contradiction].
  rewrite Hadapt. cbn [bind].
  destruct adapted as [[aX aY] aZ]. cbn [fst snd] in Hmatrix.
  rewrite Hmatrix. cbn [bind].
  destruct (decide ("srgb"%string = "srgb"%string)) as [_ | Habs];
    [| contradiction].
  rgb_fields.
  assert (Hr0 := Hr). assert (Hg0 := Hg). assert (Hb0 := Hb).
  compand_channel r Hr; compand_channel g Hg; compand_channel b Hb.
  all: eexists; repeat (split; [eassumption |]).
  all: split; [reflexivity |].
  all: rewrite finish_rgb_r, finish_rgb_g, finish_rgb_b; rgb_fields.
  all: cbn [num_mul to_float illuminant observer RGB_ColorObject].
  all: rewrite finish_rgb_illuminant, finish_rgb_observer; rgb_fields.
  all: repeat split; reflexivity.
Qed.

(** For sRGB, on the path through the adaptation, the colour object at
    the end of the companding holds the encoding of each linear
    channel. *)
Lemma XYZ_to_RGB_companded_srgb
  (cobj : XYZColor) (target_rgb : string) (debug : bool) (spec : rgb_spec)
  (adapted : vector) (r g b : R) :
  lower target_rgb = "srgb"%string ->
  getitem RGB_SPECS "srgb" = Ok spec ->
  returns (get_illuminant_xyz cobj) ->
  illuminant cobj <> native_illum spec ->
  apply_XYZ_transformation cobj (illuminant cobj) (native_illum spec)
                           "bradford" = Ok adapted ->
  apply_RGB_matrix (fst (fst adapted)) (snd (fst adapted)) (snd adapted)
                   "srgb" "XYZ_to_RGB" = Ok (r, g, b) ->
  exists r' g' b',
    srgb_companding r = Ok r'
    /\ srgb_companding g = Ok g'
    /\ srgb_companding b = Ok b'
    /\ XYZ_to_RGB_companded cobj target_rgb debug
       = Ok {| rgb_r := Float r'; rgb_g := Float g'; rgb_b := Float b';
               rgb_illuminant := illuminant cobj;
               rgb_observer := observer cobj |}.
Proof.
  intros Hlow Hspec [wp Hwp] Hne Hadapt Hmatrix.
  destruct (srgb_companding_returns r) as [r' Hr].
  destruct (srgb_companding_returns g) as [g' Hg].
  destruct (srgb_companding_returns b) as [b' Hb].
  exists r', g', b'.
  unfold XYZ_to_RGB_companded.
  rewrite Hlow, Hspec. cbn [bind].
  rewrite Hwp. cbn [bind].
  destruct (decide (illuminant cobj <> native_illum spec)) as [_ | Heq];
    [| contradiction].
  rewrite Hadapt. cbn [bind].
  destruct adapted as [[aX aY] aZ]. cbn [fst snd] in Hmatrix.
  rewrite Hmatrix. cbn [bind].
  destruct (decide ("srgb"%string = "srgb"%string)) as [_ | Habs];
    [| contradiction].
  rgb_fields.
  assert (Hr0 := Hr). assert (Hg0 := Hg). assert (Hb0 := Hb).
  compand_channel r Hr; compand_channel g Hg; compand_channel b Hb.
  all: repeat (split; [eassumption |]).
  all: cbn [num_mul to_float]; reflexivity.
Qed.

(** C9: in [XYZ_to_RGB] for sRGB, a linear channel equal to 0.0031308
    is encoded by the linear branch, [v * 12.92], since the comparison
    with the threshold is a strict [>]; a linear channel above the
    threshold is encoded as [1.055 * v ^ (1 / 2.4) - 0.055].  The
    encoding is the value the channel holds when the companding ends,
    and the channel returned is that value clamped, scaled and capped.
    At the threshold the two encodings are different numbers, so the
    value held there tells which branch ran. *)
Theorem XYZ_to_RGB_srgb_threshold
  (cobj : XYZColor) (target_rgb : string) (debug : bool) (spec : rgb_spec)
  (adapted : vector) (r g b : R) :
  lower target_rgb = "srgb"%string ->
  getitem RGB_SPECS "srgb" = Ok spec ->
  returns (get_illuminant_xyz cobj) ->
  illuminant cobj <> native_illum spec ->
  apply_XYZ_transformation cobj (illuminant cobj) (native_illum spec)
                           "bradford" = Ok adapted ->
  apply_RGB_matrix (fst (fst adapted)) (snd (fst adapted)) (snd adapted)
                   "srgb" "XYZ_to_RGB" = Ok (r, g, b) ->
  (exists companded out,
     XYZ_to_RGB_companded cobj target_rgb debug = Ok companded
     /\ XYZ_to_RGB cobj target_rgb debug = Ok out
     /\ (r = 0.0031308 ->
         rgb_r companded = Float (r * 12.92)
         /\ rgb_r out = scale_channel (Float (r * 12.92)))
     /\ (r > 0.0031308 ->
         rgb_r companded = Float (1.055 * Rpower r (1.0 / 2.4) - 0.055)
         /\ rgb_r out
            = scale_channel (Float (1.055 * Rpower r (1.0 / 2.4) - 0.055)))
     /\ (g = 0.0031308 ->
         rgb_g companded = Float (g * 12.92)
         /\ rgb_g out = scale_channel (Float (g * 12.92)))
     /\ (g > 0.0031308 ->
         rgb_g companded = Float (1.055 * Rpower g (1.0 / 2.4) - 0.055)
         /\ rgb_g out
            = scale_channel (Float (1.055 * Rpower g (1.0 / 2.4) - 0.055)))
     /\ (b = 0.0031308 ->
         rgb_b companded = Float (b * 12.92)
         /\ rgb_b out = scale_channel (Float (b * 12.92)))
     /\ (b > 0.0031308 ->
         rgb_b companded = Float (1.055 * Rpower b (1.0 / 2.4) - 0.055)
         /\ rgb_b out
            = scale_channel (Float (1.055 * Rpower b (1.0 / 2.4) - 0.055))))
  /\ 1.055 * Rpower 0.0031308 (1.0 / 2.4) - 0.055 <> 0.0031308 * 12.92.
Proof.
  intros Hlow Hspec Hwp Hne Hadapt Hmatrix.
  split; [| exact srgb_encodings_differ_at_threshold].
  destruct (XYZ_to_RGB_companded_srgb cobj target_rgb debug spec adapted r g b
              Hlow Hspec Hwp Hne Hadapt Hmatrix)
    as (r' & g' & b' & Hr & Hg & Hb & Hcompanded).
  destruct (XYZ_to_RGB_srgb_staged cobj target_rgb debug spec adapted r g b
              Hlow Hspec Hwp Hne Hadapt Hmatrix)
    as (r'' & g'' & b'' & out & Hr' & Hg' & Hb' & Hout & Hor & Hog & Hob & _).
  assert (r'' = r') by congruence. assert (g'' = g') by congruence.
  assert (b'' = b') by congruence. subst r'' g'' b''.
  eexists. exists out. split; [exact Hcompanded |].
  split; [exact Hout |].
  cbn [rgb_r rgb_g rgb_b]. rewrite Hor, Hog, Hob.
  assert (Hlin : forall v v', srgb_companding v = Ok v' -> v = 0.0031308 ->
                              v' = v * 12.92).
  { intros v v' Hv Heq. rewrite srgb_companding_linear in Hv by lra.
    injection Hv as <-. reflexivity. }
  assert (Hpow : forall v v', srgb_companding v = Ok v' -> v > 0.0031308 ->
                              v' = 1.055 * Rpower v (1.0 / 2.4) - 0.055).
  { intros v v' Hv Hgt. rewrite srgb_companding_power in Hv by lra.
    injection Hv as <-. reflexivity. }
  split. { intros Hv. rewrite (Hlin _ _ Hr Hv). split; reflexivity. }
  split. { intros Hv. rewrite (Hpow _ _ Hr Hv). split; reflexivity. }
  split. { intros Hv. rewrite (Hlin _ _ Hg Hv). split; reflexivity. }
  split. { intros Hv. rewrite (Hpow _ _ Hg Hv). split; reflexivity. }
  split. { intros Hv. rewrite (Hlin _ _ Hb Hv). split; reflexivity. }
  intros Hv. rewrite (Hpow _ _ Hb Hv). split; reflexivity.
Qed.

End RGBProperties.

Lemma XYZ_to_RGB_native_illuminant_raises_witness :
  @XYZ_to_RGB example_colorobjs example_constants
    (xyz_color 0.95047 1.0 1.08883 "d65") "sRGB" false
  = Raise UnboundLocalError
  /\ @XYZ_to_RGB example_colorobjs example_constants
       (xyz_color 0 0 0 "d65") "sRGB" false
     = Raise UnboundLocalError.
Proof.
  split.
  - apply (@XYZ_to_RGB_native_illuminant_raises
             example_colorobjs example_constants
             (xyz_color 0.95047 1.0 1.08883 "d65") "sRGB" false
             {| native_illum := "d65"; gamma := 2.2;
                conversions := {[ "xyz_to_rgb"%string := identity_matrix ]} |}
             eq_refl eq_refl).
    exists D65_white. reflexivity.
  - apply (@XYZ_to_RGB_native_illuminant_raises
             example_colorobjs example_constants
             (xyz_color 0 0 0 "d65") "sRGB" false
             {| native_illum := "d65"; gamma := 2.2;
                conversions := {[ "xyz_to_rgb"%string := identity_matrix ]} |}
             eq_refl eq_refl).
    exists D65_white. reflexivity.
Defined.

Lemma XYZ_to_RGB_srgb_threshold_witness :
  exists companded out,
    @XYZ_to_RGB_companded example_colorobjs example_constants
      (xyz_color 0.0031308 0.5 0 "d50") "sRGB" false = Ok companded
    /\ @XYZ_to_RGB example_colorobjs example_constants
         (xyz_color 0.0031308 0.5 0 "d50") "sRGB" false = Ok out
    /\ rgb_r companded = Float (0.0031308 * 12.92)
    /\ rgb_r out = scale_channel (Float (0.0031308 * 12.92))
    /\ rgb_g companded = Float (1.055 * Rpower 0.5 (1.0 / 2.4) - 0.055)
    /\ rgb_g out
       = scale_channel (Float (1.055 * Rpower 0.5 (1.0 / 2.4) - 0.055)).
Proof.
  assert (Hmatrix :
            @apply_RGB_matrix example_constants 0.0031308 0.5 0
              "srgb" "XYZ_to_RGB" = Ok (0.0031308, 0.5, 0)).
  { unfold apply_RGB_matrix.
    change (getitem RGB_SPECS (lower "srgb"))
      with (Ok {| native_illum := "d65"; gamma := 2.2;
                  conversions :=
                    {[ "xyz_to_rgb"%string := identity_matrix ]} |}).
    cbn [bind conversions].
    change (getitem _ (lower "XYZ_to_RGB")) with (Ok identity_matrix).
    cbn [bind numpy_dot identity_matrix].
    f_equal. f_equal; [f_equal |]; lra. }
  assert (Hadapt :
            @apply_XYZ_transformation example_constants
              (xyz_color 0.0031308 0.5 0 "d50") "d50" "d65" "bradford"
            = Ok (0.0031308, 0.5, 0)).
  { unfold apply_XYZ_transformation.
    change (getitem ADAPTATION_MATRICES (lower "d50"))
      with (Ok ({[ "d65"%string :=
                     {[ "bradford"%string := identity_matrix ]} ]}
                : gmap string (gmap string matrix))).
    cbn [bind].
    change (getitem _ (lower "d65"))
      with (Ok ({[ "bradford"%string := identity_matrix ]}
                : gmap string matrix)).
    cbn [bind].
    change (getitem _ (lower "bradford")) with (Ok identity_matrix).
    cbn [bind numpy_dot identity_matrix xyz_color xyz_x xyz_y xyz_z].
    f_equal. f_equal; [f_equal |]; lra. }
  destruct (@XYZ_to_RGB_srgb_threshold example_colorobjs example_constants
              (xyz_color 0.0031308 0.5 0 "d50") "sRGB" false
              {| native_illum := "d65"; gamma := 2.2;
                 conversions := {[ "xyz_to_rgb"%string := identity_matrix ]} |}
              (0.0031308, 0.5, 0) 0.0031308 0.5 0
              eq_refl eq_refl)
    as ((companded & out & Hcompanded & Hout & Hr & _ & _ & Hg & _) & _).
  - exists D50_white. reflexivity.
  - discriminate.
  - exact Hadapt.
  - exact Hmatrix.
  - exists companded, out. split; [assumption |]. split; [assumption |].
    destruct (Hr eq_refl) as [Hrc Hro].
    destruct Hg as [Hgc Hgo]; [lra |].
    repeat split; assumption.
Defined.

(** ** More on XYZ and xyY *)

Section xyYRoundTrips.
Context {colorobjs : Colorobjs}.





(** X3: for an XYZ colour with no negative component and a positive
    sum, [XYZ_to_xyY] returns chromaticities x and y between 0 and 1
    whose sum is at most 1. *)
Theorem XYZ_to_xyY_chromaticity_range (cobj : XYZColor) :
  0 <= xyz_x cobj -> 0 <= xyz_y cobj -> 0 <= xyz_z cobj ->
  0 < xyz_x cobj + xyz_y cobj + xyz_z cobj ->
  exists out,
    XYZ_to_xyY cobj = Ok out
    /\ 0 <= xyy_x out <= 1 /\ 0 <= xyy_y out <= 1
    /\ xyy_x out + xyy_y out <= 1.
Proof.
  intros HX HY HZ Hsum.
  unfold XYZ_to_xyY.
  remember (xyz_x cobj + xyz_y cobj + xyz_z cobj) as s eqn:Hs.
  rewrite !fdiv_ok by lra. cbn [bind].
  eexists. split; [reflexivity |].
  cbn [xyy_x xyy_y set_xyy_x set_xyy_y set_xyy_Y].
  assert (Hinv : 0 < / s) by (apply Rinv_0_lt_compat; assumption).
  assert (Hone : s * / s = 1) by (apply Rinv_r; lra).
  unfold Rdiv.
  assert (xyz_x cobj * / s <= s * / s) by (apply Rmult_le_compat_r; lra).
  assert (xyz_y cobj * / s <= s * / s) by (apply Rmult_le_compat_r; lra).
  assert ((xyz_x cobj + xyz_y cobj) * / s <= s * / s)
    by (apply Rmult_le_compat_r; lra).
  assert (0 <= xyz_x cobj * / s) by (apply Rmult_le_pos; lra).
  assert (0 <= xyz_y cobj * / s) by (apply Rmult_le_pos; lra).
  repeat split; lra.
Qed.

End xyYRoundTrips.



Lemma XYZ_to_xyY_chromaticity_range_witness :
  exists out,
    @XYZ_to_xyY example_colorobjs (xyz_color 0.2 0.3 0.5 "d65") = Ok out
    /\ 0 <= xyy_x out <= 1 /\ 0 <= xyy_y out <= 1
    /\ xyy_x out + xyy_y out <= 1.
Proof.
  apply (@XYZ_to_xyY_chromaticity_range example_colorobjs
           (xyz_color 0.2 0.3 0.5 "d65")); cbn; lra.
Defined.

(** ** Provenance *)

Lemma ensures_bind {A B : Type} (r : result A) (k : A -> result B)
  (P : A -> Prop) (Q : B -> Prop) :
  ensures r P -> (forall a, P a -> ensures (k a) Q) -> ensures (bind r k) Q.
Proof. destruct r as [a | e]; cbn; [intros Ha Hk; apply Hk, Ha | trivial]. Qed.

Lemma ensures_weaken {A : Type} (r : result A) (P Q : A -> Prop) :
  ensures r P -> (forall a, P a -> Q a) -> ensures r Q.
Proof. destruct r as [a | e]; cbn; [intros Ha H; apply H, Ha | trivial]. Qed.

Lemma ensures_returns {A : Type} (r : result A) (P : A -> Prop) (a : A) :
  ensures r P -> r = Ok a -> P a.
Proof. intros H ->. exact H. Qed.

(** One step of a call: decide a test, then look at the outcome of the
    operation that runs next. *)
Ltac run_step :=
  match goal with
  | |- ensures (Raise _) _ => exact I
  | |- context [if ?c then _ else _] =>
      lazymatch c with
      | context [if _ then _ else _] => fail
      | context [bind _ _] => fail
      | _ => destruct c
      end
  | |- context [match ?p with (_, _) => _ end] =>
      let T := type of p in
      let T := eval hnf in T in
      lazymatch T with
      | prod _ _ => destruct p
      end
  | |- context [bind ?r _] =>
      lazymatch r with
      | bind _ _ => fail
      | (if _ then _ else _) => fail
      | Ok _ => fail
      | Raise _ => fail
      | _ => destruct r
      end
  end; cbn [bind].

Ltac run_call := cbn [bind]; repeat run_step.

Section Provenance.

Context {colorobjs : Colorobjs} {constants : Constants}
        {spectral : SpectralConstants}.

Lemma XYZ_to_RGB_provenance (cobj : XYZColor) (target_rgb : string)
  (debug : bool) :
  ensures (XYZ_to_RGB cobj target_rgb debug) (same_provenance cobj).
Proof.
  unfold XYZ_to_RGB, XYZ_to_RGB_companded.
  match goal with
  | |- context [bind _ ?k] =>
      change k with (fun c : RGBColor => Ok (finish_rgb c))
  end.
  run_call.
  all: unfold ensures, same_provenance; cbn [illuminant observer RGB_ColorObject];
    rewrite finish_rgb_illuminant, finish_rgb_observer; split; reflexivity.
Qed.


Ltac provenance f :=
  intros; unfold f; run_call;
  unfold ensures, same_provenance; split; reflexivity.

(** X4: whatever a conversion returns carries the illuminant and the
    observer of its argument: this holds for each of the fifteen
    conversions, for [XYZ_to_RGB] also on the path that adapts the values
    to the native illuminant of the target space (the result keeps the
    illuminant the values were adapted from), and for the argument of
    [Lab_to_XYZ] as the call leaves it. *)
Theorem conversions_keep_provenance :
  (forall (D : Type) cobj (cdict : D),
     ensures (Spectral_to_XYZ cobj cdict) (same_provenance cobj))
  /\ (forall cobj, ensures (Lab_to_LCH cobj) (same_provenance cobj))
  /\ (forall cobj,
        ensures (Lab_to_XYZ cobj)
                (fun after => same_provenance cobj (snd after)
                              /\ same_provenance cobj (fst after)))
  /\ (forall cobj, ensures (Luv_to_LCH cobj) (same_provenance cobj))
  /\ (forall cobj, ensures (Luv_to_XYZ cobj) (same_provenance cobj))
  /\ (forall cobj, ensures (LCH_to_Lab cobj) (same_provenance cobj))
  /\ (forall cobj, ensures (LCH_to_Luv cobj) (same_provenance cobj))
  /\ (forall cobj, ensures (XYZ_to_xyY cobj) (same_provenance cobj))
  /\ (forall cobj, ensures (XYZ_to_Luv cobj) (same_provenance cobj))
  /\ (forall cobj, ensures (XYZ_to_Lab cobj) (same_provenance cobj))
  /\ (forall cobj target_rgb debug,
        ensures (XYZ_to_RGB cobj target_rgb debug) (same_provenance cobj))
  /\ (forall cobj, ensures (xyY_to_XYZ cobj) (same_provenance cobj))
  /\ (forall (D : Type) cobj (cdict : D),
        ensures (RGB_to_CMY cobj cdict) (same_provenance cobj))
  /\ (forall (D : Type) cobj (cdict : D),
        ensures (RGB_to_XYZ cobj cdict) (same_provenance cobj))
  /\ (forall (D : Type) cobj (cdict : D),
        ensures (CMY_to_CMYK cobj cdict) (same_provenance cobj)).
Proof.
  split. { provenance (@Spectral_to_XYZ). }
  split. { provenance (@Lab_to_LCH). }
  split.
  { intros cobj. unfold Lab_to_XYZ. run_call.
    all: unfold ensures, same_provenance; cbn [fst snd].
    all: rewrite !Lab_setattr_foreign by discriminate.
    all: repeat split; reflexivity. }
  split. { provenance (@Luv_to_LCH). }
  split. { provenance (@Luv_to_XYZ). }
  split. { provenance (@LCH_to_Lab). }
  split. { provenance (@LCH_to_Luv). }
  split. { provenance (@XYZ_to_xyY). }
  split. { provenance (@XYZ_to_Luv). }
  split. { provenance (@XYZ_to_Lab). }
  split. { intros. apply XYZ_to_RGB_provenance. }
  split. { provenance (@xyY_to_XYZ). }
  split. { provenance (@RGB_to_CMY). }
  split. { provenance (@RGB_to_XYZ). }
  provenance (@CMY_to_CMYK).
Qed.

End Provenance.

(** ** More on XYZ and RGB *)

Lemma to_float_mul_255 (v : num) :
  to_float (num_mul v (Int 255)) = to_float v * 255.
Proof. destruct v as [z | r]; cbn; [apply mult_IZR | reflexivity]. Qed.

Lemma to_float_half_plus (v : num) :
  to_float (num_add (Float 0.5) v) = 0.5 + to_float v.
Proof. destruct v; reflexivity. Qed.

Lemma Int_part_lower (x : R) (n : Z) : IZR n <= x -> (n <= Int_part x)%Z.
Proof.
  intros H. destruct (base_Int_part x) as [_ Hhi].
  assert (Hlt : IZR n < IZR (Int_part x + 1)) by (rewrite plus_IZR; lra).
  apply lt_IZR in Hlt. lia.
Qed.

Lemma Int_part_upper (x : R) (n : Z) : x < IZR n -> (Int_part x < n)%Z.
Proof.
  intros H. destruct (base_Int_part x) as [Hlo _].
  apply lt_IZR. lra.
Qed.

(** What the clamp, the scaling and the cap make of a companded value
    [x]: the nearest integer to [255 * x], halves rounded up, kept
    within 0 and 255. *)
Lemma scale_channel_value (v : num) :
  scale_channel v
  = Int (Z.min 255 (Int_part (0.5 + Rmax 0 (to_float v) * 255))).
Proof.
  unfold scale_channel.
  assert (Hclamp : to_float (if num_lt v (Int 0) then Int 0 else v)
                   = Rmax 0 (to_float v)).
  { unfold num_lt. cbn [to_float].
    destruct (Rlt_dec (to_float v) 0) as [Hneg | Hpos]; cbn [to_float].
    - rewrite Rmax_left by lra. reflexivity.
    - rewrite Rmax_right by lra. reflexivity. }
  rewrite to_float_half_plus, to_float_mul_255, Hclamp.
  unfold math_floor.
  set (n := Int_part (0.5 + Rmax 0 (to_float v) * 255)).
  unfold num_gt. cbn [to_float].
  destruct (Rgt_dec (IZR n) 255) as [Hgt | Hle].
  - apply lt_IZR in Hgt. f_equal. lia.
  - assert (n <= 255)%Z by (apply le_IZR; lra). f_equal. lia.
Qed.

Lemma scale_channel_byte (v : num) : is_byte (scale_channel v).
Proof.
  rewrite scale_channel_value. eexists. split; [reflexivity |].
  assert (0 <= Int_part (0.5 + Rmax 0 (to_float v) * 255))%Z.
  { apply Int_part_lower. pose proof (Rmax_l 0 (to_float v)). lra. }
  lia.
Qed.

Lemma scale_channel_zero (v : num) : to_float v <= 0 -> scale_channel v = Int 0.
Proof.
  intros Hv. rewrite scale_channel_value. rewrite Rmax_left by assumption.
  replace (0.5 + 0 * 255) with 0.5 by lra.
  assert (H0 : (0 <= Int_part 0.5)%Z) by (apply Int_part_lower; lra).
  assert (H1 : (Int_part 0.5 < 1)%Z) by (apply Int_part_upper; lra).
  f_equal. lia.
Qed.

Lemma scale_channel_full (v : num) : 1 <= to_float v -> scale_channel v = Int 255.
Proof.
  intros Hv. rewrite scale_channel_value. rewrite Rmax_right by lra.
  assert (255 <= Int_part (0.5 + to_float v * 255))%Z
    by (apply Int_part_lower; lra).
  f_equal. lia.
Qed.

Lemma gamma_companding_positive (gamma v : R) :
  0 < gamma -> 0 < v -> gamma_companding gamma v = Ok (Rpower v (1 / gamma)).
Proof.
  intros Hg Hv. unfold gamma_companding.
  destruct (Rlt_dec v 0); [lra |].
  rewrite fdiv_ok by lra. cbn [bind]. apply math_pow_pos. assumption.
Qed.

Lemma gamma_companding_clamped (gamma v : R) :
  0 < gamma -> v <= 0 -> gamma_companding gamma v = Ok 0.
Proof.
  intros Hg Hv. unfold gamma_companding.
  assert (He : 0 < 1 / gamma) by (apply Rdiv_lt_0_compat; lra).
  rewrite fdiv_ok by lra. cbn [bind].
  assert (Hzero : (if Rlt_dec v 0 then 0 else v) = 0)
    by (destruct (Rlt_dec v 0); lra).
  rewrite Hzero. unfold math_pow.
  destruct (Rlt_dec 0 0); [lra |].
  destruct (Req_dec_T 0 0); [| lra].
  destruct (Rlt_dec 0 (1 / gamma)); [reflexivity | lra].
Qed.

Lemma gamma_companding_returns (gamma v : R) :
  0 < gamma -> returns (gamma_companding gamma v).
Proof.
  intros Hg. destruct (Rlt_dec 0 v).
  - rewrite gamma_companding_positive by assumption. eexists; reflexivity.
  - rewrite gamma_companding_clamped by lra. eexists; reflexivity.
Qed.

Lemma lower_ascii_idempotent (c : ascii) :
  lower_ascii (lower_ascii c) = lower_ascii c.
Proof. destruct c as [[] [] [] [] [] [] [] []]; reflexivity. Qed.

(** Lowering a name twice is lowering it once. *)
Lemma lower_idempotent (s : string) : lower (lower s) = lower s.
Proof.
  induction s as [| c s IH]; [reflexivity |].
  cbn [lower]. rewrite lower_ascii_idempotent, IH. reflexivity.
Qed.

Lemma finish_rgb_eq (c : RGBColor) :
  finish_rgb c
  = {| rgb_r := scale_channel (rgb_r c);
       rgb_g := scale_channel (rgb_g c);
       rgb_b := scale_channel (rgb_b c);
       rgb_illuminant := rgb_illuminant c;
       rgb_observer := rgb_observer c |}.
Proof.
  rewrite <- finish_rgb_r, <- finish_rgb_g, <- finish_rgb_b,
          <- finish_rgb_illuminant, <- finish_rgb_observer.
  destruct (finish_rgb c). reflexivity.
Qed.

Ltac rgb_norm :=
  cbn [bind to_float rgb_r rgb_g rgb_b rgb_illuminant rgb_observer
       set_rgb_r set_rgb_g set_rgb_b].

Section RGBMore.

Context {colorobjs : Colorobjs} {constants : Constants}.

(** X5: every channel of an [RGBColor] that [XYZ_to_RGB] returns is an
    [int] from 0 to 255, for every target space, colour and table of
    constants. *)
Theorem XYZ_to_RGB_channels_are_bytes
  (cobj : XYZColor) (target_rgb : string) (debug : bool) :
  ensures (XYZ_to_RGB cobj target_rgb debug)
          (fun out => is_byte (rgb_r out) /\ is_byte (rgb_g out)
                      /\ is_byte (rgb_b out)).
Proof.
  unfold XYZ_to_RGB, XYZ_to_RGB_companded.
  match goal with
  | |- context [bind _ ?k] =>
      change k with (fun c : RGBColor => Ok (finish_rgb c))
  end.
  run_call.
  all: unfold ensures; rewrite finish_rgb_r, finish_rgb_g, finish_rgb_b.
  all: repeat split; apply scale_channel_byte.
Qed.


(** X6: a target space that is no key of [RGB_SPECS] (once lowered)
    raises [KeyError]; and when the illuminant of the colour is not the
    native one and [ADAPTATION_MATRICES] has no entry for the colour's
    illuminant, the call raises [KeyError] too. *)
Theorem XYZ_to_RGB_unknown_names
  (cobj : XYZColor) (target_rgb : string) (debug : bool) :
  (RGB_SPECS !! lower target_rgb = None ->
   XYZ_to_RGB cobj target_rgb debug = Raise KeyError)
  /\ (forall spec,
        RGB_SPECS !! lower target_rgb = Some spec ->
        returns (get_illuminant_xyz cobj) ->
        illuminant cobj <> native_illum spec ->
        ADAPTATION_MATRICES !! lower (illuminant cobj) = None ->
        XYZ_to_RGB cobj target_rgb debug = Raise KeyError).
Proof.
  split.
  - intros Hnone. unfold XYZ_to_RGB, XYZ_to_RGB_companded, getitem. rewrite Hnone. reflexivity.
  - intros spec Hspec [wp Hwp] Hne Hnone.
    unfold XYZ_to_RGB, XYZ_to_RGB_companded.
    unfold getitem at 1. rewrite Hspec. cbn [bind].
    rewrite Hwp. cbn [bind].
    destruct (decide (illuminant cobj <> native_illum spec)) as [_ | Heq];
      [| contradiction].
    unfold apply_XYZ_transformation, getitem at 1.
    rewrite Hnone. reflexivity.
Qed.

(** X7: for sRGB, on the path through the adaptation, a linear channel
    of 0 or less is returned as 0 and a linear channel of 1 or more as
    255: values out of gamut are clipped, and linear white (1, 1, 1)
    gives (255, 255, 255), linear black (0, 0, 0) gives (0, 0, 0). *)
Theorem XYZ_to_RGB_srgb_clips
  (cobj : XYZColor) (target_rgb : string) (debug : bool) (spec : rgb_spec)
  (adapted : vector) (r g b : R) :
  lower target_rgb = "srgb"%string ->
  getitem RGB_SPECS "srgb" = Ok spec ->
  returns (get_illuminant_xyz cobj) ->
  illuminant cobj <> native_illum spec ->
  apply_XYZ_transformation cobj (illuminant cobj) (native_illum spec)
                           "bradford" = Ok adapted ->
  apply_RGB_matrix (fst (fst adapted)) (snd (fst adapted)) (snd adapted)
                   "srgb" "XYZ_to_RGB" = Ok (r, g, b) ->
  exists out,
    XYZ_to_RGB cobj target_rgb debug = Ok out
    /\ (r <= 0 -> rgb_r out = Int 0) /\ (1 <= r -> rgb_r out = Int 255)
    /\ (g <= 0 -> rgb_g out = Int 0) /\ (1 <= g -> rgb_g out = Int 255)
    /\ (b <= 0 -> rgb_b out = Int 0) /\ (1 <= b -> rgb_b out = Int 255).
Proof.
  intros Hlow Hspec Hwp Hne Hadapt Hmatrix.
  destruct (XYZ_to_RGB_srgb_staged cobj target_rgb debug spec adapted r g b
              Hlow Hspec Hwp Hne Hadapt Hmatrix)
    as (r' & g' & b' & out & Hr & Hg & Hb & Hout & Hor & Hog & Hob & _).
  assert (Hlow_end : forall v v', srgb_companding v = Ok v' -> v <= 0 ->
                                  scale_channel (Float v') = Int 0).
  { intros v v' Hv Hneg. rewrite srgb_companding_linear in Hv by lra.
    injection Hv as <-. apply scale_channel_zero. cbn [to_float]. lra. }
  assert (Hhigh_end : forall v v', srgb_companding v = Ok v' -> 1 <= v ->
                                   scale_channel (Float v') = Int 255).
  { intros v v' Hv Hbig. rewrite srgb_companding_power in Hv by lra.
    injection Hv as <-. apply scale_channel_full. cbn [to_float].
    assert (Rpower v 0 <= Rpower v (1.0 / 2.4))
      by (apply Rle_Rpower; lra).
    rewrite Rpower_O in H by lra. lra. }
  exists out. split; [assumption |].
  rewrite Hor, Hog, Hob.
  repeat split; intros Hv; eauto.
Qed.


(** For a working space other than sRGB, on the path through the
    adaptation, the result is the gamma encoding of each linear channel
    followed by its scaling. *)
Lemma XYZ_to_RGB_gamma_staged
  (cobj : XYZColor) (target_rgb : string) (debug : bool) (spec : rgb_spec)
  (adapted : vector) (r g b : R) :
  lower target_rgb <> "srgb"%string ->
  getitem RGB_SPECS (lower target_rgb) = Ok spec ->
  returns (get_illuminant_xyz cobj) ->
  illuminant cobj <> native_illum spec ->
  apply_XYZ_transformation cobj (illuminant cobj) (native_illum spec)
                           "bradford" = Ok adapted ->
  apply_RGB_matrix (fst (fst adapted)) (snd (fst adapted)) (snd adapted)
                   (lower target_rgb) "XYZ_to_RGB" = Ok (r, g, b) ->
  XYZ_to_RGB cobj target_rgb debug
  = (let* r' := gamma_companding (gamma spec) r in
     let* g' := gamma_companding (gamma spec) g in
     let* b' := gamma_companding (gamma spec) b in
     Ok {| rgb_r := scale_channel (Float r');
           rgb_g := scale_channel (Float g');
           rgb_b := scale_channel (Float b');
           rgb_illuminant := illuminant cobj;
           rgb_observer := observer cobj |}).
Proof.
  intros Hother Hspec [wp Hwp] Hne Hadapt Hmatrix.
  unfold XYZ_to_RGB, XYZ_to_RGB_companded.
  match goal with
  | |- context [bind _ ?k] =>
      change k with (fun c : RGBColor => Ok (finish_rgb c))
  end.
  rewrite Hspec. cbn [bind].
  rewrite Hwp. cbn [bind].
  destruct (decide (illuminant cobj <> native_illum spec)) as [_ | Heq];
    [| contradiction].
  rewrite Hadapt. cbn [bind].
  destruct adapted as [[aX aY] aZ]. cbn [fst snd] in Hmatrix.
  rewrite Hmatrix. cbn [bind].
  destruct (decide (lower target_rgb = "srgb"%string)) as [Habs | _];
    [contradiction |].
  unfold gamma_companding, num_lt. rgb_norm.
  destruct (Rlt_dec r 0); rgb_norm;
    (destruct (Rlt_dec g 0); rgb_norm;
     (destruct (Rlt_dec b 0); rgb_norm)).
  all: destruct (fdiv 1 (gamma spec)) as [e | err]; rgb_norm;
    [| reflexivity].
  all: repeat match goal with
         | |- context [bind (math_pow ?x ?y) _] =>
             destruct (math_pow x y); rgb_norm
         end.
  all: try reflexivity.
  all: rewrite finish_rgb_eq; rgb_norm; reflexivity.
Qed.


(** X8: for a working space other than sRGB with a positive gamma, on
    the path through the adaptation, [XYZ_to_RGB] returns; a linear
    channel of 0 or less is returned as 0, a positive one [v] as the
    scaling of [v ^ (1 / gamma)], and one of 1 or more as 255.  With a
    gamma of 0 the call raises [ZeroDivisionError]. *)
Theorem XYZ_to_RGB_gamma_channels
  (cobj : XYZColor) (target_rgb : string) (debug : bool) (spec : rgb_spec)
  (adapted : vector) (r g b : R) :
  lower target_rgb <> "srgb"%string ->
  getitem RGB_SPECS (lower target_rgb) = Ok spec ->
  returns (get_illuminant_xyz cobj) ->
  illuminant cobj <> native_illum spec ->
  apply_XYZ_transformation cobj (illuminant cobj) (native_illum spec)
                           "bradford" = Ok adapted ->
  apply_RGB_matrix (fst (fst adapted)) (snd (fst adapted)) (snd adapted)
                   (lower target_rgb) "XYZ_to_RGB" = Ok (r, g, b) ->
  (0 < gamma spec ->
   exists out,
     XYZ_to_RGB cobj target_rgb debug = Ok out
     /\ (r <= 0 -> rgb_r out = Int 0)
     /\ (0 < r ->
         rgb_r out = scale_channel (Float (Rpower r (1 / gamma spec))))
     /\ (1 <= r -> rgb_r out = Int 255)
     /\ (g <= 0 -> rgb_g out = Int 0)
     /\ (0 < g ->
         rgb_g out = scale_channel (Float (Rpower g (1 / gamma spec))))
     /\ (1 <= g -> rgb_g out = Int 255)
     /\ (b <= 0 -> rgb_b out = Int 0)
     /\ (0 < b ->
         rgb_b out = scale_channel (Float (Rpower b (1 / gamma spec))))
     /\ (1 <= b -> rgb_b out = Int 255))
  /\ (gamma spec = 0 ->
      XYZ_to_RGB cobj target_rgb debug = Raise ZeroDivisionError).
Proof.
  intros Hother Hspec Hwp Hne Hadapt Hmatrix.
  rewrite (XYZ_to_RGB_gamma_staged cobj target_rgb debug spec adapted r g b
             Hother Hspec Hwp Hne Hadapt Hmatrix).
  split.
  - intros Hgamma.
    assert (He : 0 <= 1 / gamma spec)
      by (left; apply Rdiv_lt_0_compat; lra).
    assert (Hchannel : forall v,
               exists v',
                 gamma_companding (gamma spec) v = Ok v'
                 /\ (v <= 0 -> scale_channel (Float v') = Int 0)
                 /\ (0 < v -> v' = Rpower v (1 / gamma spec))
                 /\ (1 <= v -> scale_channel (Float v') = Int 255)).
    { intros v. destruct (Rlt_dec 0 v) as [Hpos | Hneg].
      - rewrite gamma_companding_positive by assumption.
        eexists. split; [reflexivity |].
        split; [intros; lra |]. split; [reflexivity |].
        intros Hbig. apply scale_channel_full. cbn [to_float].
        assert (Rpower v 0 <= Rpower v (1 / gamma spec))
          by (apply Rle_Rpower; lra).
        rewrite Rpower_O in H by lra. lra.
      - rewrite gamma_companding_clamped by lra.
        eexists. split; [reflexivity |].
        split; [intros; apply scale_channel_zero; cbn [to_float]; lra |].
        split; intros; lra. }
    destruct (Hchannel r) as (r' & Hr & Hr0 & Hrp & Hr1).
    destruct (Hchannel g) as (g' & Hg & Hg0 & Hgp & Hg1).
    destruct (Hchannel b) as (b' & Hb & Hb0 & Hbp & Hb1).
    rewrite Hr, Hg, Hb. cbn [bind].
    eexists. split; [reflexivity |]. cbn [rgb_r rgb_g rgb_b].
    repeat split; intros Hv; auto.
    + rewrite <- (Hrp Hv). reflexivity.
    + rewrite <- (Hgp Hv). reflexivity.
    + rewrite <- (Hbp Hv). reflexivity.
  - intros Hzero. unfold gamma_companding.
    rewrite fdiv_zero by assumption. reflexivity.
Qed.

(** X9: [apply_XYZ_transformation] looks the names up without regard to
    case, raises [KeyError] when the original illuminant has no entry,
    and multiplies the row (X, Y, Z) by the matrix it finds: with the
    identity matrix it returns X, Y and Z unchanged, and scaling X, Y
    and Z by [k] scales the three results by [k]. *)
Theorem apply_XYZ_transformation_linear
  (cobj : XYZColor) (orig_illum targ_illum adaptation : string) :
  apply_XYZ_transformation cobj (lower orig_illum) (lower targ_illum)
                           (lower adaptation)
  = apply_XYZ_transformation cobj orig_illum targ_illum adaptation
  /\ (ADAPTATION_MATRICES !! lower orig_illum = None ->
   apply_XYZ_transformation cobj orig_illum targ_illum adaptation
   = Raise KeyError)
  /\ (forall to_targ by_method m,
        ADAPTATION_MATRICES !! lower orig_illum = Some to_targ ->
        to_targ !! lower targ_illum = Some by_method ->
        by_method !! lower adaptation = Some m ->
        apply_XYZ_transformation cobj orig_illum targ_illum adaptation
        = Ok (numpy_dot (xyz_x cobj, xyz_y cobj, xyz_z cobj) m)
        /\ (m = identity_matrix ->
            numpy_dot (xyz_x cobj, xyz_y cobj, xyz_z cobj) m
            = (xyz_x cobj, xyz_y cobj, xyz_z cobj))
        /\ (forall k x y z,
              numpy_dot (xyz_x cobj, xyz_y cobj, xyz_z cobj) m = (x, y, z) ->
              apply_XYZ_transformation
                (set_xyz_z (k * xyz_z cobj)
                   (set_xyz_y (k * xyz_y cobj)
                      (set_xyz_x (k * xyz_x cobj) cobj)))
                orig_illum targ_illum adaptation
              = Ok (k * x, k * y, k * z))).
Proof.
  split; [| split].
  - unfold apply_XYZ_transformation. rewrite !lower_idempotent. reflexivity.
  - intros Hnone. unfold apply_XYZ_transformation, getitem.
    rewrite Hnone. reflexivity.
  - intros to_targ by_method m H1 H2 H3.
    assert (Hcall : forall c,
               apply_XYZ_transformation c orig_illum targ_illum adaptation
               = Ok (numpy_dot (xyz_x c, xyz_y c, xyz_z c) m)).
    { intros c. unfold apply_XYZ_transformation, getitem.
      rewrite H1. cbn [bind]. rewrite H2. cbn [bind]. rewrite H3.
      reflexivity. }
    split; [apply Hcall |]. split.
    + intros ->. unfold numpy_dot, identity_matrix.
      f_equal; [f_equal |]; ring.
    + intros k x y z Hdot. rewrite Hcall.
      cbn [xyz_x xyz_y xyz_z set_xyz_x set_xyz_y set_xyz_z].
      destruct m as [[[[m00 m01] m02] [[m10 m11] m12]] [[m20 m21] m22]].
      unfold numpy_dot in *. injection Hdot as <- <- <-.
      f_equal. f_equal; [f_equal |]; ring.
Qed.

End RGBMore.

Lemma numpy_dot_identity (x y z : R) :
  numpy_dot (x, y, z) identity_matrix = (x, y, z).
Proof. unfold numpy_dot, identity_matrix. f_equal; [f_equal |]; ring. Qed.

(** The tables of the worked cases. *)
Lemma example_adaptation (constants : Constants) (x y z : R) :
  ADAPTATION_MATRICES
  = {[ "d50"%string :=
         {[ "d65"%string := {[ "bradford"%string := identity_matrix ]} ]} ]} ->
  apply_XYZ_transformation (xyz_color x y z "d50") "d50" "d65" "bradford"
  = Ok (x, y, z).
Proof.
  intros Htable. unfold apply_XYZ_transformation. rewrite Htable.
  change (getitem _ (lower "d50"))
    with (Ok ({[ "d65"%string :=
                   {[ "bradford"%string := identity_matrix ]} ]}
              : gmap string (gmap string matrix))).
  cbn [bind].
  change (getitem _ (lower "d65"))
    with (Ok ({[ "bradford"%string := identity_matrix ]}
              : gmap string matrix)).
  cbn [bind].
  change (getitem _ (lower "bradford")) with (Ok identity_matrix).
  cbn [bind xyz_color xyz_x xyz_y xyz_z].
  rewrite numpy_dot_identity. reflexivity.
Qed.

Lemma example_rgb_matrix (constants : Constants) (name : string)
  (spec : rgb_spec) (x y z : R) :
  RGB_SPECS !! lower name = Some spec ->
  conversions spec !! "xyz_to_rgb"%string = Some identity_matrix ->
  apply_RGB_matrix x y z name "XYZ_to_RGB" = Ok (x, y, z).
Proof.
  intros Hspec Hconv. unfold apply_RGB_matrix, getitem.
  rewrite Hspec. cbn [bind].
  change (lower "XYZ_to_RGB") with "xyz_to_rgb"%string.
  rewrite Hconv. cbn [bind]. rewrite numpy_dot_identity. reflexivity.
Qed.

Lemma XYZ_to_RGB_unknown_names_witness :
  @XYZ_to_RGB example_colorobjs example_constants
    (xyz_color 0.5 0.5 0.5 "d65") "AdobeRGB" false = Raise KeyError
  /\ @XYZ_to_RGB example_colorobjs example_constants
       (xyz_color 0.5 0.5 0.5 "D65") "sRGB" false = Raise KeyError.
Proof.
  split.
  - apply (proj1 (@XYZ_to_RGB_unknown_names example_colorobjs
                    example_constants (xyz_color 0.5 0.5 0.5 "d65")
                    "AdobeRGB" false)).
    reflexivity.
  - apply (proj2 (@XYZ_to_RGB_unknown_names example_colorobjs
                    example_constants (xyz_color 0.5 0.5 0.5 "D65")
                    "sRGB" false)
             {| native_illum := "d65"; gamma := 2.2;
                conversions :=
                  {[ "xyz_to_rgb"%string := identity_matrix ]} |}).
    + reflexivity.
    + exists D65_white. reflexivity.
    + discriminate.
    + reflexivity.
Defined.

Lemma XYZ_to_RGB_srgb_clips_witness :
  exists out,
    @XYZ_to_RGB example_colorobjs example_constants
      (xyz_color 1 0 2 "d50") "sRGB" false = Ok out
    /\ rgb_r out = Int 255 /\ rgb_g out = Int 0 /\ rgb_b out = Int 255.
Proof.
  destruct (@XYZ_to_RGB_srgb_clips example_colorobjs example_constants
              (xyz_color 1 0 2 "d50") "sRGB" false
              {| native_illum := "d65"; gamma := 2.2;
                 conversions := {[ "xyz_to_rgb"%string := identity_matrix ]} |}
              (1, 0, 2) 1 0 2 eq_refl eq_refl)
    as (out & Hout & _ & Hr & Hg & _ & _ & Hb).
  - exists D50_white. reflexivity.
  - discriminate.
  - apply (example_adaptation example_constants). reflexivity.
  - apply (example_rgb_matrix example_constants "srgb"
             {| native_illum := "d65"; gamma := 2.2;
                conversions :=
                  {[ "xyz_to_rgb"%string := identity_matrix ]} |});
      reflexivity.
  - exists out. split; [assumption |].
    split; [apply Hr; lra |]. split; [apply Hg; lra | apply Hb; lra].
Defined.

Lemma XYZ_to_RGB_gamma_channels_witness :
  exists out,
    @XYZ_to_RGB example_colorobjs gamma_constants
      (xyz_color 1 0 0.5 "d50") "Wide" false = Ok out
    /\ rgb_r out = Int 255 /\ rgb_g out = Int 0
    /\ rgb_b out = scale_channel (Float (Rpower 0.5 (1 / 2.2))).
Proof.
  destruct (@XYZ_to_RGB_gamma_channels example_colorobjs gamma_constants
              (xyz_color 1 0 0.5 "d50") "Wide" false
              {| native_illum := "d65"; gamma := 2.2;
                 conversions := {[ "xyz_to_rgb"%string := identity_matrix ]} |}
              (1, 0, 0.5) 1 0 0.5)
    as [Hpos _].
  - discriminate.
  - reflexivity.
  - exists D50_white. reflexivity.
  - discriminate.
  - apply (example_adaptation gamma_constants). reflexivity.
  - apply (example_rgb_matrix gamma_constants "wide"
             {| native_illum := "d65"; gamma := 2.2;
                conversions :=
                  {[ "xyz_to_rgb"%string := identity_matrix ]} |});
      reflexivity.
  - destruct Hpos as (out & Hout & _ & _ & Hr & Hg & _ & _ & _ & Hb & _).
    + cbn. lra.
    + exists out. split; [assumption |].
      split; [apply Hr; lra |]. split; [apply Hg; lra | apply Hb; lra].
Defined.

Lemma apply_XYZ_transformation_linear_witness :
  @apply_XYZ_transformation example_constants
    (xyz_color 0.2 0.3 0.5 "d50") "D50" "D65" "Bradford"
  = Ok (numpy_dot (0.2, 0.3, 0.5) identity_matrix)
  /\ numpy_dot (0.2, 0.3, 0.5) identity_matrix = (0.2, 0.3, 0.5)
  /\ @apply_XYZ_transformation example_constants
       (xyz_color 0.2 0.3 0.5 "d65") "d65" "d50" "bradford"
     = Raise KeyError.
Proof.
  destruct (@apply_XYZ_transformation_linear example_constants
              (xyz_color 0.2 0.3 0.5 "d50") "D50" "D65" "Bradford")
    as (_ & _ & Hfound).
  destruct (Hfound
              ({[ "d65"%string :=
                    {[ "bradford"%string := identity_matrix ]} ]})
              ({[ "bradford"%string := identity_matrix ]})
              identity_matrix eq_refl eq_refl eq_refl)
    as (Hcall & Hid & _).
  split; [exact Hcall |]. split; [apply Hid; reflexivity |].
  apply (proj1 (proj2 (@apply_XYZ_transformation_linear example_constants
                         (xyz_color 0.2 0.3 0.5 "d65")
                         "d65" "d50" "bradford"))).
  reflexivity.
Defined.

(** ** Polar and rectangular coordinates *)

(** The point at the angle [math_atan2 y x] and at the distance
    [sqrt (x * x + y * y)] is the point (x, y). *)
Lemma polar_of_atan2 (y x : R) :
  sqrt (x * x + y * y) * cos (math_atan2 y x) = x
  /\ sqrt (x * x + y * y) * sin (math_atan2 y x) = y.
Proof.
  set (r := sqrt (x * x + y * y)).
  assert (Hr2 : r * r = x * x + y * y).
  { unfold r. apply sqrt_sqrt. nra. }
  assert (Hr0 : 0 <= r) by (unfold r; apply sqrt_pos).
  unfold math_atan2.
  destruct (Rlt_dec 0 x) as [Hx | Hx].
  - (* x > 0 *)
    assert (Hs : sqrt (1 + (y / x)²) = r / x).
    { apply sqrt_lem_1.
      - unfold Rsqr. nra.
      - apply Rmult_le_pos; [assumption |]. left. apply Rinv_0_lt_compat. lra.
      - replace (r / x * (r / x)) with (r * r / (x * x)) by (field; lra).
        rewrite Hr2. unfold Rsqr. field. lra. }
    assert (Hrpos : 0 < r) by nra.
    rewrite cos_atan, sin_atan, Hs. split; field; lra.
  - destruct (Rlt_dec x 0) as [Hx' | Hx'].
    + assert (Hs : sqrt (1 + (y / x)²) = r / (- x)).
      { apply sqrt_lem_1.
        - unfold Rsqr. nra.
        - apply Rmult_le_pos; [assumption |]. left. apply Rinv_0_lt_compat. lra.
        - replace (r / - x * (r / - x)) with (r * r / (x * x))
            by (field; lra).
          rewrite Hr2. unfold Rsqr. field. lra. }
      assert (Hrpos : 0 < r) by nra.
      destruct (Rle_dec 0 y).
      * rewrite neg_cos, neg_sin, cos_atan, sin_atan, Hs. split; field; lra.
      * replace (atan (y / x) - PI) with (- (PI - atan (y / x))) by ring.
        rewrite cos_neg, sin_neg, Rtrigo_facts.cos_pi_minus.
        rewrite sin_PI_x, cos_atan, sin_atan, Hs. split; field; lra.
    + assert (x = 0) by lra. subst x.
      assert (Hry : r * r = y * y) by lra.
      destruct (Rlt_dec 0 y).
      * rewrite cos_PI2, sin_PI2. split; [ring | nra].
      * destruct (Rlt_dec y 0).
        -- rewrite cos_neg, sin_neg, cos_PI2, sin_PI2. split; [ring | nra].
        -- rewrite cos_0, sin_0. split; nra.
Qed.

(** The angle in degrees that [hue_degrees] makes of [h], turned back
    into radians, is [h] or [h] plus a full turn. *)
Lemma cos_sin_of_hue (h : R) :
  cos (math_radians (hue_degrees h)) = cos h
  /\ sin (math_radians (hue_degrees h)) = sin h.
Proof.
  pose proof PI_RGT_0 as Hpi.
  unfold math_radians, hue_degrees, gtb, math_fabs.
  destruct (Rgt_dec h 0) as [Hpos | Hneg].
  - replace (h / PI * 180 * PI / 180) with h by (field; lra).
    split; reflexivity.
  - rewrite Rabs_left1 by lra.
    replace ((360 - - h / PI * 180) * PI / 180) with (h + 2 * PI)
      by (field; lra).
    rewrite cos_plus, sin_plus, cos_2PI, sin_2PI. split; ring.
Qed.

Section LCHRoundTrips.

Context {colorobjs : Colorobjs}.

(** X10: when [Lab_to_LCH] returns for a Lab colour, [LCH_to_Lab]
    returns on its result with the L, a and b (and the illuminant and
    observer) the first call started from, the hue of 360 that
    a = b = 0 or b = 0 < a produce included. *)
Theorem Lab_LCH_round_trip (cobj : LabColor) (lch : LCHColor) :
  Lab_to_LCH cobj = Ok lch ->
  exists out,
    LCH_to_Lab lch = Ok out
    /\ lab_l out = lab_l cobj /\ lab_a out = lab_a cobj
    /\ lab_b out = lab_b cobj
    /\ same_provenance cobj out.
Proof.
  intros Hcall.
  destruct (Lab_to_LCH_spec cobj) as (lch' & Hlch & Hl & Hc & Hh & Hi & Ho).
  rewrite Hcall in Hlch. injection Hlch as <-.
  unfold LCH_to_Lab. eexists. split; [reflexivity |].
  cbn [lab_l lab_a lab_b set_lab_l set_lab_a set_lab_b].
  rewrite Hl, Hc, Hh.
  destruct (cos_sin_of_hue (math_atan2 (lab_b cobj) (lab_a cobj)))
    as [Hcos Hsin].
  destruct (polar_of_atan2 (lab_b cobj) (lab_a cobj)) as [Ha Hb].
  rewrite Hcos, Hsin.
  split; [reflexivity |]. split; [rewrite Rmult_comm; exact Ha |].
  split; [rewrite Rmult_comm; exact Hb |].
  unfold same_provenance.
  cbn [illuminant observer Lab_ColorObject LCH_ColorObject lab_illuminant
       lab_observer set_lab_l set_lab_a set_lab_b _transfer_common
       set_illuminant set_observer] in *.
  split; assumption.
Qed.

(** What [Luv_to_LCH] returns. *)
Lemma Luv_to_LCH_spec (cobj : LuvColor) :
  exists out,
    Luv_to_LCH cobj = Ok out
    /\ lch_l out = lch_l new_LCHColor
    /\ lch_c out = sqrt (luv_u cobj * luv_u cobj + luv_v cobj * luv_v cobj)
    /\ lch_h out = hue_degrees (math_atan2 (luv_v cobj) (luv_u cobj))
    /\ same_provenance cobj out.
Proof.
  unfold Luv_to_LCH. rewrite !math_pow_2. cbn [bind].
  unfold math_sqrt.
  destruct (Rlt_dec _ 0) as [Hneg | _]; [nra |].
  cbn [bind].
  unfold hue_degrees.
  cbn [lch_h set_lch_h set_lch_c set_lch_l].
  destruct (gtb _ 0); eexists; repeat split; reflexivity.
Qed.

(** X11: when [Luv_to_LCH] returns, the chroma is
    C = sqrt(u^2 + v^2), which is not negative, and the hue lies in
    [0, 360]; the call never assigns [lch_l], so the L of the result is
    the one the constructor [LCHColor()] left there, whatever the L of
    the argument. *)
Theorem Luv_to_LCH_drops_lightness (cobj : LuvColor) (out : LCHColor) :
  Luv_to_LCH cobj = Ok out ->
  lch_c out = sqrt (luv_u cobj * luv_u cobj + luv_v cobj * luv_v cobj)
  /\ 0 <= lch_c out
  /\ 0 <= lch_h out <= 360
  /\ lch_l out = lch_l new_LCHColor
  /\ forall l, Luv_to_LCH (set_luv_l l cobj) = Ok out.
Proof.
  intros Hcall.
  destruct (Luv_to_LCH_spec cobj) as (out' & Hout & Hl & Hc & Hh & _).
  rewrite Hcall in Hout. injection Hout as <-.
  split; [assumption |].
  split; [rewrite Hc; apply sqrt_pos |].
  split.
  { rewrite Hh.
    pose proof (hue_degrees_range _ (math_atan2_range (luv_v cobj)
                                                      (luv_u cobj))).
    lra. }
  split; [assumption |].
  intros l. rewrite <- Hcall. reflexivity.
Qed.

(** X12: when [Luv_to_LCH] returns for a Luv colour, [LCH_to_Luv]
    returns on its result with the u and v the first call started from;
    its L is the one of the constructor [LCHColor()], not the L of the
    argument. *)
Theorem Luv_LCH_round_trip (cobj : LuvColor) (lch : LCHColor) :
  Luv_to_LCH cobj = Ok lch ->
  exists out,
    LCH_to_Luv lch = Ok out
    /\ luv_u out = luv_u cobj /\ luv_v out = luv_v cobj
    /\ luv_l out = lch_l new_LCHColor
    /\ same_provenance cobj out.
Proof.
  intros Hcall.
  destruct (Luv_to_LCH_spec cobj) as (lch' & Hlch & Hl & Hc & Hh & Hi & Ho).
  rewrite Hcall in Hlch. injection Hlch as <-.
  unfold LCH_to_Luv. eexists. split; [reflexivity |].
  cbn [luv_l luv_u luv_v set_luv_l set_luv_u set_luv_v].
  rewrite Hl, Hc, Hh.
  destruct (cos_sin_of_hue (math_atan2 (luv_v cobj) (luv_u cobj)))
    as [Hcos Hsin].
  destruct (polar_of_atan2 (luv_v cobj) (luv_u cobj)) as [Hu Hv].
  rewrite Hcos, Hsin.
  split; [rewrite Rmult_comm; exact Hu |].
  split; [rewrite Rmult_comm; exact Hv |].
  split; [reflexivity |].
  unfold same_provenance.
  cbn [illuminant observer Luv_ColorObject LCH_ColorObject luv_illuminant
       luv_observer set_luv_l set_luv_u set_luv_v _transfer_common
       set_illuminant set_observer] in *.
  split; assumption.
Qed.

(** What [Lab_to_LCH] makes of the Lab colour that [LCH_to_Lab]
    returns. *)
Lemma LCH_to_Lab_to_LCH_spec (cobj : LCHColor) :
  exists lab out,
    LCH_to_Lab cobj = Ok lab /\ Lab_to_LCH lab = Ok out
    /\ lch_l out = lch_l cobj
    /\ lch_c out = Rabs (lch_c cobj)
    /\ 0 <= lch_h out <= 360
    /\ lch_c out * cos (math_radians (lch_h out))
       = lch_c cobj * cos (math_radians (lch_h cobj))
    /\ lch_c out * sin (math_radians (lch_h out))
       = lch_c cobj * sin (math_radians (lch_h cobj)).
Proof.
  unfold LCH_to_Lab. eexists.
  match goal with
  | |- exists out, Ok ?lab = _ /\ _ =>
      destruct (Lab_to_LCH_spec lab) as (out & Hout & Hl & Hc & Hh & _)
  end.
  exists out. split; [reflexivity |]. split; [assumption |].
  cbn [lab_l lab_a lab_b set_lab_l set_lab_a set_lab_b] in Hl, Hc, Hh.
  split; [assumption |].
  set (t := math_radians (lch_h cobj)) in *.
  set (a := cos t * lch_c cobj) in *.
  set (b := sin t * lch_c cobj) in *.
  split.
  { rewrite Hc. unfold a, b.
    replace (cos t * lch_c cobj * (cos t * lch_c cobj)
             + sin t * lch_c cobj * (sin t * lch_c cobj))
      with ((sin t * sin t + cos t * cos t) * (lch_c cobj)²)
      by (unfold Rsqr; ring).
    pose proof (sin2_cos2 t) as Hone. unfold Rsqr in Hone. rewrite Hone.
    rewrite Rmult_1_l. apply sqrt_Rsqr_abs. }
  split.
  { rewrite Hh.
    pose proof (hue_degrees_range _ (math_atan2_range b a)). lra. }
  destruct (cos_sin_of_hue (math_atan2 b a)) as [Hcos Hsin].
  destruct (polar_of_atan2 b a) as [Ha Hb].
  rewrite Hh, Hc, Hcos, Hsin, Ha, Hb.
  unfold a, b. split; ring.
Qed.

(** X13: [LCH_to_Lab] returns for every LCH colour, and when
    [Lab_to_LCH] returns on its result, it is with the L the first call
    started from and the chroma [|C|]: a negative chroma comes back
    positive. *)
Theorem LCH_Lab_round_trip_chroma (cobj : LCHColor) :
  exists lab,
    LCH_to_Lab cobj = Ok lab
    /\ forall out,
         Lab_to_LCH lab = Ok out ->
         lch_l out = lch_l cobj /\ lch_c out = Rabs (lch_c cobj).
Proof.
  destruct (LCH_to_Lab_to_LCH_spec cobj)
    as (lab & out & Hlab & Hout & Hl & Hc & _).
  exists lab. split; [assumption |].
  intros out' Hout'. rewrite Hout in Hout'. injection Hout' as <-.
  split; assumption.
Qed.

(** X14: for an LCH colour with a positive chroma, when [Lab_to_LCH]
    returns on the result of [LCH_to_Lab], it is with the L and the C
    the first call started from and with a hue in [0, 360] that names
    the same direction as the original hue: the two have the same
    cosine and the same sine. *)
Theorem LCH_Lab_round_trip (cobj : LCHColor) :
  0 < lch_c cobj ->
  exists lab,
    LCH_to_Lab cobj = Ok lab
    /\ forall out,
         Lab_to_LCH lab = Ok out ->
         lch_l out = lch_l cobj /\ lch_c out = lch_c cobj
         /\ 0 <= lch_h out <= 360
         /\ cos (math_radians (lch_h out)) = cos (math_radians (lch_h cobj))
         /\ sin (math_radians (lch_h out)) = sin (math_radians (lch_h cobj)).
Proof.
  intros Hpos.
  destruct (LCH_to_Lab_to_LCH_spec cobj)
    as (lab & out & Hlab & Hout & Hl & Hc & Hrange & Hcos & Hsin).
  exists lab. split; [assumption |].
  intros out' Hout'. rewrite Hout in Hout'. injection Hout' as <-.
  rewrite Rabs_pos_eq in Hc by lra. rewrite Hc in Hcos, Hsin.
  split; [assumption |]. split; [assumption |]. split; [assumption |].
  split.
  - apply (Rmult_eq_reg_l (lch_c cobj)); [assumption | lra].
  - apply (Rmult_eq_reg_l (lch_c cobj)); [assumption | lra].
Qed.

End LCHRoundTrips.

Lemma Lab_LCH_round_trip_witness :
  exists lch out,
    @Lab_to_LCH example_colorobjs (lab_color 50 3 4) = Ok lch
    /\ @LCH_to_Lab example_colorobjs lch = Ok out
    /\ lab_l out = 50 /\ lab_a out = 3 /\ lab_b out = 4.
Proof.
  destruct (@Lab_to_LCH_spec example_colorobjs (lab_color 50 3 4))
    as (lch & Hlch & _).
  destruct (@Lab_LCH_round_trip example_colorobjs (lab_color 50 3 4) lch Hlch)
    as (out & Hout & Hl & Ha & Hb & _).
  exists lch, out. repeat split; assumption.
Defined.

Lemma Luv_to_LCH_drops_lightness_witness :
  exists out,
    @Luv_to_LCH example_colorobjs
      {| luv_l := 50; luv_u := 3; luv_v := 4;
         luv_illuminant := "d65"; luv_observer := "2" |} = Ok out
    /\ 0 <= lch_c out
    /\ 0 <= lch_h out <= 360
    /\ lch_l out = lch_l (@new_LCHColor example_colorobjs).
Proof.
  destruct (@Luv_to_LCH_spec example_colorobjs
              {| luv_l := 50; luv_u := 3; luv_v := 4;
                 luv_illuminant := "d65"; luv_observer := "2" |})
    as (out & Hout & _).
  destruct (@Luv_to_LCH_drops_lightness example_colorobjs _ out Hout)
    as (_ & Hc & Hh & Hl & _).
  exists out. repeat split; first [assumption | apply Hh].
Defined.

Lemma Luv_LCH_round_trip_witness :
  exists lch out,
    @Luv_to_LCH example_colorobjs
      {| luv_l := 50; luv_u := 3; luv_v := 4;
         luv_illuminant := "d65"; luv_observer := "2" |} = Ok lch
    /\ @LCH_to_Luv example_colorobjs lch = Ok out
    /\ luv_u out = 3 /\ luv_v out = 4.
Proof.
  destruct (@Luv_to_LCH_spec example_colorobjs
              {| luv_l := 50; luv_u := 3; luv_v := 4;
                 luv_illuminant := "d65"; luv_observer := "2" |})
    as (lch & Hlch & _).
  destruct (@Luv_LCH_round_trip example_colorobjs _ lch Hlch)
    as (out & Hout & Hu & Hv & _).
  exists lch, out. repeat split; assumption.
Defined.

Lemma LCH_Lab_round_trip_chroma_witness :
  exists lab out,
    @LCH_to_Lab example_colorobjs
      {| lch_l := 50; lch_c := -20; lch_h := 270;
         lch_illuminant := "d65"; lch_observer := "2" |} = Ok lab
    /\ @Lab_to_LCH example_colorobjs lab = Ok out
    /\ lch_l out = 50 /\ lch_c out = 20.
Proof.
  destruct (@LCH_Lab_round_trip_chroma example_colorobjs
              {| lch_l := 50; lch_c := -20; lch_h := 270;
                 lch_illuminant := "d65"; lch_observer := "2" |})
    as (lab & Hlab & Hback).
  destruct (@Lab_to_LCH_spec example_colorobjs lab) as (out & Hout & _).
  destruct (Hback out Hout) as [Hl Hc].
  exists lab, out. split; [assumption |]. split; [assumption |].
  split; [exact Hl |].
  rewrite Hc. cbn [lch_c]. rewrite Rabs_left by lra. lra.
Defined.

Lemma LCH_Lab_round_trip_witness :
  exists lab out,
    @LCH_to_Lab example_colorobjs
      {| lch_l := 50; lch_c := 20; lch_h := 270;
         lch_illuminant := "d65"; lch_observer := "2" |} = Ok lab
    /\ @Lab_to_LCH example_colorobjs lab = Ok out
    /\ lch_l out = 50 /\ lch_c out = 20
    /\ 0 <= lch_h out <= 360
    /\ cos (math_radians (lch_h out)) = cos (math_radians 270)
    /\ sin (math_radians (lch_h out)) = sin (math_radians 270).
Proof.
  destruct (@LCH_Lab_round_trip example_colorobjs
              {| lch_l := 50; lch_c := 20; lch_h := 270;
                 lch_illuminant := "d65"; lch_observer := "2" |})
    as (lab & Hlab & Hback); [cbn; lra |].
  destruct (@Lab_to_LCH_spec example_colorobjs lab) as (out & Hout & _).
  exists lab, out. split; [assumption |]. split; [assumption |].
  exact (Hback out Hout).
Defined.

(** ** More on CMY and CMYK *)

Lemma to_float_sub (a b : num) :
  to_float (num_sub a b) = to_float a - to_float b.
Proof. destruct a, b; cbn; try reflexivity. apply minus_IZR. Qed.

Lemma to_float_min (a b : num) :
  to_float (if num_lt a b then a else b) = Rmin (to_float a) (to_float b).
Proof.
  unfold num_lt. destruct (Rlt_dec (to_float a) (to_float b)).
  - rewrite Rmin_left by lra. reflexivity.
  - rewrite Rmin_right by lra. reflexivity.
Qed.

(** A division whose divisor is [1.0 - k] is a true division. *)
Lemma num_div_one_minus (a k : num) :
  to_float k <> 1 ->
  num_div a (num_sub (Float 1.0) k)
  = Ok (Float (to_float a / (1 - to_float k))).
Proof.
  intros Hk.
  assert (Hden : num_sub (Float 1.0) k = Float (1.0 - to_float k))
    by (destruct k; reflexivity).
  rewrite Hden. unfold num_div.
  assert (Hdiv : forall x : num,
             (if Req_dec_T (to_float (Float (1.0 - to_float k))) 0
              then Raise ZeroDivisionError
              else Ok (Float (to_float x / to_float (Float (1.0 - to_float k)))))
             = Ok (Float (to_float x / (1 - to_float k)))).
  { intros x. cbn [to_float].
    destruct (Req_dec_T (1.0 - to_float k) 0); [lra |].
    do 2 f_equal. f_equal. lra. }
  destruct a; apply Hdiv.
Qed.

Section CMYKMore.

Context {colorobjs : Colorobjs}.

(** What [CMY_to_CMYK] returns, in terms of the minimum it computes. *)
Lemma CMY_to_CMYK_spec {D : Type} (cobj : CMYColor) (cdict : D) :
  let c := to_float (cmy_c cobj) in
  let m := to_float (cmy_m cobj) in
  let y := to_float (cmy_y cobj) in
  let k := Rmin y (Rmin m (Rmin c 1)) in
  exists out,
    CMY_to_CMYK cobj cdict = Ok out
    /\ (k = 1 ->
        to_float (cmyk_c out) = 0 /\ to_float (cmyk_m out) = 0
        /\ to_float (cmyk_y out) = 0)
    /\ (k <> 1 ->
        to_float (cmyk_c out) = (c - k) / (1 - k)
        /\ to_float (cmyk_m out) = (m - k) / (1 - k)
        /\ to_float (cmyk_y out) = (y - k) / (1 - k)).
Proof.
  intros c m y k. unfold CMY_to_CMYK.
  set (k1 := if num_lt (cmy_c cobj) (Float 1.0) then cmy_c cobj else Float 1.0).
  set (k2 := if num_lt (cmy_m cobj) k1 then cmy_m cobj else k1).
  set (k3 := if num_lt (cmy_y cobj) k2 then cmy_y cobj else k2).
  assert (Hk : to_float k3 = k).
  { unfold k3, k2, k1. rewrite !to_float_min. cbn [to_float].
    unfold k, c, m, y. replace 1.0 with 1 by lra. reflexivity. }
  unfold num_eq. cbn [to_float]. rewrite Hk.
  destruct (Req_dec_T k 1) as [Hone | Hless].
  - eexists. split; [reflexivity |].
    cbn [cmyk_c cmyk_m cmyk_y set_cmyk_c set_cmyk_m set_cmyk_y to_float].
    split; [intros _; repeat split; lra | intros; contradiction].
  - rewrite !num_div_one_minus by (rewrite Hk; assumption).
    cbn [bind]. eexists. split; [reflexivity |].
    cbn [cmyk_c cmyk_m cmyk_y set_cmyk_c set_cmyk_m set_cmyk_y to_float].
    rewrite !to_float_sub, Hk.
    split; [intros; contradiction | intros _; repeat split; reflexivity].
Qed.

(** X15: [CMY_to_CMYK] returns for every CMY colour, [int] or [float],
    in range or not: the division by [1 - K] is never a division by 0,
    since K = min(1, C, M, Y) equal to 1 takes the other branch.  The
    result has C' = (C - K) / (1 - K), and likewise M' and Y', when
    K is not 1, and C' = M' = Y' = 0 when it is. *)
Theorem CMY_to_CMYK_always_returns {D : Type} (cobj : CMYColor) (cdict : D) :
  exists out,
    CMY_to_CMYK cobj cdict = Ok out
    /\ let c := to_float (cmy_c cobj) in
       let m := to_float (cmy_m cobj) in
       let y := to_float (cmy_y cobj) in
       let k := Rmin y (Rmin m (Rmin c 1)) in
       (k = 1 ->
        to_float (cmyk_c out) = 0 /\ to_float (cmyk_m out) = 0
        /\ to_float (cmyk_y out) = 0)
       /\ (k <> 1 ->
           to_float (cmyk_c out) = (c - k) / (1 - k)
           /\ to_float (cmyk_m out) = (m - k) / (1 - k)
           /\ to_float (cmyk_y out) = (y - k) / (1 - k)).
Proof. exact (CMY_to_CMYK_spec cobj cdict). Qed.

(** X16: for a CMY colour with C, M and Y between 0 and 1, the C', M'
    and Y' that [CMY_to_CMYK] returns lie between 0 and 1, and at least
    one of them is 0. *)
Theorem CMY_to_CMYK_range {D : Type} (cobj : CMYColor) (cdict : D) :
  0 <= to_float (cmy_c cobj) <= 1 ->
  0 <= to_float (cmy_m cobj) <= 1 ->
  0 <= to_float (cmy_y cobj) <= 1 ->
  exists out,
    CMY_to_CMYK cobj cdict = Ok out
    /\ 0 <= to_float (cmyk_c out) <= 1
    /\ 0 <= to_float (cmyk_m out) <= 1
    /\ 0 <= to_float (cmyk_y out) <= 1
    /\ (to_float (cmyk_c out) = 0 \/ to_float (cmyk_m out) = 0
        \/ to_float (cmyk_y out) = 0).
Proof.
  intros Hc Hm Hy.
  destruct (CMY_to_CMYK_spec cobj cdict) as (out & Hout & Hone & Hless).
  cbv zeta in Hone, Hless.
  set (c := to_float (cmy_c cobj)) in *.
  set (m := to_float (cmy_m cobj)) in *.
  set (y := to_float (cmy_y cobj)) in *.
  remember (Rmin y (Rmin m (Rmin c 1))) as k eqn:Hk.
  exists out. split; [assumption |].
  destruct (Req_dec_T k 1) as [H1 | Hne].
  - destruct (Hone H1) as (-> & -> & ->).
    repeat split; lra.
  - destruct (Hless Hne) as (-> & -> & ->).
    assert (Hmin : k <= y /\ k <= m /\ k <= c /\ k <= 1
                   /\ (k = y \/ k = m \/ k = c \/ k = 1)).
    { assert (Hd : forall a b, Rmin a b = a \/ Rmin a b = b)
        by (intros a b; unfold Rmin; destruct (Rle_dec a b); auto).
      pose proof (Rmin_l c 1). pose proof (Rmin_r c 1).
      pose proof (Rmin_l m (Rmin c 1)). pose proof (Rmin_r m (Rmin c 1)).
      pose proof (Rmin_l y (Rmin m (Rmin c 1))).
      pose proof (Rmin_r y (Rmin m (Rmin c 1))).
      rewrite <- Hk in *.
      repeat (split; [lra |]).
      destruct (Hd y (Rmin m (Rmin c 1))) as [E3 | E3];
        rewrite <- Hk in E3; [left; assumption |].
      destruct (Hd m (Rmin c 1)) as [E2 | E2];
        [right; left; congruence |].
      destruct (Hd c 1) as [E1 | E1];
        [right; right; left; congruence | right; right; right; congruence]. }
    destruct Hmin as (Hky & Hkm & Hkc & Hk1 & Hwhich).
    assert (Hk0 : 0 <= k) by (destruct Hwhich as [-> | [-> | [-> | ->]]]; lra).
    assert (Hden : 0 < 1 - k) by lra.
    assert (Hfrac : forall v, k <= v <= 1 -> 0 <= (v - k) / (1 - k) <= 1).
    { intros v Hv. split.
      - apply Rmult_le_pos; [lra |]. left. apply Rinv_0_lt_compat. lra.
      - apply (Rmult_le_reg_r (1 - k)); [assumption |].
        unfold Rdiv. rewrite Rmult_assoc, Rinv_l by lra. lra. }
    repeat (split; [apply Hfrac; lra |]).
    destruct Hwhich as [Hw | [Hw | [Hw | Hw]]]; [| | | lra].
    + right. right. rewrite <- Hw. unfold Rdiv. ring.
    + right. left. rewrite <- Hw. unfold Rdiv. ring.
    + left. rewrite <- Hw. unfold Rdiv. ring.
Qed.

(** X17: on [float] channels between 0 and 255, [RGB_to_CMY] returns
    C = 1 - R / 255, M = 1 - G / 255 and Y = 1 - B / 255, each between 0
    and 1; on any channels it returns, the divisor being the constant
    255. *)
Theorem RGB_to_CMY_float_range {D : Type} (cobj : RGBColor) (cdict : D)
  (r g b : R) :
  returns (RGB_to_CMY cobj cdict)
  /\ (rgb_r cobj = Float r -> rgb_g cobj = Float g -> rgb_b cobj = Float b ->
      0 <= r <= 255 -> 0 <= g <= 255 -> 0 <= b <= 255 ->
      exists out,
        RGB_to_CMY cobj cdict = Ok out
        /\ cmy_c out = Float (1 - r / 255) /\ 0 <= 1 - r / 255 <= 1
        /\ cmy_m out = Float (1 - g / 255) /\ 0 <= 1 - g / 255 <= 1
        /\ cmy_y out = Float (1 - b / 255) /\ 0 <= 1 - b / 255 <= 1).
Proof.
  split.
  - assert (Hdiv : forall v, returns (num_div v (Int 255))).
    { intros [z | x]; unfold num_div.
      - cbn. eexists; reflexivity.
      - cbn [to_float]. destruct (Req_dec_T 255 0); [lra |].
        eexists; reflexivity. }
    unfold RGB_to_CMY.
    destruct (Hdiv (rgb_r cobj)) as [qr ->].
    destruct (Hdiv (rgb_g cobj)) as [qg ->].
    destruct (Hdiv (rgb_b cobj)) as [qb ->].
    cbn [bind]. eexists; reflexivity.
  - intros Hr Hg Hb Rr Rg Rb.
    destruct (RGB_to_CMY_float_channels cobj cdict r g b Hr Hg Hb)
      as (out & Hout & Hc & Hm & Hy).
    exists out. repeat (split; [first [assumption | lra] |]). lra.
Qed.

End CMYKMore.

Lemma CMY_to_CMYK_range_witness :
  exists out,
    @CMY_to_CMYK example_colorobjs unit
      (cmy_color (Float 0.2) (Float 0.5) (Float 0.6)) tt = Ok out
    /\ 0 <= to_float (cmyk_c out) <= 1
    /\ 0 <= to_float (cmyk_m out) <= 1
    /\ 0 <= to_float (cmyk_y out) <= 1
    /\ (to_float (cmyk_c out) = 0 \/ to_float (cmyk_m out) = 0
        \/ to_float (cmyk_y out) = 0).
Proof.
  apply (@CMY_to_CMYK_range example_colorobjs unit
           (cmy_color (Float 0.2) (Float 0.5) (Float 0.6)) tt); cbn; lra.
Defined.

Lemma RGB_to_CMY_float_range_witness :
  exists out,
    @RGB_to_CMY example_colorobjs unit
      (rgb_color (Float 128) (Float 0) (Float 255)) tt = Ok out
    /\ cmy_c out = Float (1 - 128 / 255)
    /\ cmy_m out = Float (1 - 0 / 255)
    /\ cmy_y out = Float (1 - 255 / 255).
Proof.
  destruct (proj2 (@RGB_to_CMY_float_range example_colorobjs unit
                     (rgb_color (Float 128) (Float 0) (Float 255)) tt
                     128 0 255) eq_refl eq_refl eq_refl)
    as (out & Hout & Hc & _ & Hm & _ & Hy & _); [lra | lra | lra |].
  exists out. repeat (split; [assumption |]). assumption.
Defined.

(** ** More on XYZ, Lab and Luv *)

Lemma cie_forward_one : cie_forward 1 = Ok 1.
Proof.
  replace 1 with (1 * 1 * 1) at 1 by ring. apply cie_forward_cube. lra.
Qed.

Lemma cie_forward_zero : cie_forward 0 = Ok (16.0 / 116.0).
Proof.
  unfold cie_forward. rewrite gtb_false by lra. f_equal. lra.
Qed.

(** The forward step stays between its values at 0 and at 1. *)
Lemma cie_forward_bounds (t : R) :
  0 <= t <= 1 ->
  exists f, cie_forward t = Ok f /\ 16.0 / 116.0 <= f <= 1.
Proof.
  intros [H0 H1]. unfold cie_forward.
  destruct (Rgt_dec t 0.008856) as [Hgt | Hle].
  - rewrite gtb_true by assumption. rewrite math_pow_pos by lra.
    eexists. split; [reflexivity |]. split.
    + assert (Hlow : Rpower (0.2 * 0.2 * 0.2) (1.0 / 3.0)
                     <= Rpower t (1.0 / 3.0))
        by (apply Rle_Rpower_l; lra).
      rewrite Rpower_third_of_cube in Hlow by lra. lra.
    + assert (Hhigh : Rpower t (1.0 / 3.0) <= Rpower (1 * 1 * 1) (1.0 / 3.0))
        by (apply Rle_Rpower_l; lra).
      rewrite Rpower_third_of_cube in Hhigh by lra. lra.
  - rewrite gtb_false by lra. eexists. split; [reflexivity |]. lra.
Qed.

Section LabMore.

Context {colorobjs : Colorobjs}.

(** X18: with a reference white that has no zero component,
    [XYZ_to_Lab] returns for every XYZ colour (the cube root is only
    taken of values above 0.008856); a colour proportional to the
    white, X = t Xn / 100, Y = t Yn / 100, Z = t Zn / 100, gets
    a = b = 0, with L = 100 for the white itself (t = 1) and L = 0 for
    black (t = 0).  With a zero in the reference white the call raises
    [ZeroDivisionError]. *)
Theorem XYZ_to_Lab_neutral_axis (cobj : XYZColor) (wp : white_point) :
  get_illuminant_xyz cobj = Ok wp ->
  (wp_X wp <> 0 -> wp_Y wp <> 0 -> wp_Z wp <> 0 ->
   returns (XYZ_to_Lab cobj)
   /\ forall t,
        xyz_x cobj = t * wp_X wp / 100 ->
        xyz_y cobj = t * wp_Y wp / 100 ->
        xyz_z cobj = t * wp_Z wp / 100 ->
        exists out,
          XYZ_to_Lab cobj = Ok out
          /\ lab_a out = 0 /\ lab_b out = 0
          /\ (t = 1 -> lab_l out = 100)
          /\ (t = 0 -> lab_l out = 0))
  /\ (wp_X wp = 0 \/ wp_Y wp = 0 \/ wp_Z wp = 0 ->
      XYZ_to_Lab cobj = Raise ZeroDivisionError).
Proof.
  intros Hwp. split.
  - intros HX HY HZ.
    destruct (XYZ_to_Lab_spec cobj wp Hwp HX HY HZ)
      as (fx & fy & fz & out & Hfx & Hfy & Hfz & Hout & Hl & Ha & Hb & _).
    split; [exists out; assumption |].
    intros t Ex Ey Ez. exists out. split; [assumption |].
    assert (Tx : xyz_x cobj * 100.0 / wp_X wp = t)
      by (rewrite Ex; replace 100.0 with 100 by lra; field; assumption).
    assert (Ty : xyz_y cobj * 100.0 / wp_Y wp = t)
      by (rewrite Ey; replace 100.0 with 100 by lra; field; assumption).
    assert (Tz : xyz_z cobj * 100.0 / wp_Z wp = t)
      by (rewrite Ez; replace 100.0 with 100 by lra; field; assumption).
    rewrite Tx in Hfx. rewrite Ty in Hfy. rewrite Tz in Hfz.
    assert (fx = fy) by congruence. assert (fz = fy) by congruence.
    subst fx fz.
    split; [rewrite Ha; lra |]. split; [rewrite Hb; lra |].
    split; intros ->.
    + rewrite cie_forward_one in Hfy. injection Hfy as <-. rewrite Hl. lra.
    + rewrite cie_forward_zero in Hfy. injection Hfy as <-. rewrite Hl. lra.
  - intros Hzero. unfold XYZ_to_Lab. rewrite Hwp. cbn [bind].
    destruct (Req_dec_T (wp_X wp) 0) as [HX | HX];
      [rewrite (fdiv_zero _ _ HX); reflexivity |].
    rewrite (fdiv_ok _ _ HX). cbn [bind].
    destruct (Req_dec_T (wp_Y wp) 0) as [HY | HY];
      [rewrite (fdiv_zero _ _ HY); reflexivity |].
    rewrite (fdiv_ok _ _ HY). cbn [bind].
    destruct (Req_dec_T (wp_Z wp) 0) as [HZ | HZ];
      [rewrite (fdiv_zero _ _ HZ); reflexivity |].
    destruct Hzero as [? | [? | ?]]; contradiction.
Qed.

(** X19: with a reference white that has no zero component, an XYZ
    colour whose Y lies between 0 and the Y of the white (on the scale
    0-1) gets a lightness L between 0 and 100. *)
Theorem XYZ_to_Lab_lightness_range (cobj : XYZColor) (wp : white_point) :
  get_illuminant_xyz cobj = Ok wp ->
  wp_X wp <> 0 -> 0 < wp_Y wp -> wp_Z wp <> 0 ->
  0 <= xyz_y cobj <= wp_Y wp / 100 ->
  exists out, XYZ_to_Lab cobj = Ok out /\ 0 <= lab_l out <= 100.
Proof.
  intros Hwp HX HY HZ Hrange.
  destruct (XYZ_to_Lab_spec cobj wp Hwp HX (Rgt_not_eq _ _ HY) HZ)
    as (fx & fy & fz & out & _ & Hfy & _ & Hout & Hl & _).
  exists out. split; [assumption |].
  assert (Ht : 0 <= xyz_y cobj * 100.0 / wp_Y wp <= 1).
  { assert (Hinv : 0 < / wp_Y wp) by (apply Rinv_0_lt_compat; assumption).
    unfold Rdiv in *. split.
    - apply Rmult_le_pos; lra.
    - apply (Rmult_le_reg_r (wp_Y wp)); [assumption |].
      rewrite Rmult_assoc, Rinv_l by lra. lra. }
  destruct (cie_forward_bounds _ Ht) as (f & Hf & Hbounds).
  rewrite Hfy in Hf. injection Hf as <-. rewrite Hl. lra.
Qed.

(** X20: with a reference white that has no zero component,
    [XYZ_to_Lab] returns, and when [Lab_to_XYZ] returns on its result,
    the attributes [xyz_x], [xyz_y] and [xyz_z] that it leaves on the
    Lab colour hold the X, Y and Z the round trip started from (the
    values the returned object should have had), and its L, a and b are
    untouched. *)
Theorem Lab_round_trip_lands_on_argument (cobj : XYZColor) (wp : white_point) :
  get_illuminant_xyz cobj = Ok wp ->
  wp_X wp <> 0 -> wp_Y wp <> 0 -> wp_Z wp <> 0 ->
  exists labcolor,
    XYZ_to_Lab cobj = Ok labcolor
    /\ forall after out,
         Lab_to_XYZ labcolor = Ok (after, out) ->
         lab_dict after !! "xyz_x"%string = Some (xyz_x cobj)
         /\ lab_dict after !! "xyz_y"%string = Some (xyz_y cobj)
         /\ lab_dict after !! "xyz_z"%string = Some (xyz_z cobj)
         /\ lab_l after = lab_l labcolor /\ lab_a after = lab_a labcolor
         /\ lab_b after = lab_b labcolor.
Proof.
  intros Hwp HX HY HZ.
  destruct (XYZ_to_Lab_spec cobj wp Hwp HX HY HZ)
    as (fx & fy & fz & lab & Hfx & Hfy & Hfz & Hlab & Hl & Ha & Hb & Hi & Ho & _).
  assert (Hwp' : get_illuminant_xyz lab = Ok wp).
  { unfold get_illuminant_xyz in *. rewrite Hi, Ho. exact Hwp. }
  exists lab. split; [assumption |].
  intros after' out' Hcall'.
  destruct (Lab_to_XYZ_spec lab wp Hwp')
    as (after & out & Hcall & _ & _ & _ & _ & _ & Hafter).
  rewrite Hcall in Hcall'. injection Hcall' as <- <-.
  rewrite Hl, Ha, Hb in Hafter.
  replace ((116.0 * fy - 16.0 + 16.0) / 116.0) with fy in Hafter by lra.
  replace (500.0 * (fx - fy) / 500.0 + fy) with fx in Hafter by lra.
  replace (fy - 200.0 * (fy - fz) / 200.0) with fz in Hafter by lra.
  destruct (cie_forward_inverse (xyz_x cobj * 100.0 / wp_X wp)) as [fx' [Hfx' Hix]].
  destruct (cie_forward_inverse (xyz_y cobj * 100.0 / wp_Y wp)) as [fy' [Hfy' Hiy]].
  destruct (cie_forward_inverse (xyz_z cobj * 100.0 / wp_Z wp)) as [fz' [Hfz' Hiz]].
  assert (fx' = fx) by congruence. assert (fy' = fy) by congruence.
  assert (fz' = fz) by congruence. subst fx' fy' fz'.
  rewrite Hix, Hiy, Hiz in Hafter.
  rewrite !Lab_setattr_foreign in Hafter by discriminate.
  rewrite Hafter.
  cbn [lab_dict lab_l lab_a lab_b set_lab_dict].
  replace (wp_X wp * (xyz_x cobj * 100.0 / wp_X wp) / 100) with (xyz_x cobj)
    by (replace 100.0 with 100 by lra; field; assumption).
  replace (wp_Y wp * (xyz_y cobj * 100.0 / wp_Y wp) / 100) with (xyz_y cobj)
    by (replace 100.0 with 100 by lra; field; assumption).
  replace (wp_Z wp * (xyz_z cobj * 100.0 / wp_Z wp) / 100) with (xyz_z cobj)
    by (replace 100.0 with 100 by lra; field; assumption).
  split; [| split; [| split]].
  - rewrite lookup_insert_ne by discriminate.
    rewrite lookup_insert_ne by discriminate.
    apply lookup_insert_eq.
  - rewrite lookup_insert_ne by discriminate.
    apply lookup_insert_eq.
  - apply lookup_insert_eq.
  - repeat split; reflexivity.
Qed.

End LabMore.

Section LuvMore.

Context {colorobjs : Colorobjs}.

(** X21: [XYZ_to_Luv] raises [ZeroDivisionError] on every colour with
    X + 15 Y + 3 Z = 0, black included, whatever the reference white;
    on a colour proportional to the white, X = t Xn / 100 and so on with
    t not 0, it returns u = v = 0, and L = 100 for the white itself. *)
Theorem XYZ_to_Luv_black_and_white (cobj : XYZColor) :
  (xyz_x cobj * 100.0 + 15.0 * (xyz_y cobj * 100.0)
   + 3.0 * (xyz_z cobj * 100.0) = 0 ->
   XYZ_to_Luv cobj = Raise ZeroDivisionError)
  /\ (forall wp t,
        get_illuminant_xyz cobj = Ok wp ->
        wp_Y wp <> 0 ->
        wp_X wp + 15.0 * wp_Y wp + 3.0 * wp_Z wp <> 0 ->
        t <> 0 ->
        xyz_x cobj = t * wp_X wp / 100 ->
        xyz_y cobj = t * wp_Y wp / 100 ->
        xyz_z cobj = t * wp_Z wp / 100 ->
        exists out,
          XYZ_to_Luv cobj = Ok out
          /\ luv_u out = 0 /\ luv_v out = 0
          /\ (t = 1 -> luv_l out = 100)).
Proof.
  split.
  - intros Hzero. unfold XYZ_to_Luv.
    rewrite fdiv_zero by assumption. reflexivity.
  - intros wp t Hwp HY Hdn Ht Ex Ey Ez.
    set (dn := wp_X wp + 15.0 * wp_Y wp + 3.0 * wp_Z wp) in *.
    assert (Hd : xyz_x cobj * 100.0 + 15.0 * (xyz_y cobj * 100.0)
                 + 3.0 * (xyz_z cobj * 100.0) = t * dn).
    { rewrite Ex, Ey, Ez. unfold dn. lra. }
    assert (Hd0 : xyz_x cobj * 100.0 + 15.0 * (xyz_y cobj * 100.0)
                  + 3.0 * (xyz_z cobj * 100.0) <> 0).
    { rewrite Hd. apply Rmult_integral_contrapositive_currified; assumption. }
    destruct (cie_forward_inverse (xyz_y cobj * 100.0 / wp_Y wp))
      as (fy & Hfy & _).
    destruct (XYZ_to_Luv_spec cobj wp fy Hwp Hd0 HY Hdn Hfy)
      as (out & Hout & Hl & Hu & Hv & _).
    exists out. split; [assumption |].
    cbv zeta in Hu, Hv. rewrite Hd in Hu, Hv. fold dn in Hu, Hv.
    assert (Eu : 4.0 * (xyz_x cobj * 100.0) / (t * dn) = 4.0 * wp_X wp / dn).
    { rewrite Ex. replace 100.0 with 100 by lra. field. split; assumption. }
    assert (Ev : 9.0 * (xyz_y cobj * 100.0) / (t * dn) = 9.0 * wp_Y wp / dn).
    { rewrite Ey. replace 100.0 with 100 by lra. field. split; assumption. }
    rewrite Eu in Hu. rewrite Ev in Hv.
    split; [rewrite Hu; ring |]. split; [rewrite Hv; ring |].
    intros ->.
    assert (Ty : xyz_y cobj * 100.0 / wp_Y wp = 1)
      by (rewrite Ey; replace 100.0 with 100 by lra; field; assumption).
    rewrite Ty, cie_forward_one in Hfy. injection Hfy as <-.
    rewrite Hl. lra.
Qed.

(** X22: [Luv_to_XYZ] raises [ZeroDivisionError] on every Luv colour
    with L = 0 (given a reference white with Xn + 15 Yn + 3 Zn not 0),
    and its result never depends on [luv_v]: two colours that differ
    only in v get the same answer. *)
Theorem Luv_to_XYZ_zero_lightness (cobj : LuvColor) :
  (forall wp,
     get_illuminant_xyz cobj = Ok wp ->
     wp_X wp + 15.0 * wp_Y wp + 3.0 * wp_Z wp <> 0 ->
     luv_l cobj = 0 ->
     Luv_to_XYZ cobj = Raise ZeroDivisionError)
  /\ (forall v, Luv_to_XYZ (set_luv_v v cobj) = Luv_to_XYZ cobj).
Proof.
  split.
  - intros wp Hwp Hdn HL. unfold Luv_to_XYZ.
    change (get_illuminant_xyz _) with (get_illuminant_xyz cobj).
    rewrite Hwp. cbn [bind].
    rewrite !(fdiv_ok _ _ Hdn). cbn [bind].
    rewrite fdiv_zero; [reflexivity |]. rewrite HL. ring.
  - intros v. reflexivity.
Qed.

End LuvMore.

Lemma XYZ_to_Lab_neutral_axis_witness :
  exists out,
    @XYZ_to_Lab example_colorobjs (xyz_color 0.95047 1 1.08883 "d65") = Ok out
    /\ lab_a out = 0 /\ lab_b out = 0 /\ lab_l out = 100.
Proof.
  destruct (proj1 (@XYZ_to_Lab_neutral_axis example_colorobjs
                     (xyz_color 0.95047 1 1.08883 "d65") D65_white eq_refl))
    as (_ & Hgrey); [cbn; lra | cbn; lra | cbn; lra |].
  destruct (Hgrey 1) as (out & Hout & Ha & Hb & Hl & _);
    [cbn; lra | cbn; lra | cbn; lra |].
  exists out. repeat (split; [assumption |]). apply Hl. reflexivity.
Defined.

Lemma XYZ_to_Lab_lightness_range_witness :
  exists out,
    @XYZ_to_Lab example_colorobjs (xyz_color 0.2 0.3 0.5 "d65") = Ok out
    /\ 0 <= lab_l out <= 100.
Proof.
  apply (@XYZ_to_Lab_lightness_range example_colorobjs
           (xyz_color 0.2 0.3 0.5 "d65") D65_white eq_refl); cbn; lra.
Defined.

Lemma Lab_round_trip_lands_on_argument_witness :
  exists labcolor after out,
    @XYZ_to_Lab example_colorobjs (xyz_color 0.2 0.3 0.5 "d65") = Ok labcolor
    /\ @Lab_to_XYZ example_colorobjs labcolor = Ok (after, out)
    /\ lab_dict after !! "xyz_x"%string = Some 0.2
    /\ lab_dict after !! "xyz_y"%string = Some 0.3
    /\ lab_dict after !! "xyz_z"%string = Some 0.5.
Proof.
  destruct (@Lab_round_trip_lands_on_argument example_colorobjs
              (xyz_color 0.2 0.3 0.5 "d65") D65_white eq_refl)
    as (lab & Hlab & Hback);
    [cbn; lra | cbn; lra | cbn; lra |].
  assert (Hwp : @get_illuminant_xyz example_colorobjs _ _ lab = Ok D65_white).
  { pose proof (@XYZ_to_Lab_spec example_colorobjs
                  (xyz_color 0.2 0.3 0.5 "d65") D65_white eq_refl) as Hspec.
    destruct Hspec as (fx & fy & fz & lab' & _ & _ & _ & Hlab' & _ & _ & _
                       & Hi & Ho & _); [cbn; lra | cbn; lra | cbn; lra |].
    rewrite Hlab in Hlab'. injection Hlab' as <-.
    unfold get_illuminant_xyz. rewrite Hi, Ho. reflexivity. }
  destruct (@Lab_to_XYZ_spec example_colorobjs lab D65_white Hwp)
    as (after & out & Hcall & _).
  destruct (Hback after out Hcall) as (Hx & Hy & Hz & _).
  exists lab, after, out. repeat (split; [assumption |]). assumption.
Defined.

Lemma XYZ_to_Luv_black_and_white_witness :
  @XYZ_to_Luv example_colorobjs (xyz_color 0 0 0 "d65")
  = Raise ZeroDivisionError
  /\ exists out,
       @XYZ_to_Luv example_colorobjs (xyz_color 0.95047 1 1.08883 "d65")
       = Ok out
       /\ luv_u out = 0 /\ luv_v out = 0 /\ luv_l out = 100.
Proof.
  split.
  - apply (proj1 (@XYZ_to_Luv_black_and_white example_colorobjs
                    (xyz_color 0 0 0 "d65"))).
    cbn. lra.
  - destruct (proj2 (@XYZ_to_Luv_black_and_white example_colorobjs
                       (xyz_color 0.95047 1 1.08883 "d65"))
                D65_white 1 eq_refl)
      as (out & Hout & Hu & Hv & Hl);
      [cbn; lra | cbn; lra | lra | cbn; lra | cbn; lra | cbn; lra |].
    exists out. repeat (split; [assumption |]). apply Hl. reflexivity.
Defined.

Lemma Luv_to_XYZ_zero_lightness_witness :
  @Luv_to_XYZ example_colorobjs
    {| luv_l := 0; luv_u := 10; luv_v := 20;
       luv_illuminant := "d65"; luv_observer := "2" |}
  = Raise ZeroDivisionError.
Proof.
  apply (proj1 (@Luv_to_XYZ_zero_lightness example_colorobjs
                  {| luv_l := 0; luv_u := 10; luv_v := 20;
                     luv_illuminant := "d65"; luv_observer := "2" |})
           D65_white eq_refl).
  - cbn. lra.
  - reflexivity.
Defined.

(** ** Spectral readings *)

(** [numpy.dot] on two arrays returns exactly when their lengths agree,
    and then it is the sum of the products. *)
Lemma numpy_dot_1d_same_length (a b : list R) :
  length a = length b -> numpy_dot_1d a b = Ok (dot_sum a b).
Proof.
  revert b. induction a as [| x a IH]; intros [| y b] Hlen;
    try discriminate; [reflexivity |].
  cbn [numpy_dot_1d dot_sum]. rewrite IH by (cbn in Hlen; lia).
  reflexivity.
Qed.

Lemma numpy_dot_1d_mismatch (a b : list R) :
  length a <> length b -> numpy_dot_1d a b = Raise ValueError.
Proof.
  revert b. induction a as [| x a IH]; intros [| y b] Hlen;
    try reflexivity; [contradiction |].
  cbn [numpy_dot_1d]. rewrite IH by (cbn in Hlen; lia). reflexivity.
Qed.

Lemma numpy_dot_1d_returns_length (a b : list R) (d : R) :
  numpy_dot_1d a b = Ok d -> length a = length b /\ d = dot_sum a b.
Proof.
  intros Hd.
  destruct (decide (length a = length b)) as [Heq | Hne].
  - split; [assumption |].
    rewrite numpy_dot_1d_same_length in Hd by assumption. congruence.
  - rewrite numpy_dot_1d_mismatch in Hd by assumption. discriminate.
Qed.

Lemma dot_sum_scale (k : R) (a b : list R) :
  dot_sum (map (Rmult k) a) b = k * dot_sum a b.
Proof.
  revert b. induction a as [| x a IH]; intros [| y b]; cbn [map dot_sum];
    try ring.
  rewrite IH. ring.
Qed.

Lemma dot_sum_add (a a' b : list R) :
  length a = length a' ->
  dot_sum (zip_with Rplus a a') b = dot_sum a b + dot_sum a' b.
Proof.
  revert a' b. induction a as [| x a IH]; intros [| x' a'] [| y b] Hlen;
    try discriminate; cbn [zip_with dot_sum]; try ring.
  rewrite IH by (cbn in Hlen; lia). ring.
Qed.

Lemma dot_sum_nonneg (a b : list R) :
  Forall (fun x => 0 <= x) a -> Forall (fun y => 0 <= y) b ->
  0 <= dot_sum a b.
Proof.
  intros Ha. revert b. induction Ha as [| x a Hx Ha IH]; intros b Hb.
  - cbn. lra.
  - destruct Hb as [| y b Hy Hb]; cbn [dot_sum]; [lra |].
    specialize (IH b Hb). nra.
Qed.

Section SpectralProperties.

Context {colorobjs : Colorobjs} {spectral : SpectralConstants}.

(** What [Spectral_to_XYZ] does once the weighting arrays are found. *)
Lemma Spectral_to_XYZ_spec {D : Type} (cobj : SpectralColor) (cdict : D)
  (by_observer : gmap string (gmap string (list R)))
  (illuminants : gmap string (list R)) (wX wY wZ : list R) :
  SPECTRAL_DISTS !! observer cobj = Some by_observer ->
  by_observer !! lower (illuminant cobj) = Some illuminants ->
  illuminants !! "X"%string = Some wX ->
  illuminants !! "Y"%string = Some wY ->
  illuminants !! "Z"%string = Some wZ ->
  Spectral_to_XYZ cobj cdict
  = (let* dX := numpy_dot_1d (spec_samples cobj) wX in
     let* dY := numpy_dot_1d (spec_samples cobj) wY in
     let* dZ := numpy_dot_1d (spec_samples cobj) wZ in
     Ok {| xyz_x := dX / 100.0; xyz_y := dY / 100.0; xyz_z := dZ / 100.0;
           xyz_illuminant := illuminant cobj;
           xyz_observer := observer cobj |}).
Proof.
  intros Hobs Hill HX HY HZ. unfold Spectral_to_XYZ, getitem.
  rewrite Hobs. cbn [bind]. rewrite Hill. cbn [bind].
  rewrite HX, HY, HZ. cbn [bind].
  destruct (numpy_dot_1d (spec_samples cobj) wX); cbn [bind]; [| reflexivity].
  destruct (numpy_dot_1d (spec_samples cobj) wY); cbn [bind]; [| reflexivity].
  destruct (numpy_dot_1d (spec_samples cobj) wZ); cbn [bind]; reflexivity.
Qed.

(** X23: [Spectral_to_XYZ] raises [KeyError] for an observer or a
    (lower-cased) illuminant that the table does not have; with the
    three weighting arrays found, it raises [ValueError] when the number
    of readings differs from the length of one of them, and otherwise
    returns X, Y and Z as the sum of the products of readings and
    weights, divided by 100. *)
Theorem Spectral_to_XYZ_outcomes {D : Type} (cobj : SpectralColor) (cdict : D) :
  (SPECTRAL_DISTS !! observer cobj = None ->
   Spectral_to_XYZ cobj cdict = Raise KeyError)
  /\ (forall by_observer,
        SPECTRAL_DISTS !! observer cobj = Some by_observer ->
        by_observer !! lower (illuminant cobj) = None ->
        Spectral_to_XYZ cobj cdict = Raise KeyError)
  /\ (forall by_observer illuminants wX wY wZ,
        SPECTRAL_DISTS !! observer cobj = Some by_observer ->
        by_observer !! lower (illuminant cobj) = Some illuminants ->
        illuminants !! "X"%string = Some wX ->
        illuminants !! "Y"%string = Some wY ->
        illuminants !! "Z"%string = Some wZ ->
        (length (spec_samples cobj) <> length wX
         \/ length (spec_samples cobj) <> length wY
         \/ length (spec_samples cobj) <> length wZ ->
         Spectral_to_XYZ cobj cdict = Raise ValueError)
        /\ (length (spec_samples cobj) = length wX ->
            length (spec_samples cobj) = length wY ->
            length (spec_samples cobj) = length wZ ->
            exists out,
              Spectral_to_XYZ cobj cdict = Ok out
              /\ xyz_x out = dot_sum (spec_samples cobj) wX / 100
              /\ xyz_y out = dot_sum (spec_samples cobj) wY / 100
              /\ xyz_z out = dot_sum (spec_samples cobj) wZ / 100)).
Proof.
  split; [| split].
  - intros Hnone. unfold Spectral_to_XYZ, getitem. rewrite Hnone. reflexivity.
  - intros by_observer Hobs Hnone. unfold Spectral_to_XYZ, getitem.
    rewrite Hobs. cbn [bind]. rewrite Hnone. reflexivity.
  - intros by_observer illuminants wX wY wZ Hobs Hill HX HY HZ.
    rewrite (Spectral_to_XYZ_spec cobj cdict _ _ _ _ _ Hobs Hill HX HY HZ).
    split.
    + intros Hlen.
      destruct (decide (length (spec_samples cobj) = length wX)) as [EX | NX];
        [| rewrite (numpy_dot_1d_mismatch _ _ NX); reflexivity].
      rewrite (numpy_dot_1d_same_length _ _ EX). cbn [bind].
      destruct (decide (length (spec_samples cobj) = length wY)) as [EY | NY];
        [| rewrite (numpy_dot_1d_mismatch _ _ NY); reflexivity].
      rewrite (numpy_dot_1d_same_length _ _ EY). cbn [bind].
      destruct (decide (length (spec_samples cobj) = length wZ)) as [EZ | NZ];
        [| rewrite (numpy_dot_1d_mismatch _ _ NZ); reflexivity].
      destruct Hlen as [? | [? | ?]]; contradiction.
    + intros EX EY EZ.
      rewrite (numpy_dot_1d_same_length _ _ EX),
              (numpy_dot_1d_same_length _ _ EY),
              (numpy_dot_1d_same_length _ _ EZ).
      cbn [bind]. eexists. split; [reflexivity |].
      cbn [xyz_x xyz_y xyz_z]. repeat split; f_equal; lra.
Qed.

(** X24: [Spectral_to_XYZ] is linear in the readings: when it returns
    for a colour, it returns for the colour with every reading
    multiplied by [k], with X, Y and Z multiplied by [k]; and when it
    returns for two colours of one illuminant and observer, it returns
    for the colour whose readings are their sums, with the sums of
    their X, Y and Z. *)
Theorem Spectral_to_XYZ_linear {D : Type} (cobj : SpectralColor) (cdict : D)
  (out : XYZColor) :
  Spectral_to_XYZ cobj cdict = Ok out ->
  (forall k,
     exists scaled,
       Spectral_to_XYZ
         (set_spec_samples (map (Rmult k) (spec_samples cobj)) cobj) cdict
       = Ok scaled
       /\ xyz_x scaled = k * xyz_x out /\ xyz_y scaled = k * xyz_y out
       /\ xyz_z scaled = k * xyz_z out)
  /\ (forall samples' out',
        Spectral_to_XYZ (set_spec_samples samples' cobj) cdict = Ok out' ->
        exists both,
          Spectral_to_XYZ
            (set_spec_samples
               (zip_with Rplus (spec_samples cobj) samples') cobj) cdict
          = Ok both
          /\ xyz_x both = xyz_x out + xyz_x out'
          /\ xyz_y both = xyz_y out + xyz_y out'
          /\ xyz_z both = xyz_z out + xyz_z out').
Proof.
  intros Hout.
  destruct (SPECTRAL_DISTS !! observer cobj) as [by_observer |] eqn:Hobs;
    [| unfold Spectral_to_XYZ, getitem in Hout; rewrite Hobs in Hout;
       discriminate].
  destruct (by_observer !! lower (illuminant cobj)) as [illuminants |] eqn:Hill;
    [| unfold Spectral_to_XYZ, getitem in Hout; rewrite Hobs in Hout;
       cbn [bind] in Hout; rewrite Hill in Hout; discriminate].
  assert (Hkeys : exists wX wY wZ,
             illuminants !! "X"%string = Some wX
             /\ illuminants !! "Y"%string = Some wY
             /\ illuminants !! "Z"%string = Some wZ).
  { unfold Spectral_to_XYZ, getitem in Hout. rewrite Hobs in Hout.
    cbn [bind] in Hout. rewrite Hill in Hout. cbn [bind] in Hout.
    destruct (illuminants !! "X"%string) as [wX |]; [| discriminate].
    cbn [bind] in Hout.
    destruct (numpy_dot_1d _ wX); [| discriminate]. cbn [bind] in Hout.
    destruct (illuminants !! "Y"%string) as [wY |]; [| discriminate].
    cbn [bind] in Hout.
    destruct (numpy_dot_1d _ wY); [| discriminate]. cbn [bind] in Hout.
    destruct (illuminants !! "Z"%string) as [wZ |]; [| discriminate].
    exists wX, wY, wZ. repeat split; reflexivity. }
  destruct Hkeys as (wX & wY & wZ & HX & HY & HZ).
  assert (Hspec : forall c : SpectralColor,
             observer c = observer cobj -> illuminant c = illuminant cobj ->
             Spectral_to_XYZ c cdict
             = (let* dX := numpy_dot_1d (spec_samples c) wX in
                let* dY := numpy_dot_1d (spec_samples c) wY in
                let* dZ := numpy_dot_1d (spec_samples c) wZ in
                Ok {| xyz_x := dX / 100.0; xyz_y := dY / 100.0;
                      xyz_z := dZ / 100.0;
                      xyz_illuminant := illuminant c;
                      xyz_observer := observer c |})).
  { intros c Ho Hi.
    apply (Spectral_to_XYZ_spec c cdict by_observer illuminants);
      rewrite ?Ho, ?Hi; assumption. }
  assert (Hvalues : forall c o,
             observer c = observer cobj -> illuminant c = illuminant cobj ->
             Spectral_to_XYZ c cdict = Ok o ->
             length (spec_samples c) = length wX
             /\ length (spec_samples c) = length wY
             /\ length (spec_samples c) = length wZ
             /\ xyz_x o = dot_sum (spec_samples c) wX / 100.0
             /\ xyz_y o = dot_sum (spec_samples c) wY / 100.0
             /\ xyz_z o = dot_sum (spec_samples c) wZ / 100.0).
  { intros c o Ho Hi Hc. rewrite (Hspec c Ho Hi) in Hc.
    destruct (numpy_dot_1d (spec_samples c) wX) as [dX |] eqn:EX;
      [| discriminate].
    destruct (numpy_dot_1d (spec_samples c) wY) as [dY |] eqn:EY;
      [| discriminate].
    destruct (numpy_dot_1d (spec_samples c) wZ) as [dZ |] eqn:EZ;
      [| discriminate].
    cbn [bind] in Hc. injection Hc as <-.
    destruct (numpy_dot_1d_returns_length _ _ _ EX) as [LX ->].
    destruct (numpy_dot_1d_returns_length _ _ _ EY) as [LY ->].
    destruct (numpy_dot_1d_returns_length _ _ _ EZ) as [LZ ->].
    repeat split; first [assumption | reflexivity]. }
  destruct (Hvalues cobj out eq_refl eq_refl Hout)
    as (LX & LY & LZ & VX & VY & VZ).
  split.
  - intros k.
    rewrite (Hspec (set_spec_samples _ cobj) eq_refl eq_refl).
    cbn [spec_samples set_spec_samples].
    rewrite !numpy_dot_1d_same_length by (rewrite length_map; assumption).
    cbn [bind]. eexists. split; [reflexivity |].
    cbn [xyz_x xyz_y xyz_z]. rewrite !dot_sum_scale, VX, VY, VZ.
    repeat split; lra.
  - intros samples' out' Hout'.
    destruct (Hvalues (set_spec_samples samples' cobj) out' eq_refl eq_refl
                Hout')
      as (LX' & LY' & LZ' & VX' & VY' & VZ').
    cbn [spec_samples set_spec_samples] in *.
    rewrite (Hspec (set_spec_samples _ cobj) eq_refl eq_refl).
    cbn [spec_samples set_spec_samples].
    assert (Hlen : length (zip_with Rplus (spec_samples cobj) samples')
                   = length (spec_samples cobj)).
    { rewrite length_zip_with. lia. }
    rewrite !numpy_dot_1d_same_length by (rewrite Hlen; assumption).
    cbn [bind]. eexists. split; [reflexivity |].
    cbn [xyz_x xyz_y xyz_z].
    rewrite !dot_sum_add by lia. rewrite VX, VY, VZ, VX', VY', VZ'.
    repeat split; lra.
Qed.

(** X25: with readings and weights that are not negative,
    [Spectral_to_XYZ] never returns a negative X, Y or Z. *)
Theorem Spectral_to_XYZ_nonnegative {D : Type} (cobj : SpectralColor)
  (cdict : D) (out : XYZColor) :
  Forall (fun x => 0 <= x) (spec_samples cobj) ->
  (forall observer_name by_observer illuminant_name illuminants key weights,
     SPECTRAL_DISTS !! observer_name = Some by_observer ->
     by_observer !! illuminant_name = Some illuminants ->
     illuminants !! key = Some weights ->
     Forall (fun y => 0 <= y) weights) ->
  Spectral_to_XYZ cobj cdict = Ok out ->
  0 <= xyz_x out /\ 0 <= xyz_y out /\ 0 <= xyz_z out.
Proof.
  intros Hsamples Hweights Hout.
  unfold Spectral_to_XYZ, getitem in Hout.
  destruct (SPECTRAL_DISTS !! observer cobj) as [by_observer |] eqn:Hobs;
    [| discriminate].
  cbn [bind] in Hout.
  destruct (by_observer !! lower (illuminant cobj)) as [illuminants |] eqn:Hill;
    [| discriminate].
  cbn [bind] in Hout.
  destruct (illuminants !! "X"%string) as [wX |] eqn:HX; [| discriminate].
  cbn [bind] in Hout.
  destruct (numpy_dot_1d _ wX) as [dX |] eqn:EX; [| discriminate].
  cbn [bind] in Hout.
  destruct (illuminants !! "Y"%string) as [wY |] eqn:HY; [| discriminate].
  cbn [bind] in Hout.
  destruct (numpy_dot_1d _ wY) as [dY |] eqn:EY; [| discriminate].
  cbn [bind] in Hout.
  destruct (illuminants !! "Z"%string) as [wZ |] eqn:HZ; [| discriminate].
  cbn [bind] in Hout.
  destruct (numpy_dot_1d _ wZ) as [dZ |] eqn:EZ; [| discriminate].
  cbn [bind] in Hout. injection Hout as <-.
  destruct (numpy_dot_1d_returns_length _ _ _ EX) as [_ ->].
  destruct (numpy_dot_1d_returns_length _ _ _ EY) as [_ ->].
  destruct (numpy_dot_1d_returns_length _ _ _ EZ) as [_ ->].
  pose proof (dot_sum_nonneg _ wX Hsamples
                (Hweights _ _ _ _ _ _ Hobs Hill HX)) as PX.
  pose proof (dot_sum_nonneg _ wY Hsamples
                (Hweights _ _ _ _ _ _ Hobs Hill HY)) as PY.
  pose proof (dot_sum_nonneg _ wZ Hsamples
                (Hweights _ _ _ _ _ _ Hobs Hill HZ)) as PZ.
  cbn. repeat split; lra.
Qed.

End SpectralProperties.

Lemma Spectral_to_XYZ_outcomes_witness :
  (exists out,
     @Spectral_to_XYZ example_colorobjs example_spectral unit
       (spectral_color [1; 2; 3]) tt = Ok out
     /\ xyz_x out = dot_sum [1; 2; 3] [10; 20; 30] / 100
     /\ xyz_y out = dot_sum [1; 2; 3] [20; 50; 10] / 100
     /\ xyz_z out = dot_sum [1; 2; 3] [60; 10; 0] / 100)
  /\ @Spectral_to_XYZ example_colorobjs example_spectral unit
       (spectral_color [1; 2]) tt = Raise ValueError.
Proof.
  split.
  - apply (proj2 (proj2 (proj2
             (@Spectral_to_XYZ_outcomes example_colorobjs example_spectral
                unit (spectral_color [1; 2; 3]) tt))
             _ _ [10; 20; 30] [20; 50; 10] [60; 10; 0]
             eq_refl eq_refl eq_refl eq_refl eq_refl));
      reflexivity.
  - apply (proj1 (proj2 (proj2
             (@Spectral_to_XYZ_outcomes example_colorobjs example_spectral
                unit (spectral_color [1; 2]) tt))
             _ _ [10; 20; 30] [20; 50; 10] [60; 10; 0]
             eq_refl eq_refl eq_refl eq_refl eq_refl)).
    left. cbn. lia.
Defined.

Lemma Spectral_to_XYZ_linear_witness :
  exists out scaled,
    @Spectral_to_XYZ example_colorobjs example_spectral unit
      (spectral_color [1; 2; 3]) tt = Ok out
    /\ @Spectral_to_XYZ example_colorobjs example_spectral unit
         (spectral_color [2 * 1; 2 * 2; 2 * 3]) tt = Ok scaled
    /\ xyz_x scaled = 2 * xyz_x out /\ xyz_y scaled = 2 * xyz_y out
    /\ xyz_z scaled = 2 * xyz_z out.
Proof.
  eexists.
  destruct (proj1 (@Spectral_to_XYZ_linear example_colorobjs example_spectral
                     unit (spectral_color [1; 2; 3]) tt _ eq_refl) 2)
    as (scaled & Hscaled & Hvalues).
  exists scaled. split; [reflexivity |]. split; [exact Hscaled | exact Hvalues].
Defined.

Lemma Spectral_to_XYZ_nonnegative_witness :
  exists out,
    @Spectral_to_XYZ example_colorobjs example_spectral unit
      (spectral_color [1; 2; 3]) tt = Ok out
    /\ 0 <= xyz_x out /\ 0 <= xyz_y out /\ 0 <= xyz_z out.
Proof.
  eexists. split; [reflexivity |].
  apply (@Spectral_to_XYZ_nonnegative example_colorobjs example_spectral
           unit (spectral_color [1; 2; 3]) tt).
  - cbn. repeat constructor; lra.
  - intros o bo i il key w Ho Hbo Hil.
    cbn in Ho. apply lookup_singleton_Some in Ho as [_ <-].
    apply lookup_singleton_Some in Hbo as [_ <-].
    apply lookup_insert_Some in Hil as [[_ <-] | [_ Hil]];
      [repeat constructor; lra |].
    apply lookup_insert_Some in Hil as [[_ <-] | [_ Hil]];
      [repeat constructor; lra |].
    apply lookup_singleton_Some in Hil as [_ <-].
    repeat constructor; lra.
  - reflexivity.
Defined.

(** ** The RGB working matrix and the way back from RGB *)

Lemma numpy_dot_scale (k : R) (v1 v2 v3 x y z : R) (m : matrix) :
  numpy_dot (v1, v2, v3) m = (x, y, z) ->
  numpy_dot (k * v1, k * v2, k * v3) m = (k * x, k * y, k * z).
Proof.
  destruct m as [[[[m00 m01] m02] [[m10 m11] m12]] [[m20 m21] m22]].
  unfold numpy_dot. intros Hdot. injection Hdot as <- <- <-.
  f_equal; [f_equal |]; ring.
Qed.

Lemma numpy_dot_add (v1 v2 v3 w1 w2 w3 x y z x' y' z' : R) (m : matrix) :
  numpy_dot (v1, v2, v3) m = (x, y, z) ->
  numpy_dot (w1, w2, w3) m = (x', y', z') ->
  numpy_dot (v1 + w1, v2 + w2, v3 + w3) m = (x + x', y + y', z + z').
Proof.
  destruct m as [[[[m00 m01] m02] [[m10 m11] m12]] [[m20 m21] m22]].
  unfold numpy_dot. intros Hv Hw.
  injection Hv as <- <- <-. injection Hw as <- <- <-.
  f_equal; [f_equal |]; ring.
Qed.

Section WorkingMatrix.

Context {colorobjs : Colorobjs} {constants : Constants}.

(** X26: [apply_RGB_matrix] looks both names up without regard to case
    and raises [KeyError] for a working space or a conversion that the
    table does not have.  With a matrix found it returns the row
    (var1, var2, var3) times the matrix, so that it is linear in the
    row, and a second call with a matrix that undoes the first gives the
    row back. *)
Theorem apply_RGB_matrix_linear
  (var1 var2 var3 : R) (rgb_type convtype : string) :
  apply_RGB_matrix var1 var2 var3 (lower rgb_type) (lower convtype)
  = apply_RGB_matrix var1 var2 var3 rgb_type convtype
  /\ (RGB_SPECS !! lower rgb_type = None ->
      apply_RGB_matrix var1 var2 var3 rgb_type convtype = Raise KeyError)
  /\ (forall spec,
        RGB_SPECS !! lower rgb_type = Some spec ->
        conversions spec !! lower convtype = None ->
        apply_RGB_matrix var1 var2 var3 rgb_type convtype = Raise KeyError)
  /\ (forall spec m x y z,
        RGB_SPECS !! lower rgb_type = Some spec ->
        conversions spec !! lower convtype = Some m ->
        numpy_dot (var1, var2, var3) m = (x, y, z) ->
        apply_RGB_matrix var1 var2 var3 rgb_type convtype = Ok (x, y, z)
        /\ (forall k,
              apply_RGB_matrix (k * var1) (k * var2) (k * var3)
                               rgb_type convtype
              = Ok (k * x, k * y, k * z))
        /\ (forall w1 w2 w3 x' y' z',
              apply_RGB_matrix w1 w2 w3 rgb_type convtype = Ok (x', y', z') ->
              apply_RGB_matrix (var1 + w1) (var2 + w2) (var3 + w3)
                               rgb_type convtype
              = Ok (x + x', y + y', z + z'))
        /\ (forall back m',
              conversions spec !! lower back = Some m' ->
              (forall v, numpy_dot (numpy_dot v m) m' = v) ->
              apply_RGB_matrix x y z rgb_type back
              = Ok (var1, var2, var3))).
Proof.
  split; [| split; [| split]].
  - unfold apply_RGB_matrix. rewrite !lower_idempotent. reflexivity.
  - intros Hnone. unfold apply_RGB_matrix, getitem. rewrite Hnone.
    reflexivity.
  - intros spec Hspec Hnone. unfold apply_RGB_matrix, getitem.
    rewrite Hspec. cbn [bind]. rewrite Hnone. reflexivity.
  - intros spec m x y z Hspec Hm Hdot.
    assert (Hcall : forall a b c name m0,
               conversions spec !! lower name = Some m0 ->
               apply_RGB_matrix a b c rgb_type name
               = Ok (numpy_dot (a, b, c) m0)).
    { intros a b c name m0 Hm0. unfold apply_RGB_matrix, getitem.
      rewrite Hspec. cbn [bind]. rewrite Hm0. reflexivity. }
    split; [| split; [| split]].
    + rewrite (Hcall _ _ _ _ _ Hm), Hdot. reflexivity.
    + intros k. rewrite (Hcall _ _ _ _ _ Hm).
      rewrite (numpy_dot_scale k _ _ _ _ _ _ _ Hdot). reflexivity.
    + intros w1 w2 w3 x' y' z' Hw.
      rewrite (Hcall _ _ _ _ _ Hm) in Hw. injection Hw as Hw.
      rewrite (Hcall _ _ _ _ _ Hm).
      rewrite (numpy_dot_add _ _ _ _ _ _ _ _ _ _ _ _ _ Hdot Hw).
      reflexivity.
    + intros back m' Hm' Hinv.
      rewrite (Hcall _ _ _ _ _ Hm'), <- Hdot, Hinv. reflexivity.
Qed.

(** X27: [RGB_to_XYZ] does not undo [XYZ_to_RGB]: on the colour that
    [XYZ_to_RGB] returns for [cobj] it returns X = Y = Z = 0.5 with the
    illuminant and observer of [cobj], which is not [cobj] as soon as
    one of the X, Y and Z of [cobj] differs from 0.5; and it returns the
    same for any two RGB colours of one illuminant and observer. *)
Theorem RGB_to_XYZ_after_XYZ_to_RGB {D : Type}
  (cobj : XYZColor) (target_rgb : string) (debug : bool) (cdict : D)
  (rgb : RGBColor) :
  XYZ_to_RGB cobj target_rgb debug = Ok rgb ->
  (exists back,
     RGB_to_XYZ rgb cdict = Ok back
     /\ xyz_x back = 0.5 /\ xyz_y back = 0.5 /\ xyz_z back = 0.5
     /\ same_provenance cobj back
     /\ (xyz_x cobj <> 0.5 \/ xyz_y cobj <> 0.5 \/ xyz_z cobj <> 0.5 ->
         back <> cobj))
  /\ (forall other : RGBColor,
        same_provenance rgb other ->
        RGB_to_XYZ other cdict = RGB_to_XYZ rgb cdict).
Proof.
  intros Hrgb.
  pose proof (XYZ_to_RGB_provenance cobj target_rgb debug) as Hprov.
  rewrite Hrgb in Hprov. cbn [ensures] in Hprov.
  destruct Hprov as [Hill Hobs]. split.
  - eexists. split; [reflexivity |].
    cbn. repeat split; try assumption.
    intros Hne Heq. rewrite <- Heq in Hne. cbn in Hne.
    destruct Hne as [Hne | [Hne | Hne]]; apply Hne; reflexivity.
  - intros other [Hill' Hobs']. unfold RGB_to_XYZ. cbn.
    cbn in Hill', Hobs'. rewrite Hill', Hobs'. reflexivity.
Qed.

End WorkingMatrix.

(** The conversion of the worked case of a gamma working space. *)
Lemma gamma_example_conversion :
  @XYZ_to_RGB example_colorobjs gamma_constants
    (xyz_color 1 0 0.5 "d50") "Wide" false
  = Ok {| rgb_r := scale_channel (Float (Rpower 1 (1 / 2.2)));
          rgb_g := scale_channel (Float 0);
          rgb_b := scale_channel (Float (Rpower 0.5 (1 / 2.2)));
          rgb_illuminant := "d50"; rgb_observer := "2" |}.
Proof.
  rewrite (@XYZ_to_RGB_gamma_staged example_colorobjs gamma_constants
             (xyz_color 1 0 0.5 "d50") "Wide" false
             {| native_illum := "d65"; gamma := 2.2;
                conversions := {[ "xyz_to_rgb"%string := identity_matrix ]} |}
             (1, 0, 0.5) 1 0 0.5).
  - cbn [gamma].
    rewrite (gamma_companding_positive 2.2 1) by lra. cbn [bind].
    rewrite (gamma_companding_clamped 2.2 0) by lra. cbn [bind].
    rewrite (gamma_companding_positive 2.2 0.5) by lra. cbn [bind].
    reflexivity.
  - discriminate.
  - reflexivity.
  - exists D50_white. reflexivity.
  - discriminate.
  - apply (example_adaptation gamma_constants). reflexivity.
  - apply (example_rgb_matrix gamma_constants "wide"
             {| native_illum := "d65"; gamma := 2.2;
                conversions :=
                  {[ "xyz_to_rgb"%string := identity_matrix ]} |});
      reflexivity.
Qed.

Lemma apply_RGB_matrix_linear_witness :
  @apply_RGB_matrix example_constants 0.2 0.3 0.5 "sRGB" "XYZ_to_RGB"
  = Ok (0.2, 0.3, 0.5)
  /\ @apply_RGB_matrix example_constants (2 * 0.2) (2 * 0.3) (2 * 0.5)
       "sRGB" "XYZ_to_RGB"
     = Ok (2 * 0.2, 2 * 0.3, 2 * 0.5)
  /\ @apply_RGB_matrix example_constants 0.2 0.3 0.5 "sRGB" "RGB_to_XYZ"
     = Raise KeyError.
Proof.
  destruct (proj2 (proj2 (proj2
              (@apply_RGB_matrix_linear example_constants
                 0.2 0.3 0.5 "sRGB" "XYZ_to_RGB")))
              {| native_illum := "d65"; gamma := 2.2;
                 conversions := {[ "xyz_to_rgb"%string := identity_matrix ]} |}
              identity_matrix 0.2 0.3 0.5 eq_refl eq_refl)
    as (Hcall & Hscale & _).
  - apply numpy_dot_identity.
  - split; [exact Hcall |]. split; [exact (Hscale 2) |].
    apply (proj1 (proj2 (proj2
             (@apply_RGB_matrix_linear example_constants
                0.2 0.3 0.5 "sRGB" "RGB_to_XYZ")))
             {| native_illum := "d65"; gamma := 2.2;
                conversions := {[ "xyz_to_rgb"%string := identity_matrix ]} |}
             eq_refl eq_refl).
Defined.

Lemma RGB_to_XYZ_after_XYZ_to_RGB_witness :
  exists rgb back,
    @XYZ_to_RGB example_colorobjs gamma_constants
      (xyz_color 1 0 0.5 "d50") "Wide" false = Ok rgb
    /\ @RGB_to_XYZ example_colorobjs unit rgb tt = Ok back
    /\ xyz_x back = 0.5 /\ xyz_y back = 0.5 /\ xyz_z back = 0.5
    /\ back <> xyz_color 1 0 0.5 "d50".
Proof.
  eexists.
  destruct (proj1 (@RGB_to_XYZ_after_XYZ_to_RGB
                     example_colorobjs gamma_constants unit
                     (xyz_color 1 0 0.5 "d50") "Wide" false tt _
                     gamma_example_conversion))
    as (back & Hback & Hx & Hy & Hz & _ & Hne).
  exists back. split; [exact gamma_example_conversion |].
  split; [exact Hback |]. repeat split; try assumption.
  apply Hne. left. cbn. lra.
Defined.
